(** * Monash handbook scraper: requisite evaluation and curriculum parsing

    A shallow embedding of
    - [utils/string_utils.go], [utils/json_navigator.go]   (module [Utils]),
    - [scrapers/units/requisite_checker.go] and its types  (module [Units]),
    - the curriculum parser of [scrapers/common]           (module [Common]),
    - [utils/helper.go], the compression of requisites of the unit scraper
      and the list extractors of [scrapers/courses]
      (modules [Utils], [Units] and [Courses]),
    followed by the properties proved about them. *)

From Stdlib Require Import String Ascii List ZArith Lia Bool.
Import ListNotations.
Local Open Scope string_scope.
Local Open Scope list_scope.

(** Induction over trees whose children sit in a [list]. *)
Scheme All for list.
Scheme All for prod.

(** ** utils: raw documents, string helpers and the path navigator *)

Module Utils.

(** A raw document as [encoding/json] decodes it into [interface{}]:
    [nil], [bool], [float64], [string], [[]interface{}] and
    [map[string]interface{}].  No function below inspects a number, which is
    kept as the text it was read from.  A map is a list of bindings read by
    key; a key is bound at most once in a decoded document. *)
Inductive JSON :=
| JNull
| JBool (b : bool)
| JNumber (literal : string)
| JString (s : string)
| JArray (items : list JSON)
| JObject (fields : list (string * JSON)).

Definition JMap := list (string * JSON).

(** [value, exists := m[key]] *)
Fixpoint mapIndex (key : string) (m : JMap) : option JSON :=
  match m with
  | [] => None
  | (k, v) :: rest => if (k =? key)%string then Some v else mapIndex key rest
  end.

(** [m[key]] in its one-value form: [nil] when the key is absent. *)
Definition mapGet (key : string) (m : JMap) : JSON :=
  match mapIndex key m with
  | Some v => v
  | None => JNull
  end.

(** [if value, exists := m[key]; exists { present value } else { absent }],
    in the form that lets a recursive parser descend into the value. *)
Section WithField.
Context {R : Type} (key : string) (present : JSON -> R) (absent : R).

Fixpoint withFieldIn (m : JMap) : R :=
  match m with
  | [] => absent
  | (k, v) :: rest =>
      if (k =? key)%string then present v else withFieldIn rest
  end.

End WithField.

Definition withField {R : Type} (key : string) (m : JMap)
           (present : JSON -> R) (absent : R) : R :=
  withFieldIn key present absent m.

(** [m[key] = v] *)
Fixpoint mapSet (key : string) (v : JSON) (m : JMap) : JMap :=
  match m with
  | [] => [(key, v)]
  | (k, x) :: rest =>
      if (k =? key)%string then (k, v) :: rest else (k, x) :: mapSet key v rest
  end.

(** [s, _ := v.(string)] *)
Definition stringOrZero (v : JSON) : string :=
  match v with
  | JString s => s
  | _ => ""
  end.

(** [m, _ := v.(map[string]interface{})]; a nil map reads as an empty one. *)
Definition mapOrZero (v : JSON) : JMap :=
  match v with
  | JObject m => m
  | _ => []
  end.

(** *** string_utils.go *)

Definition isDigit (c : ascii) : bool :=
  ((48 <=? nat_of_ascii c) && (nat_of_ascii c <=? 57))%nat.

Fixpoint digitRun (s : string) : string :=
  match s with
  | String c rest => if isDigit c then String c (digitRun rest) else ""
  | EmptyString => ""
  end.

(** [regexp.MustCompile("[0-9]+").FindString(s)]: the leftmost, longest run
    of ASCII digits, or the empty string. *)
Fixpoint FindDigits (s : string) : string :=
  match s with
  | String c rest => if isDigit c then String c (digitRun rest) else FindDigits rest
  | EmptyString => ""
  end.

Fixpoint allDigits (s : string) : bool :=
  match s with
  | String c rest => isDigit c && allDigits rest
  | EmptyString => true
  end.

Fixpoint digitsValue (s : string) (n : Z) : Z :=
  match s with
  | String c rest => digitsValue rest (n * 10 + Z.of_nat (nat_of_ascii c - 48))
  | EmptyString => n
  end.

(** [int] is 64 bits wide. *)
Definition maxInt : Z := 2 ^ 63 - 1.
Definition minInt : Z := - 2 ^ 63.

(** [strconv.Atoi]: the value and whether an error is returned.  A syntax
    error gives 0, a range error the nearest bound. *)
Definition Atoi (s : string) : Z * bool :=
  let '(neg, digits) :=
    match s with
    | String "-" rest => (true, rest)
    | String "+" rest => (false, rest)
    | _ => (false, s)
    end in
  match digits with
  | EmptyString => (0, true)
  | _ =>
      if negb (allDigits digits) then (0, true)
      else
        let un := digitsValue digits 0 in
        if neg then
          if (2 ^ 63 <? un) then (minInt, true) else (- un, false)
        else
          if (2 ^ 63 <=? un) then (maxInt, true) else (un, false)
  end%Z.

(** [StringToInt] extracts the first integer from a string; the error of
    [Atoi] is dropped ([num, _ := strconv.Atoi(numStr)]). *)
Definition StringToInt (s : string) : Z :=
  let numStr := FindDigits s in
  let '(num, _) := Atoi numStr in
  num.

Definition newline : ascii := ascii_of_nat 10.

(** [\s] of the regexp syntax: tab, newline, form feed, carriage return, space. *)
Definition isSpace (c : ascii) : bool :=
  let n := nat_of_ascii c in
  ((n =? 9) || (n =? 10) || (n =? 12) || (n =? 13) || (n =? 32))%nat.

(** After ["<br"]: [\s*/?>]; [n] counts the characters matched so far. *)
Fixpoint brTail (s : string) (n : nat) : option nat :=
  match s with
  | String c rest =>
      if isSpace c then brTail rest (S n)
      else if (c =? "/")%char then
        match rest with
        | String ">" _ => Some (n + 2)%nat
        | _ => None
        end
      else if (c =? ">")%char then Some (S n)
      else None
  | EmptyString => None
  end.

(** Length of the match of [<br\s*/?>] at the start of [s], if any. *)
Definition matchBr (s : string) : option nat :=
  match s with
  | String "<" (String "b" (String "r" rest)) => brTail rest 3
  | _ => None
  end.

(** [re.ReplaceAllString(s, "\n")] for [<br\s*/?>]: matches are taken left
    to right and do not overlap; [skip] counts the characters of the current
    match still to be dropped. *)
Fixpoint replaceBr (s : string) (skip : nat) : string :=
  match s with
  | EmptyString => ""
  | String c rest =>
      match skip with
      | S k => replaceBr rest k
      | O =>
          match matchBr s with
          | Some n => String newline (replaceBr rest (n - 1))
          | None => String c (replaceBr rest 0)
          end
      end
  end.

Fixpoint hasClose (s : string) : bool :=
  match s with
  | String c rest => (c =? ">")%char || hasClose rest
  | EmptyString => false
  end.

(** [re.ReplaceAllString(s, "")] for [<[^>]*>]: a ["<"] that is followed by
    a [">"] opens a match that ends at the first such [">"]. *)
Fixpoint stripTags (s : string) (inTag : bool) : string :=
  match s with
  | EmptyString => ""
  | String c rest =>
      if inTag then stripTags rest (negb (c =? ">")%char)
      else if (c =? "<")%char && hasClose rest then stripTags rest true
      else String c (stripTags rest false)
  end.

Definition RemoveHTMLTags (s : string) : string :=
  let s := replaceBr s 0 in
  stripTags s false.

(** *** json_navigator.go *)

(** [for _, char := range path] decodes the UTF-8 encoding of one rune at a
    time.  [runeWidth s] is the number of bytes of the rune encoded at the
    start of [s]: 1 for an ASCII byte, 2 to 4 for a leading byte followed by
    the continuation bytes its range asks for (shortest encodings only, no
    surrogate, nothing above U+10FFFF), and 0 when the bytes there encode no
    rune.  In that last case the loop yields U+FFFD and moves on by one
    byte. *)
Definition byteIn (lo hi : nat) (c : ascii) : bool :=
  ((lo <=? nat_of_ascii c) && (nat_of_ascii c <=? hi))%nat.

Definition runeWidth (s : string) : nat :=
  match s with
  | EmptyString => 0
  | String c0 rest =>
      if byteIn 0 127 c0 then 1
      else if byteIn 194 223 c0 then
        match rest with
        | String c1 _ => if byteIn 128 191 c1 then 2 else 0
        | _ => 0
        end
      else if byteIn 224 239 c0 then
        match rest with
        | String c1 (String c2 _) =>
            if byteIn (if (nat_of_ascii c0 =? 224)%nat then 160 else 128)
                      (if (nat_of_ascii c0 =? 237)%nat then 159 else 191) c1
               && byteIn 128 191 c2
            then 3 else 0
        | _ => 0
        end
      else if byteIn 240 244 c0 then
        match rest with
        | String c1 (String c2 (String c3 _)) =>
            if byteIn (if (nat_of_ascii c0 =? 240)%nat then 144 else 128)
                      (if (nat_of_ascii c0 =? 244)%nat then 143 else 191) c1
               && byteIn 128 191 c2 && byteIn 128 191 c3
            then 4 else 0
        | _ => 0
        end
      else 0
  end.

(** [string(utf8.RuneError)]: the three bytes EF BF BD of U+FFFD. *)
Definition runeError : string :=
  String (ascii_of_nat 239) (String (ascii_of_nat 191) (String (ascii_of_nat 189) "")).

(** Loop of [splitFieldPath] over the runes of the path.  [string(char)]
    encodes the rune again, which gives back the bytes it was decoded from,
    or [runeError] for bytes that encode no rune.  [pending] counts the
    bytes of the current rune still to be copied; the dot is a rune of one
    byte. *)
Fixpoint splitFieldPathLoop (path : string) (pending : nat) (keys : list string)
         (current : string) : list string :=
  match path with
  | String byte rest =>
      match pending with
      | S more => splitFieldPathLoop rest more keys (current ++ String byte "")%string
      | O =>
          match runeWidth path with
          | O => splitFieldPathLoop rest 0 keys (current ++ runeError)%string
          | S more =>
              if (byte =? ".")%char then
                if negb (current =? "")%string
                then splitFieldPathLoop rest 0 (keys ++ [current]) ""
                else splitFieldPathLoop rest 0 keys current
              else splitFieldPathLoop rest more keys (current ++ String byte "")%string
          end
      end
  | EmptyString =>
      if negb (current =? "")%string then keys ++ [current] else keys
  end.

Definition splitFieldPath (path : string) : list string :=
  splitFieldPathLoop path 0 [] "".

(** Loop of [findInterface]; [None] stands for a returned error, whose text
    is only logged by the caller.  The value is returned at the last key
    ([len(traversedPath) == len(keys)]). *)
Fixpoint findInterfaceLoop (current : JMap) (keys : list string) : option JSON :=
  match keys with
  | [] => None
  | key :: rest =>
      match mapIndex key current with
      | None => None
      | Some value =>
          match rest with
          | [] => Some value
          | _ =>
              match value with
              | JObject nestedMap => findInterfaceLoop nestedMap rest
              | _ => None
              end
          end
      end
  end.

Definition findInterface (data : JMap) (path : string) : option JSON :=
  findInterfaceLoop data (splitFieldPath path).

(** [GetTypedValue[map[string]interface{}]]: the value at the path when it
    is a map, the zero value (a nil map) on a missing path, a nil value or a
    value of another type. *)
Definition GetTypedValue_map (data : JMap) (path : string) : JMap :=
  match findInterface data path with
  | None => []
  | Some JNull => []
  | Some (JObject typedValue) => typedValue
  | Some _ => []
  end.

(** [joinPath]: [for i, key := range keys { if i > 0 { path += "." }; path += key }] *)
Fixpoint joinPathLoop (keys : list string) (i : nat) (path : string) : string :=
  match keys with
  | [] => path
  | key :: rest =>
      let path := if (0 <? i)%nat then (path ++ ".")%string else path in
      joinPathLoop rest (S i) (path ++ key)%string
  end.

Definition joinPath (keys : list string) : string :=
  joinPathLoop keys 0 "".

(** Loop of [GetTypedValue[[]map[string]interface{}]]: the elements of the
    slice that are maps; the others are logged and left out. *)
Fixpoint mapsLoop (slice : list JSON) (result : list JMap) : list JMap :=
  match slice with
  | [] => result
  | item :: rest =>
      match item with
      | JObject itemMap => mapsLoop rest (result ++ [itemMap])
      | _ => mapsLoop rest result
      end
  end.

(** [GetTypedValue[[]map[string]interface{}]]: the zero value (a nil slice)
    on a missing path, a nil value or a value that is not an array. *)
Definition GetTypedValue_maps (data : JMap) (path : string) : list JMap :=
  match findInterface data path with
  | None => []
  | Some JNull => []
  | Some (JArray slice) => mapsLoop slice []
  | Some _ => []
  end.

(** *** helper.go *)

(** [ExtractUnitNumber]: [for _, ch := range code { if ch >= '0' && ch <= '9'
    { number += string(ch) } }].  The loop ranges over runes; a byte between
    ['0'] and ['9'] is a rune of its own in UTF-8 and no other rune is kept,
    so the loop over bytes keeps the same characters. *)
Fixpoint ExtractUnitNumberLoop (code : string) (number : string) : string :=
  match code with
  | String ch rest =>
      if isDigit ch
      then ExtractUnitNumberLoop rest (number ++ String ch "")%string
      else ExtractUnitNumberLoop rest number
  | EmptyString => number
  end.

Definition ExtractUnitNumber (code : string) : string :=
  ExtractUnitNumberLoop code "".

End Utils.

(** ** scrapers/units: the compressed requisite forest and its evaluator *)

Module Units.

(** [common.Unit]: only [Code] is read by the evaluator; the other fields
    are kept as the Go struct has them. *)
Record Unit := mkUnit {
  Code : string;
  Name : string;
  CreditPoints : Z;
  Description : string;
  URL : string
}.

Record CompressedUnit := mkCompressedUnit {
  UnitCode : string;
  UnitNumber : string
}.

Inductive CompressedContainer := mkCompressedContainer {
  Relationship : string;
  Units : list CompressedUnit;
  Containers : list CompressedContainer
}.

(** [ReqContainers] is the field [Containers] of the Go struct. *)
Record CompressedRequisite := mkCompressedRequisite {
  RequisiteType : string;
  ReqContainers : list CompressedContainer
}.

(** The Go functions return [(bool, []string, error)].  On every error path
    the first two components are [false, []string{}], so an error carries
    only its text. *)
Inductive CheckResult :=
| Checked (met : bool) (messages : list string)
| CheckError (err : string).

(** A loop body either goes on with its accumulator or returns from the
    enclosing function. *)
Inductive Flow (A : Type) :=
| Continue (acc : A)
| Return (r : CheckResult).
Arguments Continue {A} acc.
Arguments Return {A} r.

(** [isUnitCompleted]: linear scan, exact string equality on the code. *)
Fixpoint isUnitCompleted (unit : CompressedUnit) (completedUnits : list Unit) : bool :=
  match completedUnits with
  | [] => false
  | completed :: rest =>
      if (Code completed =? UnitCode unit)%string then true
      else isUnitCompleted unit rest
  end.

(** The rendering loop shared by the four message builders:
    [for i, unit := range mentionedUnits { message += unit;
       if i < len(mentionedUnits)-1 { message += sep } }]. *)
Fixpoint renderLoop (sep : string) (len : nat) (i : nat)
         (mentionedUnits : list string) (message : string) : string :=
  match mentionedUnits with
  | [] => message
  | unit :: rest =>
      let message := (message ++ unit)%string in
      let message := if (i <? len - 1)%nat then (message ++ sep)%string else message in
      renderLoop sep len (S i) rest message
  end.

(** [var message string; message += prefix; for ... ] *)
Definition render (prefix sep : string) (mentionedUnits : list string) : string :=
  renderLoop sep (length mentionedUnits) 0 mentionedUnits ("" ++ prefix)%string.

(** [if len(unmetRequisites) > 0 { return false, unmetRequisites, nil };
     return dflt, []string{}, nil] *)
Definition finish (dflt : bool) (unmetRequisites : list string) : CheckResult :=
  if (0 <? length unmetRequisites)%nat
  then Checked false unmetRequisites
  else Checked dflt [].

Section Evaluator.
Variable completedUnits : list Unit.

(** [for _, unit := range container.Units { if isUnitCompleted(..) == want
      { mentionedUnits = append(mentionedUnits, unit.UnitCode) } }] *)
Definition mentioned (want : bool) (units : list CompressedUnit) : list string :=
  map UnitCode
      (filter (fun unit => Bool.eqb (isUnitCompleted unit completedUnits) want) units).

(** [checkContainer], [checkContainerLogic], [checkAndLogic] and
    [checkOrLogic] are mutually recursive through the call
    [checkContainerLogic(container, completedUnits, isProhibition)] in
    [checkContainer].  The bodies are written over the evaluator [rec]
    standing for that call; [checkContainerLogic] below ties the knot. *)
Section Bodies.
Variable rec : CompressedContainer -> CheckResult.

Fixpoint checkContainerLoop (containers : list CompressedContainer)
         (unmetRequisites : list string) : CheckResult :=
  match containers with
  | [] => finish true unmetRequisites
  | container :: rest =>
      match rec container with
      | CheckError err =>
          CheckError ("error checking container logic: " ++ err)%string
      | Checked met messages =>
          checkContainerLoop rest
            (if negb met then unmetRequisites ++ messages else unmetRequisites)
      end
  end.

Definition checkContainerBody (containers : list CompressedContainer) : CheckResult :=
  if (length containers =? 0)%nat then Checked true []
  else checkContainerLoop containers [].

(** Sub-container loop of [checkAndLogic], identical in both modes:
    [met, messages, err := checkContainer([]CompressedContainer{subContainer}, ..)]. *)
Fixpoint andSubLoop (subs : list CompressedContainer)
         (unmetRequisites : list string) : Flow (list string) :=
  match subs with
  | [] => Continue unmetRequisites
  | subContainer :: rest =>
      match checkContainerBody [subContainer] with
      | CheckError err =>
          Return (CheckError ("error checking subcontainer: " ++ err)%string)
      | Checked met messages =>
          andSubLoop rest
            (if negb met then unmetRequisites ++ messages else unmetRequisites)
      end
  end.

Definition checkAndLogicBody (isProhibition : bool)
           (container : CompressedContainer) : CheckResult :=
  if ((length (Units container) =? 0) && (length (Containers container) =? 0))%nat
  then Checked true []
  else if negb isProhibition then
    let mentionedUnits := mentioned false (Units container) in
    match andSubLoop (Containers container) [] with
    | Return r => r
    | Continue unmetRequisites =>
        let unmetRequisites :=
          if (0 <? length mentionedUnits)%nat
          then unmetRequisites ++ [render "Requires: " " and " mentionedUnits]
          else unmetRequisites in
        finish true unmetRequisites
    end
  else
    let mentionedUnits := mentioned true (Units container) in
    match andSubLoop (Containers container) [] with
    | Return r => r
    | Continue unmetRequisites =>
        let unmetRequisites :=
          if (0 <? length mentionedUnits)%nat
          then unmetRequisites ++ [render "Prohibited by: " " and " mentionedUnits]
          else unmetRequisites in
        finish true unmetRequisites
    end.

(** Prerequisite mode of [checkOrLogic], second loop: the first
    sub-container that is met returns [true]; an error met earlier returns
    the error. *)
Fixpoint orRequireSubLoop (subs : list CompressedContainer) : Flow unit :=
  match subs with
  | [] => Continue tt
  | subContainer :: rest =>
      match checkContainerBody [subContainer] with
      | CheckError err =>
          Return (CheckError ("error checking subcontainer: " ++ err)%string)
      | Checked met _ =>
          if met then Return (Checked true []) else orRequireSubLoop rest
      end
  end.

(** Prohibition mode of [checkOrLogic], second loop: a sub-container that is
    met adds the literal ["sub-container"] to [mentionedUnits]. *)
Fixpoint orProhibitSubLoop (subs : list CompressedContainer)
         (mentionedUnits : list string) : Flow (list string) :=
  match subs with
  | [] => Continue mentionedUnits
  | subContainer :: rest =>
      match checkContainerBody [subContainer] with
      | CheckError err =>
          Return (CheckError ("error checking subcontainer: " ++ err)%string)
      | Checked met _ =>
          orProhibitSubLoop rest
            (if met then mentionedUnits ++ ["sub-container"] else mentionedUnits)
      end
  end.

(** Last loop of [checkOrLogic]:
    [_, messages, _ := checkContainer(..); unmetRequisites = append(unmetRequisites, messages...)];
    on an error [messages] is [[]string{}]. *)
Fixpoint orCollectLoop (subs : list CompressedContainer)
         (unmetRequisites : list string) : list string :=
  match subs with
  | [] => unmetRequisites
  | subContainer :: rest =>
      let messages :=
        match checkContainerBody [subContainer] with
        | Checked _ messages => messages
        | CheckError _ => []
        end in
      orCollectLoop rest (unmetRequisites ++ messages)
  end.

(** Tail of [checkOrLogic], from [// Collect unmet units or prohibitions] on. *)
Definition orTail (isProhibition : bool) (container : CompressedContainer)
           (mentionedUnits : list string) : CheckResult :=
  let unmetRequisites :=
    if negb isProhibition then
      if (0 <? length mentionedUnits)%nat
      then [] ++ [render "Requires one of: " " or " mentionedUnits]
      else []
    else
      if (0 <? length mentionedUnits)%nat
      then [] ++ [render "Prohibited by one of: " " or " mentionedUnits]
      else [] in
  let unmetRequisites := orCollectLoop (Containers container) unmetRequisites in
  finish isProhibition unmetRequisites.

Definition checkOrLogicBody (isProhibition : bool)
           (container : CompressedContainer) : CheckResult :=
  if ((length (Units container) =? 0) && (length (Containers container) =? 0))%nat
  then Checked true []
  else if negb isProhibition then
    if existsb (fun unit => isUnitCompleted unit completedUnits) (Units container)
    then Checked true []
    else
      match orRequireSubLoop (Containers container) with
      | Return r => r
      | Continue _ =>
          orTail isProhibition container (mentioned false (Units container))
      end
  else
    match orProhibitSubLoop (Containers container)
                            (mentioned true (Units container)) with
    | Return r => r
    | Continue mentionedUnits => orTail isProhibition container mentionedUnits
    end.

Definition checkContainerLogicBody (isProhibition : bool)
           (container : CompressedContainer) : CheckResult :=
  if (Relationship container =? "AND")%string then
    checkAndLogicBody isProhibition container
  else if (Relationship container =? "OR")%string then
    checkOrLogicBody isProhibition container
  else
    CheckError ("unknown relationship type: " ++ Relationship container)%string.

End Bodies.

Fixpoint checkContainerLogic (isProhibition : bool)
         (container : CompressedContainer) {struct container} : CheckResult :=
  checkContainerLogicBody (checkContainerLogic isProhibition) isProhibition container.

Definition checkContainer (containers : list CompressedContainer)
           (isProhibition : bool) : CheckResult :=
  checkContainerBody (checkContainerLogic isProhibition) containers.

Definition checkAndLogic (container : CompressedContainer)
           (isProhibition : bool) : CheckResult :=
  checkAndLogicBody (checkContainerLogic isProhibition) isProhibition container.

Definition checkOrLogic (container : CompressedContainer)
           (isProhibition : bool) : CheckResult :=
  checkOrLogicBody (checkContainerLogic isProhibition) isProhibition container.

(** Loop of [CheckRequisites]; a requisite of any other type is passed over. *)
Fixpoint checkRequisitesLoop (requisites : list CompressedRequisite)
         (unmetRequisites : list string) : CheckResult :=
  match requisites with
  | [] => finish true unmetRequisites
  | requisite :: rest =>
      if (RequisiteType requisite =? "Prerequisite")%string then
        match checkContainer (ReqContainers requisite) false with
        | CheckError err =>
            CheckError ("error checking prerequisite container: " ++ err)%string
        | Checked met messages =>
            checkRequisitesLoop rest
              (if negb met then unmetRequisites ++ messages else unmetRequisites)
        end
      else if (RequisiteType requisite =? "Prohibition")%string then
        match checkContainer (ReqContainers requisite) true with
        | CheckError err =>
            CheckError ("error checking prohibition container: " ++ err)%string
        | Checked met messages =>
            checkRequisitesLoop rest
              (if negb met then unmetRequisites ++ messages else unmetRequisites)
        end
      else checkRequisitesLoop rest unmetRequisites
  end.

(** [CheckRequisites(unitData, completedUnits)] reads only
    [unitData.Requisites], which is what is passed here. *)
Definition CheckRequisites (requisites : list CompressedRequisite) : CheckResult :=
  if (length requisites =? 0)%nat then Checked true []
  else checkRequisitesLoop requisites [].

End Evaluator.

(** *** The raw requisites and their compression (unit scraper) *)

Module ClID.
Record t := mk { ClID : string; Key : string; Value : string }.
End ClID.

Module RequisiteType.
Record t := mk { Label : string; Value : string }.
End RequisiteType.

Module Connector.
Record t := mk { Label : string; Value : string }.
End Connector.

Module ParentRecord.
Record t := mk { ClID : string; Key : string; Type_ : string; Value : string }.
End ParentRecord.

Module AcademicItem.
Record t := mk { ClID : string; Key : string; Type_ : string; Value : string }.
End AcademicItem.

Module AcademicItemType.
Record t := mk { Label : string; Value : string }.
End AcademicItemType.

Module Relationship.
Record t := mk {
  AbbrName : string;
  AbbreviatedNameAndMajor : Utils.JSON;
  AcademicItem : AcademicItem.t;
  AcademicItemCode : string;
  AcademicItemCreditPoints : string;
  AcademicItemName : string;
  AcademicItemType : AcademicItemType.t;
  AcademicItemURL : string;
  AcademicItemVersionName : string;
  ClID : string;
  Order : string;
  ParentRecord : ParentRecord.t
}.
End Relationship.

Module Container.
Inductive t := mk {
  ClID : string;
  Containers : list t;
  ParentConnector : Connector.t;
  ParentContainerTable : string;
  ParentRecord : ParentRecord.t;
  Relationships : list Relationship.t;
  Title : string
}.
End Container.

Module Requisite.
Record t := mk {
  AcademicItemCode : string;
  AcademicItemVersion : string;
  Active : string;
  ClID : ClID.t;
  Containers : list Container.t;
  Description : string;
  EndDate : string;
  Order : string;
  RequisiteClID : string;
  RequisiteType : RequisiteType.t;
  StartDate : string
}.
End Requisite.

(** First loop of [compressContainer]: one unit per relationship. *)
Fixpoint compressUnitsLoop (relationships : list Relationship.t)
         (units : list CompressedUnit) : list CompressedUnit :=
  match relationships with
  | [] => units
  | rel :: rest =>
      let unit :=
        {| UnitCode := Relationship.AcademicItemCode rel;
           UnitNumber := Utils.ExtractUnitNumber (Relationship.AcademicItemCode rel) |} in
      compressUnitsLoop rest (units ++ [unit])
  end.

(** [compressContainer] calls itself on every child; [rec] stands for that
    call. *)
Section CompressBody.
Variable rec : Container.t -> CompressedContainer.

Fixpoint compressChildrenLoop (children : list Container.t)
         (containers : list CompressedContainer) : list CompressedContainer :=
  match children with
  | [] => containers
  | child :: rest =>
      let childComp := rec child in
      compressChildrenLoop rest (containers ++ [childComp])
  end.

Definition compressContainerBody (container : Container.t) : CompressedContainer :=
  {| Relationship := Connector.Label (Container.ParentConnector container);
     Units := compressUnitsLoop (Container.Relationships container) [];
     Containers := compressChildrenLoop (Container.Containers container) [] |}.

End CompressBody.

Fixpoint compressContainer (container : Container.t) {struct container}
  : CompressedContainer :=
  compressContainerBody compressContainer container.

Fixpoint compressContainersLoop (containers : list Container.t)
         (compressed : list CompressedContainer) : list CompressedContainer :=
  match containers with
  | [] => compressed
  | container :: rest =>
      compressContainersLoop rest (compressed ++ [compressContainer container])
  end.

Fixpoint compressRequisitesLoop (requisites : list Requisite.t)
         (compressedRequisites : list CompressedRequisite) : list CompressedRequisite :=
  match requisites with
  | [] => compressedRequisites
  | req :: rest =>
      let compReq :=
        {| RequisiteType := RequisiteType.Label (Requisite.RequisiteType req);
           ReqContainers := compressContainersLoop (Requisite.Containers req) [] |} in
      compressRequisitesLoop rest (compressedRequisites ++ [compReq])
  end.

(** [compressRequisites(data)]: [decoded] is what
    [json.Unmarshal(data, &requisites)] gives, the requisites or the text of
    its error; the error is returned as it is. *)
Definition compressRequisites (decoded : list Requisite.t + string)
  : list CompressedRequisite + string :=
  match decoded with
  | inr err => inr err
  | inl requisites => inl (compressRequisitesLoop requisites [])
  end.

End Units.

(** ** scrapers/common: the curriculum display tree and its parser *)

Module Common.
Import Utils.

(** A call either returns or panics (a failed one-value type assertion). *)
Inductive Outcome (A : Type) :=
| Ok (a : A)
| Panic (reason : string).
Arguments Ok {A} a.
Arguments Panic {A} reason.

Definition bind {A B : Type} (x : Outcome A) (f : A -> Outcome B) : Outcome B :=
  match x with
  | Ok a => f a
  | Panic reason => Panic reason
  end.

Notation "x <- e ;; k" := (bind e (fun x => k))
  (at level 61, e at next level, right associativity).
Notation "' p <- e ;; k" := (bind e (fun p => k))
  (at level 61, p pattern, e at next level, right associativity).

(** [v.(string)] and [v.(map[string]interface{})] without the [ok] result. *)
Definition mustString (v : JSON) : Outcome string :=
  match v with
  | JString s => Ok s
  | _ => Panic "interface conversion: interface {} is not string"
  end.

Definition mustMap (v : JSON) : Outcome JMap :=
  match v with
  | JObject m => Ok m
  | _ => Panic "interface conversion: interface {} is not map[string]interface {}"
  end.

Module AcademicItem.
Record t := mk {
  Type_ : string;
  Title : string;
  Code : string;
  Description : string;
  CreditPoints : Z;
  URL : string
}.
End AcademicItem.

Module Container.
Inductive t := mk {
  Title : string;
  Description : string;
  CreditPointsRequired : Z;
  Containers : list t;
  AcademicItems : list AcademicItem.t;
  Connector : string
}.
End Container.

Module Part.
Record t := mk {
  Title : string;
  Description : string;
  CreditPointsRequired : Z;
  Containers : list Container.t;
  AcademicItems : list AcademicItem.t;
  Order : Z;
  Connector : string
}.
End Part.

Module Curriculum.
Record t := mk {
  TotalCreditPoints : Z;
  Parts : list Part.t
}.
End Curriculum.

(** Body of the loop of [parseItems] for an element that is a map. *)
Definition parseItem (itemMap : JMap) : AcademicItem.t :=
  let description := stringOrZero (mapGet "description" itemMap) in
  let description := RemoveHTMLTags description in
  let code := stringOrZero (mapGet "academic_item_code" itemMap) in
  let name := stringOrZero (mapGet "academic_item_name" itemMap) in
  let creditPointsStr := stringOrZero (mapGet "academic_item_credit_points" itemMap) in
  let creditPoints := StringToInt creditPointsStr in
  let url := stringOrZero (mapGet "academic_item_url" itemMap) in
  let itemType := mapOrZero (mapGet "academic_item_type" itemMap) in
  let itemTypeValue := stringOrZero (mapGet "value" itemType) in
  {| AcademicItem.Type_ := itemTypeValue;
     AcademicItem.Code := code;
     AcademicItem.Title := name;
     AcademicItem.CreditPoints := creditPoints;
     AcademicItem.Description := description;
     AcademicItem.URL := url |}.

Fixpoint parseItemsLoop (itemsSlice : list JSON)
         (academicItems : list AcademicItem.t) : list AcademicItem.t :=
  match itemsSlice with
  | [] => academicItems
  | itemInterface :: rest =>
      match itemInterface with
      | JObject itemMap => parseItemsLoop rest (academicItems ++ [parseItem itemMap])
      | _ => parseItemsLoop rest academicItems
      end
  end.

(** End of [parseItems]: the connector of the first relationship is written
    into the container map under ["connector"]. *)
Definition extractConnector (containerMap : JMap) : JMap :=
  match mapGet "relationship" containerMap with
  | JArray (first :: _) =>
      match first with
      | JObject relMap =>
          match mapGet "parent_connector" relMap with
          | JObject connectorMap =>
              match mapGet "value" connectorMap with
              | JString connectorValue =>
                  mapSet "connector" (JString connectorValue) containerMap
              | _ => containerMap
              end
          | _ => containerMap
          end
      | _ => containerMap
      end
  | _ => containerMap
  end.

(** [parseItems(itemsData, &containerMap)]: the items, and the container map
    as the call leaves it.  The returned [error] is always [nil]. *)
Definition parseItems (itemsData : JSON) (containerMap : JMap)
  : list AcademicItem.t * JMap :=
  match itemsData with
  | JArray itemsSlice => (parseItemsLoop itemsSlice [], extractConnector containerMap)
  | _ => ([], containerMap)
  end.

Definition isNil (v : JSON) : bool :=
  match v with
  | JNull => true
  | _ => false
  end.

(** [parseContainers] calls itself on the nested ["container"] value; [rec]
    stands for that call.  Its returned [error] is always [nil]. *)
Section ParseContainers.
Variable rec : JSON -> Outcome (list Container.t * string).

(** Body of the loop of [parseContainers] for an element that is a map: the
    container, and the value of its ["parent_connector"].  [parseItems]
    writes only the key ["connector"] of the map, which is not read again;
    the nested containers are looked up under ["container"]. *)
Definition parseContainer (containerMap : JMap) : Outcome (Container.t * string) :=
  let description := stringOrZero (mapGet "description" containerMap) in
  let description := RemoveHTMLTags description in
  let title := stringOrZero (mapGet "title" containerMap) in
  let creditPointsStr := stringOrZero (mapGet "credit_points" containerMap) in
  let creditPoints := StringToInt creditPointsStr in
  conn <- mustMap (mapGet "parent_connector" containerMap) ;;
  parentConnector <- mustString (mapGet "value" conn) ;;
  let academicItems : list AcademicItem.t := [] in
  let connector := "AND" in
  let academicItems :=
    match mapIndex "relationship" containerMap with
    | Some relationshipsRaw => fst (parseItems relationshipsRaw containerMap)
    | None => academicItems
    end in
  nested <- withField "container" containerMap
              (fun nestedContainersRaw =>
                 if negb (isNil nestedContainersRaw)
                 then r <- rec nestedContainersRaw ;; Ok (Some r)
                 else Ok None)
              (Ok None) ;;
  let connector :=
    match nested with
    | Some (_, relationship) =>
        if negb (relationship =? "")%string then relationship else connector
    | None => connector
    end in
  let containers : list Container.t :=
    match nested with
    | Some (nestedContainers, _) => [] ++ nestedContainers
    | None => []
    end in
  let connector :=
    match containers with
    | first :: _ =>
        if (Container.CreditPointsRequired first =? creditPoints)%Z
        then "OR" else connector
    | [] => connector
    end in
  let connector :=
    match academicItems with
    | first :: _ =>
        if (AcademicItem.CreditPoints first =? creditPoints)%Z
        then "OR" else connector
    | [] => connector
    end in
  Ok ({| Container.Title := title;
         Container.Description := description;
         Container.CreditPointsRequired := creditPoints;
         Container.Containers := containers;
         Container.AcademicItems := academicItems;
         Container.Connector := connector |},
      parentConnector).

Fixpoint parseContainersLoop (containerSlice : list JSON)
         (containers : list Container.t) (parentConnector : string)
  : Outcome (list Container.t * string) :=
  match containerSlice with
  | [] => Ok (containers, parentConnector)
  | containerInterface :: rest =>
      match containerInterface with
      | JObject containerMap =>
          '(container, parentConnector) <- parseContainer containerMap ;;
          parseContainersLoop rest (containers ++ [container]) parentConnector
      | _ => parseContainersLoop rest containers parentConnector
      end
  end.

Definition parseContainersBody (containerData : JSON)
  : Outcome (list Container.t * string) :=
  match containerData with
  | JArray containerSlice => parseContainersLoop containerSlice [] ""
  | _ => Ok ([], "")
  end.

End ParseContainers.

Fixpoint parseContainers (containerData : JSON) {struct containerData}
  : Outcome (list Container.t * string) :=
  parseContainersBody parseContainers containerData.

(** Body of the loop of [ParseCurriculum] for an element that is a map. *)
Definition parsePart (TotalCreditPoints : Z) (partMap : JMap) : Outcome Part.t :=
  let description := stringOrZero (mapGet "description" partMap) in
  let description := RemoveHTMLTags description in
  let title := stringOrZero (mapGet "title" partMap) in
  let creditPointsStr := stringOrZero (mapGet "credit_points" partMap) in
  let creditPoints := StringToInt creditPointsStr in
  orderStr <- mustString (mapGet "order" partMap) ;;
  let order := StringToInt orderStr in
  let connector := "AND" in
  '(containers, connector) <-
     match mapIndex "container" partMap with
     | Some containersRaw =>
         '(parsed, _) <- parseContainers containersRaw ;;
         let containers : list Container.t := [] ++ parsed in
         let connector :=
           match containers with
           | first :: _ =>
               if (Container.CreditPointsRequired first =? creditPoints)%Z
               then "OR" else connector
           | [] => connector
           end in
         Ok (containers, connector)
     | None => Ok ([], connector)
     end ;;
  let '(academicItems, connector) :=
    if (length containers =? 0)%nat then
      match mapIndex "relationship" partMap with
      | Some relationshipsRaw =>
          let items := fst (parseItems relationshipsRaw partMap) in
          let academicItems : list AcademicItem.t :=
            if (0 <? length items)%nat then items else [] in
          let connector :=
            match academicItems with
            | first :: _ =>
                if (AcademicItem.CreditPoints first =? creditPoints)%Z
                then "OR" else connector
            | [] => connector
            end in
          (academicItems, connector)
      | None => ([], connector)
      end
    else ([], connector) in
  let creditPointsRequired :=
    if (creditPoints =? TotalCreditPoints)%Z then 0%Z else creditPoints in
  Ok {| Part.Title := title;
        Part.Description := description;
        Part.CreditPointsRequired := creditPointsRequired;
        Part.Containers := containers;
        Part.AcademicItems := academicItems;
        Part.Order := order;
        Part.Connector := connector |}.

Fixpoint parsePartsLoop (TotalCreditPoints : Z) (partsData : list JSON)
         (Parts : list Part.t) : Outcome (list Part.t) :=
  match partsData with
  | [] => Ok Parts
  | partInterface :: rest =>
      match partInterface with
      | JObject partMap =>
          part <- parsePart TotalCreditPoints partMap ;;
          parsePartsLoop TotalCreditPoints rest (Parts ++ [part])
      | _ => parsePartsLoop TotalCreditPoints rest Parts
      end
  end.

(** [ParseCurriculum] returns [(Curriculum, error)]; the error is [None]
    for [nil]. *)
Definition ParseCurriculum (data : JMap) : Outcome (Curriculum.t * option string) :=
  let data := GetTypedValue_map data "props.pageProps.pageContent.curriculumStructure" in
  let curriculum := {| Curriculum.TotalCreditPoints := 0; Curriculum.Parts := [] |} in
  match mapGet "credit_points" data with
  | JString totalCreditsStr =>
      let total := StringToInt totalCreditsStr in
      let curriculum :=
        {| Curriculum.TotalCreditPoints := total; Curriculum.Parts := [] |} in
      match mapGet "container" data with
      | JArray partsData =>
          parts <- parsePartsLoop total partsData [] ;;
          Ok ({| Curriculum.TotalCreditPoints := total; Curriculum.Parts := parts |},
              None)
      | _ => Ok (curriculum, Some "parts container not found or not an array")
      end
  | _ => Ok (curriculum, Some "total credit points not found or not a string")
  end.

End Common.

(** ** scrapers/courses: award titles and full-time durations *)

Module Courses.
Import Utils.

Fixpoint awardTitlesLoop (arrExtract : list JMap) (awardTitles : list string)
  : list string :=
  match arrExtract with
  | [] => awardTitles
  | item :: rest =>
      match mapGet "award_title" item with
      | JString title => awardTitlesLoop rest (awardTitles ++ [title])
      | _ => awardTitlesLoop rest awardTitles
      end
  end.

Definition extractAwardTitles (data : JMap) : list string :=
  let path := "props.pageProps.pageContent.award_titles" in
  let arrExtract := GetTypedValue_maps data path in
  if (length arrExtract =? 0)%nat then []
  else awardTitlesLoop arrExtract [].

Fixpoint fullTimeDurationsLoop (arrExtract : list JMap) (durations : list string)
  : list string :=
  match arrExtract with
  | [] => durations
  | item :: rest =>
      match mapGet "type" item with
      | JObject typeInfo =>
          match mapGet "value" typeInfo with
          | JString typeValue =>
              if (typeValue =? "Full time")%string then
                match mapGet "duration_display" item with
                | JString durationDisplay =>
                    fullTimeDurationsLoop rest (durations ++ [durationDisplay])
                | _ => fullTimeDurationsLoop rest durations
                end
              else fullTimeDurationsLoop rest durations
          | _ => fullTimeDurationsLoop rest durations
          end
      | _ => fullTimeDurationsLoop rest durations
      end
  end.

Definition extractFullTimeDurations (data : JMap) : list string :=
  let path := "props.pageProps.pageContent.full_time_duration" in
  let arrExtract := GetTypedValue_maps data path in
  if (length arrExtract =? 0)%nat then []
  else fullTimeDurationsLoop arrExtract [].

End Courses.

(** ** Vocabulary of the statements *)

Import Utils Units Common.

(** Messages of a result; an error carries none. *)
Definition resultMessages (r : CheckResult) : list string :=
  match r with
  | Checked _ messages => messages
  | CheckError _ => []
  end.

(** The evaluation returned without an error. *)
Definition evaluates (r : CheckResult) : Prop :=
  exists met messages, r = Checked met messages.

(** The unit's code is in the completed set. *)
Definition completedIn (completedUnits : list Unit) (unit : CompressedUnit) : Prop :=
  In (UnitCode unit) (map Code completedUnits).

(** A container, evaluated on its own, is satisfied (not violated). *)
Definition satisfiedBy (completedUnits : list Unit) (isProhibition : bool)
           (container : CompressedContainer) : Prop :=
  checkContainerLogic completedUnits isProhibition container = Checked true [].

(** Messages of the nested containers, each evaluated on its own, in order. *)
Definition nestedMessages (completedUnits : list Unit) (isProhibition : bool)
           (subs : list CompressedContainer) : list string :=
  flat_map (fun sub => resultMessages (checkContainerLogic completedUnits isProhibition sub))
           subs.

(** Codes of the direct units that are not (resp. are) completed, in
    container order. *)
Definition uncompletedCodes (completedUnits : list Unit)
           (units : list CompressedUnit) : list string :=
  map UnitCode (filter (fun unit => negb (isUnitCompleted unit completedUnits)) units).

Definition completedCodes (completedUnits : list Unit)
           (units : list CompressedUnit) : list string :=
  map UnitCode (filter (fun unit => isUnitCompleted unit completedUnits) units).

(** No message for no code, otherwise the one message
    [prefix code1 sep code2 sep ...]. *)
Definition oneMessage (prefix sep : string) (codes : list string) : list string :=
  match codes with
  | [] => []
  | _ => [(prefix ++ String.concat sep codes)%string]
  end.

(** A boolean that agrees with its message list. *)
Definition consistent (r : CheckResult) : Prop :=
  match r with
  | Checked true [] => True
  | Checked false (_ :: _) => True
  | Checked _ _ => False
  | CheckError _ => True
  end.

(** Sample data of the scenarios. *)
Definition unitOf (code : string) : CompressedUnit :=
  {| UnitCode := code; UnitNumber := "" |}.

Definition done (code : string) : Unit :=
  {| Units.Code := code; Name := ""; CreditPoints := 6; Description := ""; URL := "" |}.

Definition containerOf (relationship : string) (codes : list string)
           (subs : list CompressedContainer) : CompressedContainer :=
  {| Relationship := relationship; Units := map unitOf codes; Containers := subs |}.

Definition prerequisite (containers : list CompressedContainer) : CompressedRequisite :=
  {| RequisiteType := "Prerequisite"; ReqContainers := containers |}.

Definition prohibition (containers : list CompressedContainer) : CompressedRequisite :=
  {| RequisiteType := "Prohibition"; ReqContainers := containers |}.

(** The credit points parsed from the ["credit_points"] field of a raw
    part or container. *)
Definition parsedCredits (m : JMap) : Z :=
  StringToInt (stringOrZero (mapGet "credit_points" m)).

(** The elements of an array that are maps, in order. *)
Definition objects (slice : list JSON) : list JMap :=
  flat_map (fun v => match v with JObject m => [m] | _ => [] end) slice.

(** The raw parts of a document. *)
Definition partEntries (data : JMap) : list JMap :=
  match mapGet "container"
          (GetTypedValue_map data "props.pageProps.pageContent.curriculumStructure") with
  | JArray partsData => objects partsData
  | _ => []
  end.

(** The ["parent_connector"] value a raw container declares. *)
Definition parentConnectorOf (m : JMap) : string :=
  stringOrZero (mapGet "value" (mapOrZero (mapGet "parent_connector" m))).

(** The ["parent_connector"] value of the last raw container of a slice. *)
Fixpoint lastParentConnector (slice : list JSON) (parentConnector : string) : string :=
  match slice with
  | [] => parentConnector
  | JObject m :: rest => lastParentConnector rest (parentConnectorOf m)
  | _ :: rest => lastParentConnector rest parentConnector
  end.

(** The connector a raw container takes from its nested containers. *)
Definition declaredConnector (containerMap : JMap) : string :=
  match mapIndex "container" containerMap with
  | Some (JArray slice) => lastParentConnector slice ""
  | _ => ""
  end.

(** The first child of a node (its first container or, when it has no
    container, its first academic item) carries [creditPoints]. *)
Definition firstChildMatches (creditPoints : Z) (containers : list Container.t)
           (items : list AcademicItem.t) : bool :=
  match containers with
  | first :: _ => (Container.CreditPointsRequired first =? creditPoints)%Z
  | [] =>
      match items with
      | first :: _ => (AcademicItem.CreditPoints first =? creditPoints)%Z
      | [] => false
      end
  end.

(** The first nested container, resp. the first academic item, of a node
    carries [creditPoints]. *)
Definition firstContainerMatches (creditPoints : Z) (containers : list Container.t)
  : bool :=
  match containers with
  | first :: _ => (Container.CreditPointsRequired first =? creditPoints)%Z
  | [] => false
  end.

Definition firstItemMatches (creditPoints : Z) (items : list AcademicItem.t) : bool :=
  match items with
  | first :: _ => (AcademicItem.CreditPoints first =? creditPoints)%Z
  | [] => false
  end.

(** Sample documents. *)
Definition page (curriculumStructure : JMap) : JMap :=
  [("props",
    JObject [("pageProps",
      JObject [("pageContent",
        JObject [("curriculumStructure", JObject curriculumStructure)])])])].

Definition rawContainer (title creditPoints connector : string) (more : JMap) : JSON :=
  JObject ([("title", JString title);
            ("credit_points", JString creditPoints);
            ("parent_connector", JObject [("value", JString connector)])] ++ more).

Definition rawItem (code creditPoints : string) : JSON :=
  JObject [("academic_item_code", JString code);
           ("academic_item_credit_points", JString creditPoints)].

Definition rawPart (title creditPoints : string) (more : JMap) : JSON :=
  JObject ([("title", JString title);
            ("credit_points", JString creditPoints);
            ("order", JString "1")] ++ more).

Definition curriculumOf (total : string) (parts : list JSON) : JMap :=
  page [("credit_points", JString total); ("container", JArray parts)].

(** Scenario 5: a part of 12 points whose first container has 12, and a part
    of 24 points whose first container has 12. *)
Definition scenario5 : JMap :=
  curriculumOf "48"
    [rawPart "Part A" "12" [("container", JArray [rawContainer "Core" "12" "AND" []])];
     rawPart "Part B" "24" [("container", JArray [rawContainer "Core" "12" "AND" []])]].

(** Scenario 6: a part that spans the whole curriculum. *)
Definition scenario6 : JMap :=
  curriculumOf "48"
    [rawPart "Part A" "48" [("container", JArray [rawContainer "Core" "24" "AND" []])];
     rawPart "Part B" "24" []].

(** A container of 12 points whose only nested container has 6 points and
    declares the parent connector ["OR"]. *)
Definition declaredOr : JMap :=
  curriculumOf "48"
    [rawPart "Part A" "24"
       [("container",
         JArray [rawContainer "Electives" "12" "AND"
                   [("container", JArray [rawContainer "List" "6" "OR" []])]])]].

(** Credit points that are not numbers. *)
Definition nonNumeric : JMap :=
  curriculumOf "forty-eight" [rawPart "Part A" "TBA" []].

(** A container with both a relationship list and nested containers. *)
Definition bothKinds : JMap :=
  curriculumOf "48"
    [rawPart "Part A" "24"
       [("container",
         JArray [rawContainer "Core" "12" "AND"
                   [("relationship", JArray [rawItem "FIT1045" "6"]);
                    ("container", JArray [rawContainer "List" "6" "AND" []])]])]].


(** What a call on a one-element slice contributes to the caller's
    [unmetRequisites] when it returns [met = false]. *)
Definition contributed (r : CheckResult) : list string :=
  match r with
  | Checked false messages => messages
  | _ => []
  end.

(** An AND container with a satisfied nested container and no direct unit,
    in prerequisite mode. *)
Definition nestedOnly : CompressedContainer :=
  containerOf "AND" [] [containerOf "AND" [] []].

(** A summary of the containers of the parts of a parsed document: for each
    container its connector, its credit points, the credit points of its
    nested containers and the number of its academic items. *)
Definition containerSummary (result : Outcome (Curriculum.t * option string))
  : list (list (string * Z * list Z * nat)) :=
  match result with
  | Ok (curriculum, None) =>
      map (fun part =>
             map (fun container =>
                    (Container.Connector container,
                     Container.CreditPointsRequired container,
                     map Container.CreditPointsRequired (Container.Containers container),
                     length (Container.AcademicItems container)))
                 (Part.Containers part))
          (Curriculum.Parts curriculum)
  | _ => []
  end.

(** ** Vocabulary of the further properties *)

(** The digits of a string, in order. *)
Fixpoint digitsOf (s : string) : string :=
  match s with
  | String c rest => if isDigit c then String c (digitsOf rest) else digitsOf rest
  | EmptyString => ""
  end.

Fixpoint noDigit (s : string) : bool :=
  match s with
  | String c rest => negb (isDigit c) && noDigit rest
  | EmptyString => true
  end.

(** The string is empty or starts with a character that is not a digit. *)
Definition digitsEnd (s : string) : bool :=
  match s with
  | String c _ => negb (isDigit c)
  | EmptyString => true
  end.

Fixpoint hasDot (s : string) : bool :=
  match s with
  | String c rest => (c =? ".")%char || hasDot rest
  | EmptyString => false
  end.

(** The string is a sequence of UTF-8 encoded runes, as
    [utf8.ValidString] decides; [pending] counts the bytes of the current
    rune still to come. *)
Fixpoint validRunes (s : string) (pending : nat) : bool :=
  match s with
  | EmptyString => (pending =? 0)%nat
  | String _ rest =>
      match pending with
      | S more => validRunes rest more
      | O =>
          match runeWidth s with
          | O => false
          | S more => validRunes rest more
          end
      end
  end.

Definition validUTF8 (s : string) : bool := validRunes s 0.

(** None of the first [n] bytes of the string is a dot. *)
Fixpoint dotFreePrefix (s : string) (n : nat) {struct n} : bool :=
  match n with
  | O => true
  | S k =>
      match s with
      | String c rest => negb (c =? ".")%char && dotFreePrefix rest k
      | EmptyString => true
      end
  end.

(** A key of a dotted path: not empty, without a dot. *)
Definition pathKey (key : string) : bool :=
  negb (key =? "")%string && negb (hasDot key).


(** No ["<"] of the string is followed, anywhere later, by a [">"]: the
    pattern [<[^>]*>] has no match in it. *)
Fixpoint tagFree (s : string) : bool :=
  match s with
  | String c rest => (negb (c =? "<")%char || negb (hasClose rest)) && tagFree rest
  | EmptyString => true
  end.

(** Every relationship of the tree is ["AND"] or ["OR"]. *)
Fixpoint wellFormed (container : CompressedContainer) : bool :=
  ((Relationship container =? "AND")%string || (Relationship container =? "OR")%string)
  && forallb wellFormed (Containers container).

(** The same tree with the unit numbers given by [number]. *)
Fixpoint withUnitNumbers (number : string -> string) (container : CompressedContainer)
  : CompressedContainer :=
  {| Relationship := Relationship container;
     Units := map (fun unit => {| UnitCode := UnitCode unit;
                                  UnitNumber := number (UnitCode unit) |})
                  (Units container);
     Containers := map (withUnitNumbers number) (Containers container) |}.

(** The units of a tree, at every depth. *)
Fixpoint allUnits (container : CompressedContainer) : list CompressedUnit :=
  Units container ++ flat_map allUnits (Containers container).

Definition isMet (r : CheckResult) : bool :=
  match r with
  | Checked met _ => met
  | CheckError _ => false
  end.

(** A message starts with one of the four headings of the evaluator. *)
Definition knownHeading (message : string) : bool :=
  String.prefix "Requires: " message
  || String.prefix "Requires one of: " message
  || String.prefix "Prohibited by: " message
  || String.prefix "Prohibited by one of: " message.

(** Every completed code of the first list is a completed code of the second. *)
Definition completedWithin (completedUnits moreCompleted : list Unit) : Prop :=
  forall code, In code (map Code completedUnits) -> In code (map Code moreCompleted).

(** The evaluation of one requisite by [CheckRequisites]; [None] for a
    requisite that is neither a prerequisite nor a prohibition. *)
Definition requisiteResult (completedUnits : list Unit) (requisite : CompressedRequisite)
  : option CheckResult :=
  if (RequisiteType requisite =? "Prerequisite")%string
  then Some (checkContainer completedUnits (ReqContainers requisite) false)
  else if (RequisiteType requisite =? "Prohibition")%string
       then Some (checkContainer completedUnits (ReqContainers requisite) true)
       else None.

Definition requisiteMessages (completedUnits : list Unit) (requisite : CompressedRequisite)
  : list string :=
  match requisiteResult completedUnits requisite with
  | Some r => resultMessages r
  | None => []
  end.

Definition requisiteEvaluates (completedUnits : list Unit)
           (requisite : CompressedRequisite) : Prop :=
  match requisiteResult completedUnits requisite with
  | Some r => evaluates r
  | None => True
  end.

Definition requisiteSatisfied (completedUnits : list Unit)
           (requisite : CompressedRequisite) : Prop :=
  match requisiteResult completedUnits requisite with
  | Some r => r = Checked true []
  | None => True
  end.

Definition knownType (requisite : CompressedRequisite) : bool :=
  (RequisiteType requisite =? "Prerequisite")%string
  || (RequisiteType requisite =? "Prohibition")%string.

(** The literal ["sub-container"] for every nested container that is met. *)
Definition subContainerMarks (completedUnits : list Unit) (isProhibition : bool)
           (subs : list CompressedContainer) : list string :=
  flat_map (fun sub =>
              if isMet (checkContainerLogic completedUnits isProhibition sub)
              then ["sub-container"] else [])
           subs.

(** Every parent connector label of a raw requisite tree is ["AND"] or ["OR"]. *)
Fixpoint labelled (container : Units.Container.t) : bool :=
  let label := Units.Connector.Label (Units.Container.ParentConnector container) in
  ((label =? "AND")%string || (label =? "OR")%string)
  && forallb labelled (Units.Container.Containers container).

(** The ["duration_display"] of a course entry of type ["Full time"]. *)
Definition fullTimeDuration (item : JMap) : list string :=
  match mapGet "type" item with
  | JObject typeInfo =>
      match mapGet "value" typeInfo with
      | JString typeValue =>
          if (typeValue =? "Full time")%string then
            match mapGet "duration_display" item with
            | JString durationDisplay => [durationDisplay]
            | _ => []
            end
          else []
      | _ => []
      end
  | _ => []
  end.

(** The ["award_title"] of an entry of the award titles of a course. *)
Definition awardTitle (item : JMap) : list string :=
  match mapGet "award_title" item with
  | JString title => [title]
  | _ => []
  end.

(** A raw part or container whose parsing panics: a part without a string
    under ["order"], a container without a map under ["parent_connector"]. *)
Definition orderMissing (partMap : JMap) : Prop :=
  forall order, mapGet "order" partMap <> JString order.

Definition connectorMissing (containerMap : JMap) : Prop :=
  forall conn, mapGet "parent_connector" containerMap <> JObject conn.

(** * Properties of the requisite evaluator *)

(** ** Strings and rendering *)

Lemma string_app_assoc (a b c : string) : ((a ++ b) ++ c = a ++ (b ++ c))%string.
Proof.
  induction a as [|ch a IH]; simpl; [reflexivity | now rewrite IH].
Qed.

Lemma string_app_nil_r (a : string) : (a ++ "")%string = a.
Proof.
  induction a as [|ch a IH]; simpl; [reflexivity | now rewrite IH].
Qed.

Lemma renderLoop_concat (sep : string) (units : list string) :
  forall (i : nat) (message : string),
    renderLoop sep (i + length units) i units message
    = (message ++ String.concat sep units)%string.
Proof.
  induction units as [|unit rest IH]; intros i message.
  - simpl. now rewrite string_app_nil_r.
  - cbn [renderLoop].
    replace (i + length (unit :: rest))%nat with (S i + length rest)%nat
      by (cbn [length]; lia).
    rewrite IH. destruct rest as [|next rest'].
    + destruct (Nat.ltb_spec i (S i + length (@nil string) - 1)) as [L|L];
        [cbn [length] in L; lia |].
      simpl. now rewrite string_app_nil_r.
    + destruct (Nat.ltb_spec i (S i + length (next :: rest') - 1)) as [L|L];
        [| cbn [length] in L; lia].
      cbn [String.concat]. now rewrite !string_app_assoc.
Qed.

Lemma render_concat (prefix sep : string) (units : list string) :
  render prefix sep units = (prefix ++ String.concat sep units)%string.
Proof.
  unfold render. exact (renderLoop_concat sep units 0 prefix).
Qed.

Lemma message_if_any (prefix sep : string) (codes acc : list string) :
  (if (0 <? length codes)%nat then acc ++ [render prefix sep codes] else acc)
  = acc ++ oneMessage prefix sep codes.
Proof.
  destruct codes as [|code rest]; simpl.
  - now rewrite app_nil_r.
  - now rewrite render_concat.
Qed.

(** ** Completed units *)

Lemma isUnitCompleted_In (unit : CompressedUnit) (completedUnits : list Unit) :
  isUnitCompleted unit completedUnits = true <-> completedIn completedUnits unit.
Proof.
  unfold completedIn.
  induction completedUnits as [|completed rest IH]; simpl.
  - split; [discriminate | tauto].
  - destruct (String.eqb_spec (Code completed) (UnitCode unit)) as [E|E].
    + split; auto.
    + rewrite IH. split; [auto | intros [H|H]; [contradiction | exact H]].
Qed.

Lemma mentioned_false (completedUnits : list Unit) (units : list CompressedUnit) :
  mentioned completedUnits false units = uncompletedCodes completedUnits units.
Proof.
  unfold mentioned, uncompletedCodes.
  erewrite filter_ext; [reflexivity |].
  intros unit. cbv beta. now destruct (isUnitCompleted unit completedUnits).
Qed.

Lemma mentioned_true (completedUnits : list Unit) (units : list CompressedUnit) :
  mentioned completedUnits true units = completedCodes completedUnits units.
Proof.
  unfold mentioned, completedCodes.
  erewrite filter_ext; [reflexivity |].
  intros unit. cbv beta. now destruct (isUnitCompleted unit completedUnits).
Qed.

Lemma uncompletedCodes_nil (completedUnits : list Unit) (units : list CompressedUnit) :
  uncompletedCodes completedUnits units = []
  <-> forall unit, In unit units -> completedIn completedUnits unit.
Proof.
  unfold uncompletedCodes. induction units as [|unit rest IH]; simpl.
  - split; [intros _ unit [] | reflexivity].
  - destruct (isUnitCompleted unit completedUnits) eqn:E; simpl.
    + rewrite IH. apply isUnitCompleted_In in E.
      split; [intros H x [<-|Hx]; auto | intros H x Hx; auto].
    + split; [discriminate |].
      intros H. specialize (H unit (or_introl eq_refl)).
      apply isUnitCompleted_In in H. congruence.
Qed.

Lemma completedCodes_nil (completedUnits : list Unit) (units : list CompressedUnit) :
  completedCodes completedUnits units = []
  <-> forall unit, In unit units -> ~ completedIn completedUnits unit.
Proof.
  unfold completedCodes. induction units as [|unit rest IH]; simpl.
  - split; [intros _ unit [] | reflexivity].
  - destruct (isUnitCompleted unit completedUnits) eqn:E; simpl.
    + split; [discriminate |].
      intros H. exfalso. apply (H unit (or_introl eq_refl)).
      now apply isUnitCompleted_In.
    + rewrite IH. split.
      * intros H x [<-|Hx]; [|auto]. rewrite <- isUnitCompleted_In. congruence.
      * intros H x Hx. auto.
Qed.

Lemma existsb_completed_false (completedUnits : list Unit) (units : list CompressedUnit) :
  existsb (fun unit => isUnitCompleted unit completedUnits) units = false
  <-> forall unit, In unit units -> ~ completedIn completedUnits unit.
Proof.
  induction units as [|unit rest IH]; simpl.
  - split; [intros _ unit [] | reflexivity].
  - rewrite orb_false_iff, IH. split.
    + intros [E H] x [<-|Hx]; [|auto]. rewrite <- isUnitCompleted_In. congruence.
    + intros H. split; [|intros x Hx; auto].
      destruct (isUnitCompleted unit completedUnits) eqn:E; [|reflexivity].
      exfalso. apply (H unit (or_introl eq_refl)). now apply isUnitCompleted_In.
Qed.

(** ** The evaluator, one call at a time *)

Lemma checkContainerLogic_unfold (completedUnits : list Unit) (isProhibition : bool)
      (container : CompressedContainer) :
  checkContainerLogic completedUnits isProhibition container
  = checkContainerLogicBody completedUnits
      (checkContainerLogic completedUnits isProhibition) isProhibition container.
Proof. destruct container; reflexivity. Qed.

Lemma finish_cases (dflt : bool) (unmet : list string) :
  (unmet = [] /\ finish dflt unmet = Checked dflt [])
  \/ (unmet <> [] /\ finish dflt unmet = Checked false unmet).
Proof.
  destruct unmet as [|m unmet]; [left | right]; split; auto; discriminate.
Qed.

Lemma finish_consistent (unmet : list string) : consistent (finish true unmet).
Proof. destruct unmet; exact I. Qed.

Section AnyEvaluator.
Variable completedUnits : list Unit.
Variable rec : CompressedContainer -> CheckResult.

Lemma checkContainerBody_single (sub : CompressedContainer) :
  checkContainerBody rec [sub]
  = match rec sub with
    | CheckError err => CheckError ("error checking container logic: " ++ err)%string
    | Checked met messages => finish true (contributed (Checked met messages))
    end.
Proof.
  unfold checkContainerBody. simpl.
  destruct (rec sub) as [[|] messages|err]; reflexivity.
Qed.

Lemma single_cases (sub : CompressedContainer) (met : bool) (messages : list string) :
  rec sub = Checked met messages ->
  (checkContainerBody rec [sub] = Checked true []
   /\ contributed (Checked met messages) = [])
  \/ (checkContainerBody rec [sub] = Checked false messages
      /\ met = false /\ messages <> []).
Proof.
  intros E. rewrite checkContainerBody_single, E.
  destruct met; simpl.
  - left. auto.
  - destruct messages as [|m ms]; [left; auto | right].
    repeat split; auto. discriminate.
Qed.

Lemma single_error (sub : CompressedContainer) (err : string) :
  rec sub = CheckError err ->
  checkContainerBody rec [sub]
  = CheckError ("error checking container logic: " ++ err)%string.
Proof. intros E. now rewrite checkContainerBody_single, E. Qed.

Lemma checkContainerLoop_consistent (containers : list CompressedContainer) :
  forall unmet, consistent (checkContainerLoop rec containers unmet).
Proof.
  induction containers as [|container rest IH]; intros unmet; simpl.
  - apply finish_consistent.
  - destruct (rec container) as [met messages|err]; [apply IH | exact I].
Qed.

Lemma checkContainerBody_consistent (containers : list CompressedContainer) :
  consistent (checkContainerBody rec containers).
Proof.
  unfold checkContainerBody.
  destruct (length containers =? 0)%nat; [exact I | apply checkContainerLoop_consistent].
Qed.

(** The sub-container loop of [checkAndLogic] when no nested container
    fails: every nested container adds what it contributes. *)
Lemma andSubLoop_ok (subs : list CompressedContainer) :
  Forall (fun sub => evaluates (rec sub)) subs ->
  forall unmet,
    andSubLoop rec subs unmet
    = Continue (unmet ++ flat_map (fun sub => contributed (rec sub)) subs).
Proof.
  induction 1 as [|sub rest [met [messages E]] _ IH]; intros unmet.
  - simpl. now rewrite app_nil_r.
  - cbn [andSubLoop flat_map]. rewrite E.
    destruct (single_cases sub met messages E) as [[S C]|[S [-> N]]]; rewrite S.
    + simpl negb. cbv iota. rewrite IH, C. reflexivity.
    + simpl negb. cbv iota. rewrite IH. simpl. now rewrite app_assoc.
Qed.

Lemma andSubLoop_flow (subs : list CompressedContainer) :
  forall unmet,
    match andSubLoop rec subs unmet with
    | Continue _ => True
    | Return r => exists err, r = CheckError err
    end.
Proof.
  induction subs as [|sub rest IH]; intros unmet; [exact I |].
  cbn [andSubLoop].
  destruct (checkContainerBody rec [sub]) as [met messages|err];
    [apply IH | eauto].
Qed.

Lemma andSubLoop_evaluates (subs : list CompressedContainer) :
  forall unmet result,
    andSubLoop rec subs unmet = Continue result ->
    Forall (fun sub => evaluates (rec sub)) subs.
Proof.
  induction subs as [|sub rest IH]; intros unmet result H; [constructor |].
  cbn [andSubLoop] in H. rewrite checkContainerBody_single in H.
  destruct (rec sub) as [met messages|err] eqn:E; [| discriminate].
  constructor; [now exists met, messages |].
  destruct (finish true (contributed (Checked met messages))); [| discriminate].
  exact (IH _ _ H).
Qed.

Lemma orCollectLoop_flat (subs : list CompressedContainer) :
  forall unmet,
    orCollectLoop rec subs unmet
    = unmet ++ flat_map (fun sub => resultMessages (checkContainerBody rec [sub])) subs.
Proof.
  induction subs as [|sub rest IH]; intros unmet.
  - simpl. now rewrite app_nil_r.
  - cbn [orCollectLoop flat_map]. rewrite IH, <- app_assoc. reflexivity.
Qed.

(** Prerequisite mode of [checkOrLogic]: the loop falls through exactly
    when every nested container is unmet, each with a message. *)
Lemma orRequireSubLoop_continue (subs : list CompressedContainer) :
  orRequireSubLoop rec subs = Continue tt ->
  Forall (fun sub => exists messages,
              checkContainerBody rec [sub] = Checked false messages
              /\ messages <> []) subs.
Proof.
  induction subs as [|sub rest IH]; intros H; [constructor |].
  cbn [orRequireSubLoop] in H.
  pose proof (checkContainerBody_consistent [sub]) as K.
  destruct (checkContainerBody rec [sub]) as [[|] messages|err] eqn:S;
    try discriminate.
  constructor; [| now apply IH].
  exists messages. split; [exact S |].
  destruct messages; [contradiction | discriminate].
Qed.

Lemma orRequireSubLoop_flow (subs : list CompressedContainer) :
  match orRequireSubLoop rec subs with
  | Continue _ => True
  | Return r => consistent r
  end.
Proof.
  induction subs as [|sub rest IH]; [exact I |].
  cbn [orRequireSubLoop].
  destruct (checkContainerBody rec [sub]) as [[|] messages|err];
    [exact I | exact IH | exact I].
Qed.

Lemma orProhibitSubLoop_flow (subs : list CompressedContainer) :
  forall mentionedUnits,
    match orProhibitSubLoop rec subs mentionedUnits with
    | Continue _ => True
    | Return r => consistent r
    end.
Proof.
  induction subs as [|sub rest IH]; intros mentionedUnits; [exact I |].
  cbn [orProhibitSubLoop].
  destruct (checkContainerBody rec [sub]) as [met messages|err];
    [apply IH | exact I].
Qed.

Lemma checkAndLogicBody_consistent (isProhibition : bool)
      (container : CompressedContainer) :
  consistent (checkAndLogicBody completedUnits rec isProhibition container).
Proof.
  unfold checkAndLogicBody.
  destruct ((length (Units container) =? 0) && (length (Containers container) =? 0))%nat;
    [exact I |].
  pose proof (andSubLoop_flow (Containers container) []) as F.
  destruct isProhibition; simpl negb; cbv iota;
    destruct (andSubLoop rec (Containers container) []) as [unmet|r];
    try apply finish_consistent;
    destruct F as [err ->]; exact I.
Qed.

Lemma checkOrLogicBody_consistent (isProhibition : bool)
      (container : CompressedContainer) :
  consistent (checkOrLogicBody completedUnits rec isProhibition container).
Proof.
  unfold checkOrLogicBody.
  destruct ((length (Units container) =? 0) && (length (Containers container) =? 0))%nat
    eqn:Empty; [exact I |].
  destruct isProhibition; simpl negb; cbv iota.
  - pose proof (orProhibitSubLoop_flow (Containers container)
                  (mentioned completedUnits true (Units container))) as F.
    destruct (orProhibitSubLoop rec (Containers container) _) as [mentionedUnits|r];
      [| exact F].
    unfold orTail. apply finish_consistent.
  - destruct (existsb _ (Units container)) eqn:Ex; [exact I |].
    pose proof (orRequireSubLoop_flow (Containers container)) as F.
    destruct (orRequireSubLoop rec (Containers container)) as [[]|r] eqn:Loop;
      [| exact F].
    apply orRequireSubLoop_continue in Loop.
    unfold orTail. simpl negb. cbv iota.
    rewrite orCollectLoop_flat.
    set (unmet := _ ++ flat_map _ _).
    assert (N : unmet <> []).
    { subst unmet.
      destruct (Units container) as [|unit units] eqn:EU.
      - destruct (Containers container) as [|sub subs] eqn:EC; [discriminate |].
        inversion Loop as [|? ? [messages [S M]] _]; subst.
        cbn [flat_map]. rewrite S. simpl.
        destruct messages; [contradiction | discriminate].
      - simpl in Ex. apply orb_false_iff in Ex. destruct Ex as [Ex _].
        unfold mentioned. cbn [filter]. rewrite Ex. simpl. discriminate. }
    destruct (finish_cases false unmet) as [[E _]|[_ ->]]; [contradiction |].
    destruct unmet; [contradiction | exact I].
Qed.

Lemma checkContainerLogicBody_consistent (isProhibition : bool)
      (container : CompressedContainer) :
  consistent (checkContainerLogicBody completedUnits rec isProhibition container).
Proof.
  unfold checkContainerLogicBody.
  destruct (Relationship container =? "AND")%string;
    [apply checkAndLogicBody_consistent |].
  destruct (Relationship container =? "OR")%string;
    [apply checkOrLogicBody_consistent | exact I].
Qed.

End AnyEvaluator.

Lemma checkContainerLogic_consistent (completedUnits : list Unit)
      (isProhibition : bool) (container : CompressedContainer) :
  consistent (checkContainerLogic completedUnits isProhibition container).
Proof.
  rewrite checkContainerLogic_unfold. apply checkContainerLogicBody_consistent.
Qed.

Lemma contributed_messages (r : CheckResult) :
  consistent r -> contributed r = resultMessages r.
Proof.
  destruct r as [[|] [|m ms]|err]; simpl; tauto.
Qed.

Lemma consistent_cases (r : CheckResult) (met : bool) (messages : list string) :
  consistent r -> r = Checked met messages ->
  (met = true /\ messages = []) \/ (met = false /\ messages <> []).
Proof.
  intros K ->. destruct met, messages; simpl in K; try contradiction.
  - left; auto.
  - right; split; [reflexivity | discriminate].
Qed.

Lemma oneMessage_nil (prefix sep : string) (codes : list string) :
  oneMessage prefix sep codes = [] <-> codes = [].
Proof.
  destruct codes; simpl; split; auto; discriminate.
Qed.

(** ** The dispatch on the relationship *)

Lemma checkContainerLogic_or (completedUnits : list Unit) (isProhibition : bool)
      (container : CompressedContainer) :
  Relationship container = "OR" ->
  checkContainerLogic completedUnits isProhibition container
  = checkOrLogicBody completedUnits
      (checkContainerLogic completedUnits isProhibition) isProhibition container.
Proof.
  intros R. rewrite checkContainerLogic_unfold.
  unfold checkContainerLogicBody. now rewrite R.
Qed.

Lemma checkContainerLogic_and (completedUnits : list Unit) (isProhibition : bool)
      (container : CompressedContainer) :
  Relationship container = "AND" ->
  checkContainerLogic completedUnits isProhibition container
  = checkAndLogicBody completedUnits
      (checkContainerLogic completedUnits isProhibition) isProhibition container.
Proof.
  intros R. rewrite checkContainerLogic_unfold.
  unfold checkContainerLogicBody. now rewrite R.
Qed.

Lemma not_both_empty (container : CompressedContainer) :
  Units container <> [] \/ Containers container <> [] ->
  ((length (Units container) =? 0) && (length (Containers container) =? 0))%nat = false.
Proof.
  intros [N|N]; apply andb_false_iff; [left | right];
    apply Nat.eqb_neq; intros L; apply length_zero_iff_nil in L; contradiction.
Qed.

(** ** Nested containers evaluated on their own *)

Section NestedContainers.
Variable completedUnits : list Unit.
Variable isProhibition : bool.

Let rec := checkContainerLogic completedUnits isProhibition.

Lemma contributed_nested (subs : list CompressedContainer) :
  flat_map (fun sub => contributed (rec sub)) subs
  = nestedMessages completedUnits isProhibition subs.
Proof.
  unfold nestedMessages. induction subs as [|sub rest IH]; [reflexivity |].
  cbn [flat_map]. rewrite IH. f_equal.
  apply contributed_messages, checkContainerLogic_consistent.
Qed.

Lemma single_messages (sub : CompressedContainer) :
  evaluates (rec sub) ->
  resultMessages (checkContainerBody rec [sub]) = resultMessages (rec sub).
Proof.
  intros [met [messages E]].
  pose proof (contributed_messages (rec sub)
                (checkContainerLogic_consistent _ _ sub)) as K.
  destruct (single_cases rec sub met messages E) as [[S C]|[S _]]; rewrite S, E.
  - rewrite E, C in K. exact K.
  - reflexivity.
Qed.

Lemma nestedMessages_nil (subs : list CompressedContainer) :
  Forall (fun sub => evaluates (rec sub)) subs ->
  (nestedMessages completedUnits isProhibition subs = []
   <-> forall sub, In sub subs -> satisfiedBy completedUnits isProhibition sub).
Proof.
  unfold nestedMessages, satisfiedBy.
  induction 1 as [|sub rest [met [messages E]] _ IH].
  - split; [intros _ sub [] | reflexivity].
  - unfold rec in E. cbn [flat_map]. rewrite E. cbn [resultMessages].
    pose proof (checkContainerLogic_consistent completedUnits isProhibition sub) as K.
    destruct (consistent_cases _ met messages K E) as [[-> ->]|[-> N]].
    + simpl. rewrite IH. split.
      * intros H x [<-|Hx]; [exact E | auto].
      * intros H x Hx. apply H. now right.
    + split.
      * intros H. apply app_eq_nil in H. destruct H as [H _]. contradiction.
      * intros H. specialize (H sub (or_introl eq_refl)). congruence.
Qed.

(** [checkAndLogic], both modes, when no nested container fails. *)
Lemma checkAnd_result (container : CompressedContainer) :
  Relationship container = "AND" ->
  Forall (fun sub => evaluates (rec sub)) (Containers container) ->
  rec container
  = finish true
      (nestedMessages completedUnits isProhibition (Containers container)
       ++ if isProhibition
          then oneMessage "Prohibited by: " " and "
                          (completedCodes completedUnits (Units container))
          else oneMessage "Requires: " " and "
                          (uncompletedCodes completedUnits (Units container))).
Proof.
  intros R F. unfold rec at 1. rewrite checkContainerLogic_unfold. fold rec.
  unfold checkContainerLogicBody. rewrite R. cbn [String.eqb Ascii.eqb Bool.eqb].
  unfold checkAndLogicBody.
  destruct ((length (Units container) =? 0) && (length (Containers container) =? 0))%nat
    eqn:Empty.
  - apply andb_true_iff in Empty. destruct Empty as [EU EC].
    apply Nat.eqb_eq, length_zero_iff_nil in EU.
    apply Nat.eqb_eq, length_zero_iff_nil in EC.
    rewrite EU, EC. destruct isProhibition; reflexivity.
  - rewrite (andSubLoop_ok rec _ F), contributed_nested. cbn [app].
    destruct isProhibition; simpl negb; cbv iota; rewrite message_if_any;
      [rewrite mentioned_true | rewrite mentioned_false]; reflexivity.
Qed.

(** An AND container that evaluates has nested containers that evaluate. *)
Lemma checkAnd_evaluates (container : CompressedContainer) :
  Relationship container = "AND" ->
  evaluates (rec container) ->
  Forall (fun sub => evaluates (rec sub)) (Containers container).
Proof.
  intros R [met [messages H]]. unfold rec in H.
  rewrite (checkContainerLogic_and _ _ _ R) in H. fold rec in H.
  unfold checkAndLogicBody in H.
  destruct ((length (Units container) =? 0) && (length (Containers container) =? 0))%nat
    eqn:Empty.
  - apply andb_true_iff in Empty. destruct Empty as [_ EC].
    apply Nat.eqb_eq, length_zero_iff_nil in EC. rewrite EC. constructor.
  - pose proof (andSubLoop_flow rec (Containers container) []) as F.
    destruct (andSubLoop rec (Containers container) []) as [unmet|r] eqn:Loop.
    + exact (andSubLoop_evaluates rec _ _ _ Loop).
    + destruct F as [err ->]. destruct isProhibition; discriminate.
Qed.

(** An AND container is satisfied exactly when it has no message to give. *)
Lemma checkAnd_satisfied (container : CompressedContainer) :
  Relationship container = "AND" ->
  (satisfiedBy completedUnits isProhibition container
   <-> (if isProhibition
        then completedCodes completedUnits (Units container)
        else uncompletedCodes completedUnits (Units container)) = []
       /\ forall sub, In sub (Containers container) ->
                      satisfiedBy completedUnits isProhibition sub).
Proof.
  intros R. unfold satisfiedBy at 1. fold rec.
  assert (Unmet : forall F : Forall (fun sub => evaluates (rec sub)) (Containers container),
             rec container = Checked true []
             <-> (if isProhibition
                  then completedCodes completedUnits (Units container)
                  else uncompletedCodes completedUnits (Units container)) = []
                 /\ forall sub, In sub (Containers container) ->
                                satisfiedBy completedUnits isProhibition sub).
  { intros F. rewrite (checkAnd_result container R F).
    rewrite <- (nestedMessages_nil _ F).
    set (nested := nestedMessages _ _ _).
    set (own := if isProhibition then oneMessage _ _ _ else oneMessage _ _ _).
    assert (O : own = [] <-> (if isProhibition
                             then completedCodes completedUnits (Units container)
                             else uncompletedCodes completedUnits (Units container)) = [])
      by (subst own; destruct isProhibition; apply oneMessage_nil).
    rewrite <- O.
    destruct (finish_cases true (nested ++ own)) as [[E ->]|[N ->]].
    - apply app_eq_nil in E. tauto.
    - split; [discriminate |]. intros [-> ->]. now contradiction N. }
  split.
  - intros H. apply Unmet; [| exact H].
    apply checkAnd_evaluates; [exact R | now exists true, []].
  - intros [HU HS]. apply Unmet; [| split; assumption].
    apply Forall_forall. intros sub HI. exists true, []. exact (HS sub HI).
Qed.

End NestedContainers.


(** ** AND containers *)

(** C1.  An AND container in prerequisite mode is satisfied if and only if
    every direct unit's code is in the completed set and every nested
    container is satisfied on its own.  When none of its nested containers
    fails with an error, its messages are those of the nested containers, in
    order, followed by the single message ["Requires: c1 and c2 and ..."]
    over the codes of the uncompleted direct units in container order (no
    such message when there is none); they are empty exactly when it is
    satisfied.  Scenario 2: [AND(FIT1045, FIT2004)] with [FIT1045] completed
    gives [false] and [["Requires: FIT2004"]]. *)
Theorem C1_and_prerequisite :
  (forall (completedUnits : list Unit) (container : CompressedContainer),
      Relationship container = "AND" ->
      (satisfiedBy completedUnits false container
       <-> (forall unit, In unit (Units container) -> completedIn completedUnits unit)
           /\ (forall sub, In sub (Containers container) ->
                           satisfiedBy completedUnits false sub))
      /\ (Forall (fun sub => evaluates (checkContainerLogic completedUnits false sub))
                 (Containers container) ->
          exists met messages,
            checkContainerLogic completedUnits false container = Checked met messages
            /\ (met = true <->
                (forall unit, In unit (Units container) -> completedIn completedUnits unit)
                /\ (forall sub, In sub (Containers container) ->
                                satisfiedBy completedUnits false sub))
            /\ messages
               = nestedMessages completedUnits false (Containers container)
                 ++ oneMessage "Requires: " " and "
                               (uncompletedCodes completedUnits (Units container))
            /\ (met = true <-> messages = [])))
  /\ CheckRequisites [done "FIT1045"]
       [prerequisite [containerOf "AND" ["FIT1045"; "FIT2004"] []]]
     = Checked false ["Requires: FIT2004"].
Proof.
  split; [| reflexivity].
  intros completedUnits container R.
  split.
  { rewrite (checkAnd_satisfied completedUnits false container R).
    now rewrite uncompletedCodes_nil. }
  intros F.
  rewrite (checkAnd_result completedUnits false container R F).
  set (unmet := _ ++ _).
  assert (Sat : unmet = [] <->
                (forall unit, In unit (Units container) -> completedIn completedUnits unit)
                /\ (forall sub, In sub (Containers container) ->
                                satisfiedBy completedUnits false sub)).
  { subst unmet. split.
    - intros H. apply app_eq_nil in H. destruct H as [HN HM]. split.
      + now apply uncompletedCodes_nil, (oneMessage_nil "Requires: " " and ").
      + now apply nestedMessages_nil.
    - intros [HU HS].
      apply uncompletedCodes_nil, (oneMessage_nil "Requires: " " and ") in HU.
      apply (nestedMessages_nil _ _ _ F) in HS. now rewrite HU, HS. }
  destruct (finish_cases true unmet) as [[E ->]|[N ->]].
  - exists true, []. split; [reflexivity |].
    split; [split; [intros _; now apply Sat | reflexivity] |].
    split; [symmetry; exact E | tauto].
  - exists false, unmet. split; [reflexivity |].
    split; [split; [discriminate | intros H; apply Sat in H; contradiction] |].
    split; [reflexivity | split; [discriminate | intros H; contradiction]].
Qed.

Lemma C1_and_prerequisite_witness :
  exists met messages,
    checkContainerLogic [done "FIT1045"] false
      (containerOf "AND" ["FIT1045"; "FIT2004"] [containerOf "OR" ["MAT1830"] []])
    = Checked met messages
    /\ messages = ["Requires one of: MAT1830"; "Requires: FIT2004"].
Proof.
  destruct (proj2 (proj1 C1_and_prerequisite [done "FIT1045"]
              (containerOf "AND" ["FIT1045"; "FIT2004"] [containerOf "OR" ["MAT1830"] []])
              eq_refl))
    as [met [messages [E [_ [M _]]]]].
  - repeat constructor. exists false, ["Requires one of: MAT1830"]. reflexivity.
  - exists met, messages. split; [exact E | exact M].
Defined.

(** C3.  An AND container in prohibition mode is never evaluated as not
    violated when one of its direct units is completed, whether or not the
    others are: it is not violated if and only if none of its direct units
    is completed and every nested container, evaluated in prohibition mode,
    is not violated.  When none of its nested containers fails with an
    error, the violation is flagged ([met = false]), and the messages are
    those of the nested containers followed by the single message
    ["Prohibited by: c1 and c2 and ..."] over the completed direct units.
    Scenario 4: prohibition [AND(FIT1008)] with [FIT1008] completed gives
    [false] and [["Prohibited by: FIT1008"]]. *)
Theorem C3_and_prohibition :
  (forall (completedUnits : list Unit) (container : CompressedContainer),
      Relationship container = "AND" ->
      (satisfiedBy completedUnits true container
       <-> (forall unit, In unit (Units container) -> ~ completedIn completedUnits unit)
           /\ (forall sub, In sub (Containers container) ->
                           satisfiedBy completedUnits true sub))
      /\ (Forall (fun sub => evaluates (checkContainerLogic completedUnits true sub))
                 (Containers container) ->
          exists met messages,
            checkContainerLogic completedUnits true container = Checked met messages
            /\ messages
               = nestedMessages completedUnits true (Containers container)
                 ++ oneMessage "Prohibited by: " " and "
                               (completedCodes completedUnits (Units container))
            /\ (met = false <-> messages <> [])
            /\ ((exists unit, In unit (Units container)
                              /\ completedIn completedUnits unit) ->
                met = false)))
  /\ CheckRequisites [done "FIT1008"] [prohibition [containerOf "AND" ["FIT1008"] []]]
     = Checked false ["Prohibited by: FIT1008"].
Proof.
  split; [| reflexivity].
  intros completedUnits container R.
  assert (Sat : satisfiedBy completedUnits true container
                <-> (forall unit, In unit (Units container) ->
                                  ~ completedIn completedUnits unit)
                    /\ (forall sub, In sub (Containers container) ->
                                    satisfiedBy completedUnits true sub)).
  { rewrite (checkAnd_satisfied completedUnits true container R).
    now rewrite completedCodes_nil. }
  split; [exact Sat |].
  intros F. unfold satisfiedBy in Sat at 1.
  rewrite (checkAnd_result completedUnits true container R F) in *.
  set (unmet := _ ++ _) in *.
  destruct (finish_cases true unmet) as [[E K]|[N K]]; rewrite K in *.
  - exists true, []. split; [reflexivity |].
    split; [symmetry; exact E |].
    split; [split; [discriminate | intros H; now contradiction H] |].
    intros [unit [HI HC]]. exfalso.
    exact (proj1 (proj1 Sat eq_refl) unit HI HC).
  - exists false, unmet. split; [reflexivity |].
    split; [reflexivity |].
    split; [split; [intros _; exact N | reflexivity] | reflexivity].
Qed.

Lemma C3_and_prohibition_witness :
  exists met messages,
    checkContainerLogic [done "FIT1008"] true
      (containerOf "AND" ["FIT1008"; "FIT2085"] []) = Checked met messages
    /\ met = false
    /\ messages = ["Prohibited by: FIT1008"].
Proof.
  destruct (proj2 (proj1 C3_and_prohibition [done "FIT1008"]
              (containerOf "AND" ["FIT1008"; "FIT2085"] []) eq_refl))
    as [met [messages [E [M [_ V]]]]].
  - constructor.
  - exists met, messages. repeat split; [exact E | | exact M].
    apply V. exists (unitOf "FIT1008"). split; [left; reflexivity |].
    left. reflexivity.
Defined.

(** ** OR containers *)

Section OrContainers.
Variable completedUnits : list Unit.
Variable isProhibition : bool.

Let rec := checkContainerLogic completedUnits isProhibition.

Lemma single_true_satisfied (sub : CompressedContainer) (messages : list string) :
  checkContainerBody rec [sub] = Checked true messages ->
  satisfiedBy completedUnits isProhibition sub.
Proof.
  unfold satisfiedBy. fold rec. rewrite checkContainerBody_single.
  pose proof (checkContainerLogic_consistent completedUnits isProhibition sub) as K.
  fold rec in K.
  destruct (rec sub) as [[|] [|m ms]|err]; simpl in *;
    try contradiction; try discriminate; reflexivity.
Qed.

Lemma satisfied_single (sub : CompressedContainer) :
  satisfiedBy completedUnits isProhibition sub ->
  checkContainerBody rec [sub] = Checked true [].
Proof.
  unfold satisfiedBy. fold rec. intros E.
  now rewrite checkContainerBody_single, E.
Qed.

Lemma unsatisfied_single (sub : CompressedContainer) (messages : list string) :
  rec sub = Checked false messages ->
  checkContainerBody rec [sub] = Checked false messages /\ messages <> [].
Proof.
  intros E.
  pose proof (checkContainerLogic_consistent completedUnits isProhibition sub) as K.
  fold rec in K. rewrite E in K.
  rewrite checkContainerBody_single, E.
  destruct messages; [contradiction | split; [reflexivity | discriminate]].
Qed.

Lemma orRequireSubLoop_hit (before after : list CompressedContainer)
      (sub : CompressedContainer) :
  Forall (fun s => evaluates (rec s)) before ->
  satisfiedBy completedUnits isProhibition sub ->
  orRequireSubLoop rec (before ++ sub :: after) = Return (Checked true []).
Proof.
  intros F S. induction F as [|s before [met [messages E]] _ IH].
  - cbn [app orRequireSubLoop]. now rewrite (satisfied_single sub S).
  - cbn [app orRequireSubLoop].
    destruct (single_cases rec s met messages E) as [[-> _]|[-> _]];
      [reflexivity | exact IH].
Qed.

Lemma orRequireSubLoop_miss (subs : list CompressedContainer) :
  Forall (fun s => exists messages, rec s = Checked false messages) subs ->
  orRequireSubLoop rec subs = Continue tt.
Proof.
  induction 1 as [|s subs [messages E] _ IH]; [reflexivity |].
  cbn [orRequireSubLoop].
  destruct (unsatisfied_single s messages E) as [-> _]. exact IH.
Qed.

Lemma orRequireSubLoop_return (subs : list CompressedContainer) (r : CheckResult) :
  orRequireSubLoop rec subs = Return r ->
  (exists err, r = CheckError err)
  \/ (r = Checked true []
      /\ exists sub, In sub subs /\ satisfiedBy completedUnits isProhibition sub).
Proof.
  induction subs as [|s subs IH]; [discriminate |].
  cbn [orRequireSubLoop].
  destruct (checkContainerBody rec [s]) as [[|] messages|err] eqn:S.
  - intros H. injection H as <-. right. split; [reflexivity |].
    exists s. split; [now left | exact (single_true_satisfied s messages S)].
  - intros H. destruct (IH H) as [L|[-> [sub [HI HS]]]]; [now left | right].
    split; [reflexivity |]. exists sub. split; [now right | exact HS].
  - intros H. injection H as <-. left. eauto.
Qed.

Lemma collected_nested (subs : list CompressedContainer) :
  Forall (fun s => evaluates (rec s)) subs ->
  flat_map (fun sub => resultMessages (checkContainerBody rec [sub])) subs
  = nestedMessages completedUnits isProhibition subs.
Proof.
  unfold nestedMessages. induction 1 as [|s subs E _ IH]; [reflexivity |].
  cbn [flat_map]. rewrite IH. f_equal.
  exact (single_messages completedUnits isProhibition s E).
Qed.

Lemma orProhibitSubLoop_extends (subs : list CompressedContainer) :
  forall mentionedUnits result,
    orProhibitSubLoop rec subs mentionedUnits = Continue result ->
    exists extra, result = mentionedUnits ++ extra.
Proof.
  induction subs as [|s subs IH]; intros mentionedUnits result.
  - cbn [orProhibitSubLoop]. intros H. injection H as <-.
    exists []. now rewrite app_nil_r.
  - cbn [orProhibitSubLoop].
    destruct (checkContainerBody rec [s]) as [[|] messages|err]; try discriminate;
      intros H; destruct (IH _ _ H) as [extra ->].
    + exists ("sub-container" :: extra). now rewrite <- app_assoc.
    + now exists extra.
Qed.

(** In prohibition mode a nested container always leaves a trace: the
    literal ["sub-container"] when it is met, its messages when it is not. *)
Lemma orProhibitSubLoop_trace (subs : list CompressedContainer)
      (mentionedUnits : list string) :
  orProhibitSubLoop rec subs mentionedUnits = Continue [] ->
  flat_map (fun sub => resultMessages (checkContainerBody rec [sub])) subs = [] ->
  subs = [].
Proof.
  destruct subs as [|s subs]; [reflexivity |].
  cbn [orProhibitSubLoop flat_map].
  pose proof (checkContainerBody_consistent rec [s]) as K.
  destruct (checkContainerBody rec [s]) as [[|] messages|err]; try discriminate.
  - intros H _. destruct (orProhibitSubLoop_extends _ _ _ H) as [extra E].
    symmetry in E. apply app_eq_nil in E. destruct E as [E _].
    apply app_eq_nil in E. destruct E as [_ E]. discriminate.
  - intros _ H. apply app_eq_nil in H. destruct H as [H _].
    simpl in H. subst messages. contradiction.
Qed.

End OrContainers.

(** C2.  An OR container in prerequisite mode
    - is satisfied, with no message, as soon as one of its direct units is
      completed, whatever its nested containers are;
    - is satisfied, with no message, as soon as one of its nested containers
      is satisfied on its own and those before it evaluate without error;
    - when it has a unit or a nested container and none of them satisfies,
      is unsatisfied, with the single message
      ["Requires one of: c1 or c2 or ..."] over its uncompleted direct units
      (none when it has no direct unit) followed by the messages of its
      nested containers.
    Scenario 3: [OR(FIT1006, ETC1010, STA1010)] with nothing completed gives
    [false] and [["Requires one of: FIT1006 or ETC1010 or STA1010"]]. *)
Theorem C2_or_prerequisite :
  (forall (completedUnits : list Unit) (container : CompressedContainer),
      Relationship container = "OR" ->
      ((exists unit, In unit (Units container) /\ completedIn completedUnits unit) ->
       checkContainerLogic completedUnits false container = Checked true [])
      /\ (forall before sub after,
             Containers container = before ++ sub :: after ->
             Forall (fun s => evaluates (checkContainerLogic completedUnits false s))
                    before ->
             satisfiedBy completedUnits false sub ->
             checkContainerLogic completedUnits false container = Checked true [])
      /\ (Units container <> [] \/ Containers container <> [] ->
          (forall unit, In unit (Units container) -> ~ completedIn completedUnits unit) ->
          Forall (fun s => exists messages,
                      checkContainerLogic completedUnits false s = Checked false messages)
                 (Containers container) ->
          checkContainerLogic completedUnits false container
          = Checked false
              (oneMessage "Requires one of: " " or "
                          (uncompletedCodes completedUnits (Units container))
               ++ nestedMessages completedUnits false (Containers container))))
  /\ CheckRequisites []
       [prerequisite [containerOf "OR" ["FIT1006"; "ETC1010"; "STA1010"] []]]
     = Checked false ["Requires one of: FIT1006 or ETC1010 or STA1010"].
Proof.
  split; [| reflexivity].
  intros completedUnits container R.
  rewrite (checkContainerLogic_or completedUnits false container R).
  unfold checkOrLogicBody. simpl negb. cbv iota.
  split; [| split].
  - intros [unit [HI HC]].
    rewrite not_both_empty
      by (left; intros E; rewrite E in HI; exact HI).
    destruct (existsb _ (Units container)) eqn:Ex; [reflexivity |].
    exfalso. exact (proj1 (existsb_completed_false _ _) Ex unit HI HC).
  - intros before sub after EC F S.
    rewrite not_both_empty
      by (right; rewrite EC; intros E; apply app_eq_nil in E; destruct E; discriminate).
    destruct (existsb _ (Units container)); [reflexivity |].
    now rewrite EC, (orRequireSubLoop_hit completedUnits false before after sub F S).
  - intros NE NU NS.
    pose proof (checkOrLogicBody_consistent completedUnits
                  (checkContainerLogic completedUnits false) false container) as K.
    unfold checkOrLogicBody in K. simpl negb in K. cbv iota in K.
    rewrite (not_both_empty container NE) in *.
    rewrite (proj2 (existsb_completed_false _ _) NU) in *.
    rewrite (orRequireSubLoop_miss completedUnits false _ NS) in *.
    unfold orTail in *. simpl negb in *. cbv iota in *.
    rewrite message_if_any, orCollectLoop_flat, mentioned_false in *.
    rewrite collected_nested in *
      by (eapply Forall_impl; [| exact NS];
          intros s [messages E]; exists false, messages; exact E).
    cbn [app] in *.
    destruct (finish_cases false
                (oneMessage "Requires one of: " " or "
                            (uncompletedCodes completedUnits (Units container))
                 ++ nestedMessages completedUnits false (Containers container)))
      as [[_ E]|[_ E]]; rewrite E in *; [contradiction | reflexivity].
Qed.

Lemma C2_or_prerequisite_witness :
  checkContainerLogic [done "FIT1045"] false
    (containerOf "OR" ["FIT1006"] [containerOf "AND" ["FIT1045"; "FIT1008"] []])
  = Checked false ["Requires one of: FIT1006"; "Requires: FIT1008"]
  /\ checkContainerLogic [done "FIT1006"] false
       (containerOf "OR" ["FIT1006"] [containerOf "XOR" [] []])
     = Checked true []
  /\ checkContainerLogic [done "FIT1045"] false
       (containerOf "OR" ["FIT1006"]
          [containerOf "AND" ["FIT1008"] []; containerOf "AND" ["FIT1045"] [];
           containerOf "XOR" [] []])
     = Checked true [].
Proof.
  split; [| split].
  - apply (proj2 (proj2 (proj1 C2_or_prerequisite [done "FIT1045"]
              (containerOf "OR" ["FIT1006"] [containerOf "AND" ["FIT1045"; "FIT1008"] []])
              eq_refl))).
    + left. discriminate.
    + intros unit [<-|[]] [H|[]]. discriminate.
    + repeat constructor. exists ["Requires: FIT1008"]. reflexivity.
  - apply (proj1 (proj1 C2_or_prerequisite [done "FIT1006"]
              (containerOf "OR" ["FIT1006"] [containerOf "XOR" [] []]) eq_refl)).
    exists (unitOf "FIT1006"). split; left; reflexivity.
  - apply (proj1 (proj2 (proj1 C2_or_prerequisite [done "FIT1045"]
              (containerOf "OR" ["FIT1006"]
                 [containerOf "AND" ["FIT1008"] []; containerOf "AND" ["FIT1045"] [];
                  containerOf "XOR" [] []])
              eq_refl))
             [containerOf "AND" ["FIT1008"] []]
             (containerOf "AND" ["FIT1045"] [])
             [containerOf "XOR" [] []]).
    + reflexivity.
    + repeat constructor. exists false, ["Requires: FIT1008"]. reflexivity.
    + reflexivity.
Defined.

(** ** The result when nothing registers *)

(** C4, as stated, fails: the container [nestedOnly] has a nested container,
    no direct unit, hence no completed-unit match, and evaluates with no
    message, yet in prerequisite mode the result is [true], not the
    prohibition flag [false]. *)
Lemma C4_counterexample :
  Containers nestedOnly <> []
  /\ Units nestedOnly = []
  /\ checkContainerLogic [] false nestedOnly = Checked true []
  /\ checkContainerLogic [] false nestedOnly <> Checked false [].
Proof.
  repeat split; try reflexivity; discriminate.
Qed.

(** C4, amended.  For a container with a direct unit or a nested container
    whose evaluation returns no message:
    - an AND container is satisfied (not violated) in both modes;
    - an OR container none of whose direct units is completed and none of
      whose nested containers is satisfied returns the prohibition flag;
      this only happens in prohibition mode, for a container without nested
      containers. *)
Theorem C4_default_result :
  forall (completedUnits : list Unit) (isProhibition : bool)
         (container : CompressedContainer) (met : bool),
    Units container <> [] \/ Containers container <> [] ->
    checkContainerLogic completedUnits isProhibition container = Checked met [] ->
    (Relationship container = "AND" -> met = true)
    /\ (Relationship container = "OR" ->
        (forall unit, In unit (Units container) -> ~ completedIn completedUnits unit) ->
        (forall sub, In sub (Containers container) ->
                     ~ satisfiedBy completedUnits isProhibition sub) ->
        met = isProhibition /\ isProhibition = true /\ Containers container = []).
Proof.
  intros completedUnits isProhibition container met NE E.
  pose proof (checkContainerLogic_consistent completedUnits isProhibition container) as K.
  rewrite E in K.
  assert (M : met = true) by (destruct met; [reflexivity | contradiction]).
  subst met. split; [reflexivity |].
  intros R NU NS.
  rewrite (checkContainerLogic_or _ _ _ R) in E.
  unfold checkOrLogicBody in E. rewrite (not_both_empty container NE) in E.
  destruct isProhibition; simpl negb in E; cbv iota in E.
  - split; [reflexivity | split; [reflexivity |]].
    destruct (orProhibitSubLoop _ (Containers container) _) as [mentionedUnits|r]
      eqn:Loop.
    + unfold orTail in E. simpl negb in E. cbv iota in E.
      rewrite message_if_any, orCollectLoop_flat in E. cbn [app] in E.
      destruct (finish_cases true
                  (oneMessage "Prohibited by one of: " " or " mentionedUnits
                   ++ flat_map (fun sub => resultMessages
                        (checkContainerBody (checkContainerLogic completedUnits true) [sub]))
                        (Containers container)))
        as [[U _]|[_ F]]; [| rewrite F in E; discriminate].
      apply app_eq_nil in U. destruct U as [U1 U2].
      apply oneMessage_nil in U1. subst mentionedUnits.
      exact (orProhibitSubLoop_trace completedUnits true _ _ Loop U2).
    + pose proof (orProhibitSubLoop_flow (checkContainerLogic completedUnits true)
                    (Containers container)
                    (mentioned completedUnits true (Units container))) as F.
      rewrite Loop in F. subst r.
      exfalso.
      clear - Loop. revert Loop.
      generalize (mentioned completedUnits true (Units container)).
      induction (Containers container) as [|s subs IH]; intros m; [discriminate |].
      cbn [orProhibitSubLoop].
      destruct (checkContainerBody _ [s]); [apply IH | discriminate].
  - exfalso.
    rewrite (proj2 (existsb_completed_false _ _) NU) in E.
    destruct (orRequireSubLoop _ (Containers container)) as [[]|r] eqn:Loop.
    + unfold orTail, finish in E.
      destruct (0 <? length _)%nat in E; discriminate.
    + subst r.
      destruct (orRequireSubLoop_return completedUnits false _ _ Loop)
        as [[err H]|[_ [sub [HI HS]]]]; [discriminate |].
      exact (NS sub HI HS).
Qed.

Lemma C4_default_result_witness :
  (checkContainerLogic [done "FIT1045"] true (containerOf "OR" ["FIT1008"; "FIT2085"] [])
   = Checked true []
   /\ true = true /\ Containers (containerOf "OR" ["FIT1008"; "FIT2085"] []) = [])
  /\ (checkContainerLogic [done "FIT1045"] true (containerOf "AND" ["FIT1008"] [])
      = Checked true []
      /\ true = true).
Proof.
  split.
  - split; [reflexivity |].
    refine (let H := proj2 (C4_default_result [done "FIT1045"] true
                   (containerOf "OR" ["FIT1008"; "FIT2085"] []) true
                   (or_introl _) eq_refl) eq_refl _ _ in
            conj (proj1 (proj2 H)) (proj2 (proj2 H))).
    + discriminate.
    + intros unit [<-|[<-|[]]] [H|[]]; discriminate.
    + intros sub [].
  - split; [reflexivity |].
    refine (proj1 (C4_default_result [done "FIT1045"] true
                     (containerOf "AND" ["FIT1008"] []) true
                     (or_introl _) eq_refl) eq_refl).
    discriminate.
Defined.

(** ** Empty containers *)

(** C8, as stated, fails: an empty container whose relationship is neither
    ["AND"] nor ["OR"] is not evaluated as satisfied, in either mode; the
    evaluation returns an error. *)
Lemma C8_counterexample :
  checkContainerLogic [] false
    {| Relationship := "XOR"; Units := []; Containers := [] |}
  = CheckError "unknown relationship type: XOR"
  /\ checkContainerLogic [] true
       {| Relationship := "XOR"; Units := []; Containers := [] |}
     = CheckError "unknown relationship type: XOR".
Proof. split; reflexivity. Qed.

(** C8, amended.  A container with no direct unit and no nested container
    whose relationship is ["AND"] or ["OR"] evaluates to satisfied (not
    violated) with no message, in both modes and for every completed set,
    on its own and as the only element of a container list; with any other
    relationship its evaluation is the error
    ["unknown relationship type: <relationship>"]. *)
Theorem C8_empty_container :
  forall (completedUnits : list Unit) (isProhibition : bool)
         (container : CompressedContainer),
    Units container = [] ->
    Containers container = [] ->
    (Relationship container = "AND" \/ Relationship container = "OR" ->
     checkContainerLogic completedUnits isProhibition container = Checked true []
     /\ checkContainer completedUnits [container] isProhibition = Checked true [])
    /\ (Relationship container <> "AND" ->
        Relationship container <> "OR" ->
        checkContainerLogic completedUnits isProhibition container
        = CheckError ("unknown relationship type: " ++ Relationship container)%string).
Proof.
  intros completedUnits isProhibition container EU EC. split.
  - intros R.
    assert (E : checkContainerLogic completedUnits isProhibition container
                = Checked true []).
    { destruct R as [R|R].
      - rewrite (checkContainerLogic_and _ _ _ R).
        unfold checkAndLogicBody. now rewrite EU, EC.
      - rewrite (checkContainerLogic_or _ _ _ R).
        unfold checkOrLogicBody. now rewrite EU, EC. }
    split; [exact E |].
    unfold checkContainer. now rewrite checkContainerBody_single, E.
  - intros NA NO. rewrite checkContainerLogic_unfold.
    unfold checkContainerLogicBody.
    apply String.eqb_neq in NA. apply String.eqb_neq in NO.
    now rewrite NA, NO.
Qed.

Lemma C8_empty_container_witness :
  (checkContainerLogic [done "FIT1045"] true
     {| Relationship := "OR"; Units := []; Containers := [] |} = Checked true []
   /\ checkContainer [done "FIT1045"]
        [{| Relationship := "OR"; Units := []; Containers := [] |}] true
      = Checked true [])
  /\ checkContainerLogic [done "FIT1045"] false
       {| Relationship := "and"; Units := []; Containers := [] |}
     = CheckError "unknown relationship type: and".
Proof.
  split.
  - apply (proj1 (C8_empty_container [done "FIT1045"] true
                    {| Relationship := "OR"; Units := []; Containers := [] |}
                    eq_refl eq_refl)).
    right. reflexivity.
  - apply (proj2 (C8_empty_container [done "FIT1045"] false
                    {| Relationship := "and"; Units := []; Containers := [] |}
                    eq_refl eq_refl)); discriminate.
Defined.

(** ** The boolean and the message list *)

Lemma checkRequisitesLoop_consistent (completedUnits : list Unit)
      (requisites : list CompressedRequisite) :
  forall unmet, consistent (checkRequisitesLoop completedUnits requisites unmet).
Proof.
  induction requisites as [|requisite rest IH]; intros unmet; cbn [checkRequisitesLoop].
  - apply finish_consistent.
  - destruct (RequisiteType requisite =? "Prerequisite")%string.
    + destruct (checkContainer completedUnits _ false); [apply IH | exact I].
    + destruct (RequisiteType requisite =? "Prohibition")%string; [| apply IH].
      destruct (checkContainer completedUnits _ true); [apply IH | exact I].
Qed.

Lemma checkContainerLoop_silent (rec : CompressedContainer -> CheckResult)
      (containers : list CompressedContainer) :
  (forall container, In container containers -> rec container = Checked false []) ->
  checkContainerLoop rec containers [] = Checked true [].
Proof.
  induction containers as [|container rest IH]; intros H; [reflexivity |].
  cbn [checkContainerLoop]. rewrite (H container (or_introl eq_refl)).
  simpl. apply IH. intros c Hc. apply H. now right.
Qed.

(** C10.  Whenever [CheckRequisites] returns without error its result is
    either [true] with no message or [false] with at least one message; the
    same holds of [checkContainer].  In particular, whatever evaluator
    stands for [checkContainerLogic], containers that it judges unmet
    without giving any message leave the aggregate result of
    [checkContainer] at [true]. *)
Theorem C10_result_consistent :
  forall (completedUnits : list Unit),
    (forall requisites met messages,
        CheckRequisites completedUnits requisites = Checked met messages ->
        (met = true /\ messages = []) \/ (met = false /\ messages <> []))
    /\ (forall containers isProhibition met messages,
           checkContainer completedUnits containers isProhibition = Checked met messages ->
           (met = true /\ messages = []) \/ (met = false /\ messages <> []))
    /\ (forall (rec : CompressedContainer -> CheckResult) containers,
           (forall container, In container containers ->
                              rec container = Checked false []) ->
           checkContainerBody rec containers = Checked true []).
Proof.
  intros completedUnits. split; [| split].
  - intros requisites met messages E.
    apply (consistent_cases _ met messages) in E; [exact E |].
    unfold CheckRequisites.
    destruct (length requisites =? 0)%nat;
      [exact I | apply checkRequisitesLoop_consistent].
  - intros containers isProhibition met messages E.
    apply (consistent_cases _ met messages) in E; [exact E |].
    apply checkContainerBody_consistent.
  - intros rec containers H. unfold checkContainerBody.
    destruct (length containers =? 0)%nat;
      [reflexivity | now apply checkContainerLoop_silent].
Qed.

Lemma C10_result_consistent_witness :
  ((false = true /\ ["Requires: FIT2004"; "Prohibited by: FIT1045"] = [])
   \/ (false = false /\ ["Requires: FIT2004"; "Prohibited by: FIT1045"] <> []))
  /\ ((true = true /\ @nil string = [])
      \/ (true = false /\ @nil string <> []))
  /\ checkContainerBody (fun _ => Checked false [])
       [containerOf "AND" ["FIT1045"] []; containerOf "OR" ["FIT2004"] []]
     = Checked true [].
Proof.
  split; [| split].
  - apply (proj1 (C10_result_consistent [done "FIT1045"])
                 [prerequisite [containerOf "AND" ["FIT1045"; "FIT2004"] []];
                  prohibition [containerOf "AND" ["FIT1045"] []]]).
    reflexivity.
  - apply (proj1 (proj2 (C10_result_consistent [done "FIT1045"]))
                 [containerOf "AND" ["FIT1045"] []] false).
    reflexivity.
  - apply (proj2 (proj2 (C10_result_consistent [done "FIT1045"]))
                 (fun _ => Checked false [])).
    intros container _. reflexivity.
Defined.

(** * Properties of the curriculum parser *)

(** ** Raw maps *)

Lemma withField_mapIndex {R : Type} (key : string) (m : JMap)
      (present : JSON -> R) (absent : R) :
  withField key m present absent
  = match mapIndex key m with
    | Some v => present v
    | None => absent
    end.
Proof.
  unfold withField. induction m as [|[k v] rest IH]; simpl; [reflexivity |].
  destruct (k =? key)%string; [reflexivity | exact IH].
Qed.

(** [parseItems] writes the key ["connector"] only: the nested containers
    read afterwards under ["container"] are those of the map as it was. *)
Lemma mapIndex_mapSet_other (key other : string) (v : JSON) (m : JMap) :
  other <> key -> mapIndex other (mapSet key v m) = mapIndex other m.
Proof.
  intros N. induction m as [|[k x] rest IH]; simpl.
  - destruct (String.eqb_spec key other); [congruence | reflexivity].
  - destruct (String.eqb_spec k key) as [->|Nk]; simpl.
    + destruct (String.eqb_spec key other); [congruence | reflexivity].
    + destruct (k =? other)%string; [reflexivity | exact IH].
Qed.

Lemma parseItems_container (itemsData : JSON) (containerMap : JMap) :
  mapIndex "container" (snd (parseItems itemsData containerMap))
  = mapIndex "container" containerMap.
Proof.
  unfold parseItems. destruct itemsData; try reflexivity.
  cbn [snd]. unfold extractConnector.
  destruct (mapGet "relationship" containerMap) as [| | | |[|[| | | | |relMap] ?]|];
    try reflexivity.
  destruct (mapGet "parent_connector" relMap) as [| | | | |connectorMap];
    try reflexivity.
  destruct (mapGet "value" connectorMap); try reflexivity.
  apply mapIndex_mapSet_other. discriminate.
Qed.

(** ** Numbers read from strings *)

Lemma StringToInt_no_digit (s : string) :
  FindDigits s = "" -> StringToInt s = 0%Z.
Proof.
  unfold StringToInt. intros ->. reflexivity.
Qed.

(** ** Parts *)

Lemma bind_ok {A B : Type} (x : Outcome A) (f : A -> Outcome B) (b : B) :
  bind x f = Ok b -> exists a, x = Ok a /\ f a = Ok b.
Proof.
  destruct x as [a|reason]; simpl; [eauto | discriminate].
Qed.

(** What [parsePart] returns, field by field. *)
Lemma parsePart_fields (total : Z) (partMap : JMap) (part : Part.t) :
  parsePart total partMap = Ok part ->
  Part.CreditPointsRequired part
  = (if (parsedCredits partMap =? total)%Z then 0%Z else parsedCredits partMap)
  /\ Part.Connector part
     = (if firstChildMatches (parsedCredits partMap)
                             (Part.Containers part) (Part.AcademicItems part)
        then "OR" else "AND")
  /\ (Part.Containers part = [] \/ Part.AcademicItems part = []).
Proof.
  unfold parsePart. fold (parsedCredits partMap).
  intros H.
  apply bind_ok in H. destruct H as [orderStr [_ H]].
  apply bind_ok in H. destruct H as [[containers connector] [HC H]].
  assert (C : connector
              = if firstChildMatches (parsedCredits partMap) containers []
                then "OR" else "AND").
  { destruct (mapIndex "container" partMap) as [containersRaw|].
    - apply bind_ok in HC. destruct HC as [[parsed relationship] [_ HC]].
      cbn [app] in HC. injection HC as <- <-.
      destruct parsed as [|first rest]; [reflexivity |].
      cbn [firstChildMatches].
      now destruct (Container.CreditPointsRequired first =? parsedCredits partMap)%Z.
    - injection HC as <- <-. reflexivity. }
  clear HC.
  destruct containers as [|first rest].
  - cbn [length Nat.eqb] in H. cbn [firstChildMatches] in C. subst connector.
    destruct (mapIndex "relationship" partMap) as [relationshipsRaw|].
    + set (items := fst (parseItems relationshipsRaw partMap)) in H.
      assert (I : (if (0 <? length items)%nat then items else []) = items)
        by (destruct items; reflexivity).
      rewrite I in H. clear I.
      destruct items as [|item items']; injection H as <-;
        cbn [Part.CreditPointsRequired Part.Connector Part.Containers
             Part.AcademicItems firstChildMatches];
        (split; [reflexivity | split; [| now left]]); [reflexivity |].
      now destruct (AcademicItem.CreditPoints item =? parsedCredits partMap)%Z.
    + injection H as <-.
      cbn [Part.CreditPointsRequired Part.Connector Part.Containers
           Part.AcademicItems firstChildMatches].
      split; [reflexivity | split; [reflexivity | now left]].
  - cbn [length Nat.eqb] in H. injection H as <-.
    cbn [Part.CreditPointsRequired Part.Connector Part.Containers
         Part.AcademicItems].
    split; [reflexivity | split; [exact C | now right]].
Qed.

Lemma parsePartsLoop_parts (total : Z) (partsData : list JSON) :
  forall Parts result,
    parsePartsLoop total partsData Parts = Ok result ->
    exists parsed,
      result = Parts ++ parsed
      /\ Forall2 (fun partMap part => parsePart total partMap = Ok part)
                 (objects partsData) parsed.
Proof.
  induction partsData as [|partInterface rest IH]; intros Parts result H.
  - injection H as <-. exists []. split; [now rewrite app_nil_r | constructor].
  - cbn [parsePartsLoop] in H.
    destruct partInterface as [| | | | |partMap];
      try (destruct (IH _ _ H) as [parsed [E F]]; exists parsed; split; assumption).
    apply bind_ok in H. destruct H as [part [HP H]].
    destruct (IH _ _ H) as [parsed [E F]].
    exists (part :: parsed). split.
    + rewrite E, <- app_assoc. reflexivity.
    + cbn [objects flat_map app]. constructor; assumption.
Qed.

(** A curriculum returned without error has one part per raw part, each
    the result of [parsePart] under the curriculum's total. *)
Lemma ParseCurriculum_parts (data : JMap) (curriculum : Curriculum.t) :
  ParseCurriculum data = Ok (curriculum, None) ->
  Forall2 (fun partMap part =>
             parsePart (Curriculum.TotalCreditPoints curriculum) partMap = Ok part)
          (partEntries data) (Curriculum.Parts curriculum).
Proof.
  unfold ParseCurriculum, partEntries.
  set (structure := GetTypedValue_map data _).
  destruct (mapGet "credit_points" structure); try discriminate.
  destruct (mapGet "container" structure) as [| | | |partsData|]; try discriminate.
  intros H. apply bind_ok in H. destruct H as [parts [HP H]].
  injection H as <-. cbn [Curriculum.TotalCreditPoints Curriculum.Parts].
  destruct (parsePartsLoop_parts _ _ _ _ HP) as [parsed [-> F]]. exact F.
Qed.

(** C9.  In a curriculum returned by [ParseCurriculum], the parts are those
    of the raw document, in order, and a part whose parsed required credit
    points equal the curriculum's total has [CreditPointsRequired = 0]; any
    other part keeps its parsed credit points. *)
Theorem C9_credit_normalization :
  forall (data : JMap) (curriculum : Curriculum.t),
    ParseCurriculum data = Ok (curriculum, None) ->
    Forall2 (fun partMap part =>
               (parsedCredits partMap = Curriculum.TotalCreditPoints curriculum ->
                Part.CreditPointsRequired part = 0%Z)
               /\ (parsedCredits partMap <> Curriculum.TotalCreditPoints curriculum ->
                   Part.CreditPointsRequired part = parsedCredits partMap))
            (partEntries data) (Curriculum.Parts curriculum).
Proof.
  intros data curriculum H.
  eapply Forall2_impl; [| exact (ParseCurriculum_parts data curriculum H)].
  intros partMap part HP. cbv beta in HP.
  destruct (parsePart_fields _ _ _ HP) as [-> _].
  split; intros E.
  - apply Z.eqb_eq in E. now rewrite E.
  - apply Z.eqb_neq in E. now rewrite E.
Qed.

Lemma C9_credit_normalization_witness :
  exists curriculum,
    ParseCurriculum scenario6 = Ok (curriculum, None)
    /\ Forall2 (fun partMap part =>
                  (parsedCredits partMap = Curriculum.TotalCreditPoints curriculum ->
                   Part.CreditPointsRequired part = 0%Z)
                  /\ (parsedCredits partMap <> Curriculum.TotalCreditPoints curriculum ->
                      Part.CreditPointsRequired part = parsedCredits partMap))
               (partEntries scenario6) (Curriculum.Parts curriculum)
    /\ map parsedCredits (partEntries scenario6) = [48; 24]%Z
    /\ map Part.CreditPointsRequired (Curriculum.Parts curriculum) = [0; 24]%Z.
Proof.
  eexists. split; [reflexivity |].
  split; [apply C9_credit_normalization; reflexivity |].
  split; reflexivity.
Defined.

(** ** Containers *)

Lemma parseContainers_unfold (containerData : JSON) :
  parseContainers containerData = parseContainersBody parseContainers containerData.
Proof. destruct containerData; reflexivity. Qed.

Section AnyParser.
Variable rec : JSON -> Outcome (list Container.t * string).

(** What [parseContainer] returns, from the result [nested] of the call on
    the nested ["container"] value, if there is one. *)
Lemma parseContainer_fields (containerMap : JMap) (container : Container.t)
      (parentConnector : string) :
  parseContainer rec containerMap = Ok (container, parentConnector) ->
  exists nested : option (list Container.t * string),
    match mapIndex "container" containerMap with
    | Some raw => if isNil raw then nested = None
                  else exists r, rec raw = Ok r /\ nested = Some r
    | None => nested = None
    end
    /\ parentConnector = parentConnectorOf containerMap
    /\ Container.CreditPointsRequired container = parsedCredits containerMap
    /\ Container.Containers container
       = match nested with Some (containers, _) => containers | None => [] end
    /\ Container.Connector container
       = let declared :=
           match nested with
           | Some (_, relationship) =>
               if (relationship =? "")%string then "AND" else relationship
           | None => "AND"
           end in
         let byContainer :=
           match Container.Containers container with
           | first :: _ =>
               if (Container.CreditPointsRequired first =? parsedCredits containerMap)%Z
               then "OR" else declared
           | [] => declared
           end in
         match Container.AcademicItems container with
         | first :: _ =>
             if (AcademicItem.CreditPoints first =? parsedCredits containerMap)%Z
             then "OR" else byContainer
         | [] => byContainer
         end.
Proof.
  unfold parseContainer. fold (parsedCredits containerMap).
  intros H.
  apply bind_ok in H. destruct H as [conn [HM H]].
  apply bind_ok in H. destruct H as [pc [HS H]].
  apply bind_ok in H. destruct H as [nested [HN H]].
  injection H as <- <-.
  cbn [Container.CreditPointsRequired Container.Containers Container.Connector
       Container.AcademicItems app].
  exists nested. split; [| split; [| split; [reflexivity | split]]].
  - rewrite withField_mapIndex in HN.
    destruct (mapIndex "container" containerMap) as [raw|];
      [| now injection HN as <-].
    destruct (isNil raw); simpl negb in HN; cbv iota in HN;
      [now injection HN as <- |].
    apply bind_ok in HN. destruct HN as [r [HR HN]]. injection HN as <-. eauto.
  - unfold parentConnectorOf.
    destruct (mapGet "parent_connector" containerMap); try discriminate.
    injection HM as ->. cbn [mapOrZero].
    destruct (mapGet "value" conn); try discriminate.
    now injection HS as ->.
  - destruct nested as [[containers relationship]|]; reflexivity.
  - destruct nested as [[containers relationship]|]; [| reflexivity].
    cbv zeta. now destruct (relationship =? "")%string.
Qed.

Lemma parseContainersLoop_relationship (containerSlice : list JSON) :
  forall containers parentConnector result relationship,
    parseContainersLoop rec containerSlice containers parentConnector
    = Ok (result, relationship) ->
    relationship = lastParentConnector containerSlice parentConnector
    /\ exists parsed, result = containers ++ parsed
                      /\ (parsed = [] -> relationship = parentConnector).
Proof.
  induction containerSlice as [|containerInterface rest IH];
    intros containers parentConnector result relationship H.
  - injection H as <- <-. split; [reflexivity |].
    exists []. split; [now rewrite app_nil_r | reflexivity].
  - cbn [parseContainersLoop] in H.
    destruct containerInterface as [| | | | |containerMap];
      try (destruct (IH _ _ _ _ H) as [E P]; split; [exact E | exact P]).
    apply bind_ok in H. destruct H as [[container pc] [HC H]].
    destruct (parseContainer_fields _ _ _ HC) as [_ [_ [-> _]]].
    destruct (IH _ _ _ _ H) as [E [parsed [-> _]]].
    split; [exact E |].
    exists (container :: parsed). split; [now rewrite <- app_assoc | discriminate].
Qed.

End AnyParser.

Lemma parseContainers_relationship (containerData : JSON)
      (containers : list Container.t) (relationship : string) :
  parseContainers containerData = Ok (containers, relationship) ->
  relationship
  = match containerData with
    | JArray containerSlice => lastParentConnector containerSlice ""
    | _ => ""
    end
  /\ (containers = [] -> relationship = "").
Proof.
  rewrite parseContainers_unfold. unfold parseContainersBody.
  destruct containerData as [| | | |containerSlice|];
    try (intros H; injection H as <- <-; split; reflexivity).
  intros H.
  destruct (parseContainersLoop_relationship _ _ _ _ _ _ H) as [E [parsed [-> P]]].
  split; [exact E |]. cbn [app]. exact P.
Qed.

(** The connector of a container, whatever children it has. *)
Lemma parseContainer_connector (containerMap : JMap) (container : Container.t)
      (parentConnector : string) :
  parseContainer parseContainers containerMap = Ok (container, parentConnector) ->
  Container.Connector container
  = (if firstContainerMatches (Container.CreditPointsRequired container)
                              (Container.Containers container)
        || firstItemMatches (Container.CreditPointsRequired container)
                            (Container.AcademicItems container)
     then "OR"
     else if (declaredConnector containerMap =? "")%string then "AND"
          else declaredConnector containerMap)
  /\ (Container.Containers container = [] -> declaredConnector containerMap = "").
Proof.
  intros H.
  destruct (parseContainer_fields _ _ _ _ H) as [nested [HN [_ [HP [HC HK]]]]].
  rewrite HK, HP. clear HK. cbv zeta.
  assert (D : match nested with
              | Some (containers, relationship) =>
                  relationship = declaredConnector containerMap
                  /\ (containers = [] -> relationship = "")
              | None => declaredConnector containerMap = ""
              end).
  { unfold declaredConnector.
    destruct (mapIndex "container" containerMap) as [raw|]; [| now subst nested].
    destruct raw as [| | | |containerSlice|]; cbn [isNil] in HN;
      try (subst nested; reflexivity);
      destruct HN as [[containers relationship] [HR ->]];
      apply parseContainers_relationship in HR; exact HR. }
  unfold firstContainerMatches, firstItemMatches.
  destruct nested as [[containers relationship]|].
  - destruct D as [<- DE]. rewrite HC in *.
    split; [| exact DE].
    destruct containers as [|first rest];
      destruct (Container.AcademicItems container) as [|item items];
      try destruct (Container.CreditPointsRequired first =? parsedCredits containerMap)%Z;
      try destruct (AcademicItem.CreditPoints item =? parsedCredits containerMap)%Z;
      reflexivity.
  - rewrite D, HC. split; [| reflexivity].
    destruct (Container.AcademicItems container) as [|item items]; [reflexivity |].
    now destruct (AcademicItem.CreditPoints item =? parsedCredits containerMap)%Z.
Qed.

(** C5, as stated, fails for containers: in [declaredOr] the container of
    12 points has a single nested container, of 6 points, and no academic
    item, yet its connector is ["OR"], taken from the parent connector that
    the nested container declares. *)
Lemma C5_counterexample :
  containerSummary (ParseCurriculum declaredOr) = [[("OR", 12%Z, [6%Z], 0%nat)]].
Proof. reflexivity. Qed.

(** C5, amended.
    - The connector of a part is ["OR"] when its first child (its first
      container or, when it has none, its first academic item) carries the
      part's parsed required credit points, and ["AND"] otherwise.
    - The connector of a container, whatever children it has, is ["OR"] when
      its first nested container or its first academic item carries the
      container's required credit points; otherwise it is the parent
      connector declared by the last of its nested raw containers when that
      is not empty, and ["AND"] when it is empty, which is the case of every
      container without nested containers.
    - Scenario 5: the part of 12 points whose first container has 12 points
      gets ["OR"], the part of 24 points whose first container has 12 points
      keeps ["AND"]. *)
Theorem C5_connector_inference :
  (forall (total : Z) (partMap : JMap) (part : Part.t),
      parsePart total partMap = Ok part ->
      Part.Connector part
      = if firstChildMatches (parsedCredits partMap)
                             (Part.Containers part) (Part.AcademicItems part)
        then "OR" else "AND")
  /\ (forall (containerMap : JMap) (container : Container.t) (parentConnector : string),
         parseContainer parseContainers containerMap = Ok (container, parentConnector) ->
         Container.Connector container
         = (if firstContainerMatches (Container.CreditPointsRequired container)
                                     (Container.Containers container)
               || firstItemMatches (Container.CreditPointsRequired container)
                                   (Container.AcademicItems container)
            then "OR"
            else if (declaredConnector containerMap =? "")%string then "AND"
                 else declaredConnector containerMap)
         /\ (Container.Containers container = [] ->
             Container.Connector container
             = if firstItemMatches (Container.CreditPointsRequired container)
                                   (Container.AcademicItems container)
               then "OR" else "AND"))
  /\ (exists curriculum,
         ParseCurriculum scenario5 = Ok (curriculum, None)
         /\ map Part.Connector (Curriculum.Parts curriculum) = ["OR"; "AND"]).
Proof.
  split; [| split].
  - intros total partMap part H.
    exact (proj1 (proj2 (parsePart_fields total partMap part H))).
  - intros containerMap container parentConnector H.
    destruct (parseContainer_connector _ _ _ H) as [K D].
    split; [exact K |].
    intros E. rewrite K, (D E), E. reflexivity.
  - eexists. split; reflexivity.
Qed.

Lemma C5_connector_inference_witness :
  "OR" = (if firstChildMatches (parsedCredits
                                  [("title", JString "Part A");
                                   ("credit_points", JString "12");
                                   ("order", JString "1");
                                   ("container", JArray [rawContainer "Core" "12" "AND" []])])
                               [Container.mk "Core" "" 12 [] [] "AND"] []
          then "OR" else "AND")
  /\ Container.Connector
       (Container.mk "Core" "" 12 [Container.mk "List" "" 6 [] [] "AND"]
                     [AcademicItem.mk "" "" "FIT1045" "" 12 ""] "OR")
     = (if firstContainerMatches 12 [Container.mk "List" "" 6 [] [] "AND"]
           || firstItemMatches 12 [AcademicItem.mk "" "" "FIT1045" "" 12 ""]
        then "OR"
        else if (declaredConnector
                   [("title", JString "Core");
                    ("credit_points", JString "12");
                    ("parent_connector", JObject [("value", JString "AND")]);
                    ("relationship", JArray [rawItem "FIT1045" "12"]);
                    ("container", JArray [rawContainer "List" "6" "AND" []])]
                 =? "")%string
             then "AND"
             else declaredConnector
                    [("title", JString "Core");
                     ("credit_points", JString "12");
                     ("parent_connector", JObject [("value", JString "AND")]);
                     ("relationship", JArray [rawItem "FIT1045" "12"]);
                     ("container", JArray [rawContainer "List" "6" "AND" []])]).
Proof.
  split.
  - exact (proj1 C5_connector_inference 48%Z
             [("title", JString "Part A");
              ("credit_points", JString "12");
              ("order", JString "1");
              ("container", JArray [rawContainer "Core" "12" "AND" []])]
             (Part.mk "Part A" "" 12 [Container.mk "Core" "" 12 [] [] "AND"] [] 1 "OR")
             eq_refl).
  - exact (proj1 (proj1 (proj2 C5_connector_inference)
             [("title", JString "Core");
              ("credit_points", JString "12");
              ("parent_connector", JObject [("value", JString "AND")]);
              ("relationship", JArray [rawItem "FIT1045" "12"]);
              ("container", JArray [rawContainer "List" "6" "AND" []])]
             (Container.mk "Core" "" 12 [Container.mk "List" "" 6 [] [] "AND"]
                           [AcademicItem.mk "" "" "FIT1045" "" 12 ""] "OR")
             "AND" eq_refl)).
Defined.

(** ** Credit points that are not numbers *)

(** C6, as stated, fails: in [nonNumeric] neither the total nor the part's
    required credit points is a number, and [ParseCurriculum] returns a
    curriculum with no error, both values read as 0. *)
Lemma C6_counterexample :
  ParseCurriculum nonNumeric
  = Ok ({| Curriculum.TotalCreditPoints := 0;
           Curriculum.Parts :=
             [{| Part.Title := "Part A";
                 Part.Description := "";
                 Part.CreditPointsRequired := 0;
                 Part.Containers := [];
                 Part.AcademicItems := [];
                 Part.Order := 1;
                 Part.Connector := "AND" |}] |},
        None).
Proof. reflexivity. Qed.

(** C6, amended.  With [structure] the curriculum structure of the document:
    - when its ["credit_points"] is missing or not a string,
      [ParseCurriculum] returns the error
      ["total credit points not found or not a string"];
    - when it is a string and ["container"] is missing or not an array,
      [ParseCurriculum] returns the error
      ["parts container not found or not an array"];
    - when it is a string [s] and ["container"] is an array, no error is
      returned whatever [s] is: the total is [StringToInt s];
    - a string without a digit is read as 0, as the total and as the
      required credit points of a part. *)
Theorem C6_structural_errors :
  forall (data : JMap),
    let structure :=
      GetTypedValue_map data "props.pageProps.pageContent.curriculumStructure" in
    ((forall s, mapGet "credit_points" structure <> JString s) ->
     ParseCurriculum data
     = Ok ({| Curriculum.TotalCreditPoints := 0; Curriculum.Parts := [] |},
           Some "total credit points not found or not a string"))
    /\ (forall s, mapGet "credit_points" structure = JString s ->
                  (forall partsData, mapGet "container" structure <> JArray partsData) ->
                  ParseCurriculum data
                  = Ok ({| Curriculum.TotalCreditPoints := StringToInt s;
                           Curriculum.Parts := [] |},
                        Some "parts container not found or not an array"))
    /\ (forall s partsData curriculum err,
           mapGet "credit_points" structure = JString s ->
           mapGet "container" structure = JArray partsData ->
           ParseCurriculum data = Ok (curriculum, err) ->
           err = None
           /\ Curriculum.TotalCreditPoints curriculum = StringToInt s
           /\ (FindDigits s = "" -> Curriculum.TotalCreditPoints curriculum = 0%Z))
    /\ (forall total partMap part,
           parsePart total partMap = Ok part ->
           FindDigits (stringOrZero (mapGet "credit_points" partMap)) = "" ->
           Part.CreditPointsRequired part = 0%Z).
Proof.
  intros data structure. unfold ParseCurriculum. fold structure.
  split; [| split; [| split]].
  - intros N. destruct (mapGet "credit_points" structure) as [| | |s| |];
      try reflexivity.
    exfalso. exact (N s eq_refl).
  - intros s -> N.
    destruct (mapGet "container" structure) as [| | | |partsData|]; try reflexivity.
    exfalso. exact (N partsData eq_refl).
  - intros s partsData curriculum err -> -> H.
    apply bind_ok in H. destruct H as [parts [_ H]]. injection H as <- <-.
    cbn [Curriculum.TotalCreditPoints].
    split; [reflexivity | split; [reflexivity | apply StringToInt_no_digit]].
  - intros total partMap part H D.
    destruct (parsePart_fields _ _ _ H) as [-> _].
    unfold parsedCredits. rewrite (StringToInt_no_digit _ D).
    now destruct (0 =? total)%Z.
Qed.

Lemma C6_structural_errors_witness :
  ParseCurriculum (page [("credit_points", JNumber "48")])
  = Ok ({| Curriculum.TotalCreditPoints := 0; Curriculum.Parts := [] |},
        Some "total credit points not found or not a string")
  /\ ParseCurriculum (page [("credit_points", JString "n/a")])
     = Ok ({| Curriculum.TotalCreditPoints := StringToInt "n/a";
              Curriculum.Parts := [] |},
           Some "parts container not found or not an array")
  /\ (@None string = None
      /\ 0%Z = StringToInt "forty-eight"
      /\ (FindDigits "forty-eight" = "" -> 0%Z = 0%Z))
  /\ Part.CreditPointsRequired (Part.mk "Part A" "" 0 [] [] 1 "AND") = 0%Z.
Proof.
  split; [| split; [| split]].
  - apply (proj1 (C6_structural_errors (page [("credit_points", JNumber "48")]))).
    intros s. discriminate.
  - apply (proj1 (proj2 (C6_structural_errors (page [("credit_points", JString "n/a")])))
             "n/a" eq_refl).
    intros partsData. discriminate.
  - exact (proj1 (proj2 (proj2 (C6_structural_errors nonNumeric)))
             "forty-eight" [rawPart "Part A" "TBA" []]
             {| Curriculum.TotalCreditPoints := 0;
                Curriculum.Parts :=
                  [Part.mk "Part A" "" 0 [] [] 1 "AND"] |}
             None eq_refl eq_refl eq_refl).
  - exact (proj2 (proj2 (proj2 (C6_structural_errors nonNumeric)))
             48%Z
             [("title", JString "Part A"); ("credit_points", JString "TBA");
              ("order", JString "1")]
             (Part.mk "Part A" "" 0 [] [] 1 "AND") eq_refl eq_refl).
Defined.

(** ** Containers with both kinds of children *)

(** C7 fails on the code: [parseContainers] fills [AcademicItems] from the
    ["relationship"] list and [Containers] from the nested ["container"]
    list independently, so the container of [bothKinds] comes out with one
    nested container and one academic item. *)
Theorem C7_both_populated :
  exists curriculum part container,
    ParseCurriculum bothKinds = Ok (curriculum, None)
    /\ Curriculum.Parts curriculum = [part]
    /\ Part.Containers part = [container]
    /\ length (Container.Containers container) = 1%nat
    /\ length (Container.AcademicItems container) = 1%nat.
Proof.
  do 3 eexists. repeat split; reflexivity.
Qed.

(** * Further properties of the string helpers *)

(** ** Unit numbers *)

Lemma ExtractUnitNumberLoop_digitsOf code number :
  ExtractUnitNumberLoop code number = (number ++ digitsOf code)%string.
Proof.
  revert number. induction code as [| ch rest IH]; intros number; simpl.
  - symmetry. apply string_app_nil_r.
  - destruct (isDigit ch).
    + rewrite IH, string_app_assoc. reflexivity.
    + apply IH.
Qed.

Lemma ExtractUnitNumber_digitsOf code : ExtractUnitNumber code = digitsOf code.
Proof. unfold ExtractUnitNumber. apply ExtractUnitNumberLoop_digitsOf. Qed.

Lemma digitsOf_allDigits s : allDigits (digitsOf s) = true.
Proof.
  induction s as [| c rest IH]; simpl; [reflexivity |].
  destruct (isDigit c) eqn:D; simpl; [rewrite D |]; exact IH.
Qed.

Lemma digitsOf_fixed s : allDigits s = true -> digitsOf s = s.
Proof.
  induction s as [| c rest IH]; simpl; [reflexivity |].
  destruct (isDigit c); simpl; [| discriminate].
  intros H. rewrite IH by exact H. reflexivity.
Qed.

Lemma digitsOf_none s : noDigit s = true -> digitsOf s = "".
Proof.
  induction s as [| c rest IH]; simpl; [reflexivity |].
  destruct (isDigit c); simpl; [discriminate | exact IH].
Qed.

Lemma digitsOf_app a b : digitsOf (a ++ b) = (digitsOf a ++ digitsOf b)%string.
Proof.
  induction a as [| c rest IH]; simpl; [reflexivity |].
  destruct (isDigit c); simpl; rewrite IH; reflexivity.
Qed.

(** X1.  [ExtractUnitNumber] returns digits only, returns a string of
    digits unchanged (so applying it twice is applying it once), and
    works piecewise on a concatenation. *)
Theorem X1_unit_number_digits :
  forall code other,
    allDigits (ExtractUnitNumber code) = true
    /\ (allDigits code = true -> ExtractUnitNumber code = code)
    /\ ExtractUnitNumber (ExtractUnitNumber code) = ExtractUnitNumber code
    /\ ExtractUnitNumber (code ++ other)
       = (ExtractUnitNumber code ++ ExtractUnitNumber other)%string.
Proof.
  intros code other. rewrite !ExtractUnitNumber_digitsOf.
  split; [apply digitsOf_allDigits |].
  split; [apply digitsOf_fixed |].
  split; [apply digitsOf_fixed, digitsOf_allDigits | apply digitsOf_app].
Qed.

Lemma X1_unit_number_digits_witness :
  ExtractUnitNumber "3175" = "3175".
Proof.
  apply (proj1 (proj2 (X1_unit_number_digits "3175" ""))). reflexivity.
Defined.

(** X2.  For a code made of a part without digits followed by digits, and
    then a part without digits, [ExtractUnitNumber] is the digits; a code
    without any digit gives the empty string. *)
Theorem X2_unit_number_of_code :
  forall letters digits suffix,
    noDigit letters = true -> allDigits digits = true -> noDigit suffix = true ->
    ExtractUnitNumber (letters ++ digits ++ suffix) = digits.
Proof.
  intros letters digits suffix L D S.
  rewrite ExtractUnitNumber_digitsOf, !digitsOf_app.
  rewrite (digitsOf_none _ L), (digitsOf_none _ S), (digitsOf_fixed _ D).
  simpl. apply string_app_nil_r.
Qed.

Lemma X2_unit_number_of_code_witness :
  ExtractUnitNumber ("FIT" ++ "3175" ++ "") = "3175".
Proof.
  apply (X2_unit_number_of_code "FIT" "3175" ""); reflexivity.
Defined.

(** ** Numbers read from strings, continued *)

Lemma digitsValue_nonneg s n : (0 <= n -> 0 <= digitsValue s n)%Z.
Proof.
  revert n. induction s as [| c rest IH]; intros n H; simpl; [exact H |].
  apply IH. lia.
Qed.

Lemma digitRun_allDigits s : allDigits (digitRun s) = true.
Proof.
  induction s as [| c rest IH]; simpl; [reflexivity |].
  destruct (isDigit c) eqn:D; simpl; [rewrite D; exact IH | reflexivity].
Qed.

Lemma FindDigits_allDigits s : allDigits (FindDigits s) = true.
Proof.
  induction s as [| c rest IH]; simpl; [reflexivity |].
  destruct (isDigit c) eqn:D; simpl; [rewrite D; apply digitRun_allDigits | exact IH].
Qed.

Lemma isDigit_not_sign c : isDigit c = true -> c <> "-"%char /\ c <> "+"%char.
Proof. intros D. split; intros ->; discriminate D. Qed.

(** [Atoi] on a non-empty string of digits. *)
Lemma Atoi_digits c rest :
  allDigits (String c rest) = true ->
  Atoi (String c rest)
  = (if (2 ^ 63 <=? digitsValue (String c rest) 0)%Z
     then (maxInt, true) else (digitsValue (String c rest) 0, false)).
Proof.
  intros A. pose proof A as A'. simpl in A'. apply andb_prop in A' as [D _].
  destruct (isDigit_not_sign c D) as [M P].
  unfold Atoi.
  assert ((match String c rest with
           | String "-" rest0 => (true, rest0)
           | String "+" rest0 => (false, rest0)
           | _ => (false, String c rest)
           end) = (false, String c rest)) as ->.
  { destruct c as [[] [] [] [] [] [] [] []]; try reflexivity; congruence. }
  rewrite A. reflexivity.
Qed.

Lemma StringToInt_value s :
  StringToInt s
  = match FindDigits s with
    | EmptyString => 0%Z
    | digits => Z.min (digitsValue digits 0) maxInt
    end.
Proof.
  unfold StringToInt. pose proof (FindDigits_allDigits s) as A.
  destruct (FindDigits s) as [| c rest]; [reflexivity |].
  rewrite (Atoi_digits c rest A).
  destruct (Z.leb_spec (2 ^ 63) (digitsValue (String c rest) 0)).
  - unfold maxInt in *. lia.
  - unfold maxInt in *. lia.
Qed.

(** X3.  [StringToInt] never returns a negative number nor one above the
    largest 64-bit integer. *)
Theorem X3_StringToInt_range :
  forall s, (0 <= StringToInt s <= maxInt)%Z.
Proof.
  intros s. rewrite StringToInt_value.
  destruct (FindDigits s) as [| c rest]; [unfold maxInt; lia |].
  pose proof (digitsValue_nonneg (String c rest) 0 ltac:(lia)).
  unfold maxInt in *. lia.
Qed.

Lemma FindDigits_skip before s :
  noDigit before = true -> FindDigits (before ++ s) = FindDigits s.
Proof.
  induction before as [| c rest IH]; simpl; [reflexivity |].
  destruct (isDigit c); simpl; [discriminate | exact IH].
Qed.

Lemma digitRun_app digits after :
  allDigits digits = true -> digitsEnd after = true ->
  digitRun (digits ++ after) = digits.
Proof.
  intros D E. induction digits as [| c rest IH]; simpl.
  - destruct after as [| a after']; [reflexivity |].
    simpl in *. destruct (isDigit a); [discriminate | reflexivity].
  - simpl in D. apply andb_prop in D as [Dc Dr]. rewrite Dc, IH by exact Dr.
    reflexivity.
Qed.

(** X4.  [StringToInt] reads the first run of digits only: what comes
    before it (without digits) and after it (from the first character that
    is not a digit) does not matter, and the value is capped at the largest
    64-bit integer. *)
Theorem X4_StringToInt_first_run :
  forall before digits after,
    noDigit before = true ->
    allDigits digits = true -> digits <> "" ->
    digitsEnd after = true ->
    StringToInt (before ++ digits ++ after) = Z.min (digitsValue digits 0) maxInt.
Proof.
  intros before digits after B D N E.
  rewrite StringToInt_value, (FindDigits_skip _ _ B).
  destruct digits as [| c rest]; [congruence |].
  simpl in D. apply andb_prop in D as [Dc Dr].
  change ((String c rest ++ after)%string) with (String c (rest ++ after)%string).
  cbn [FindDigits]. rewrite Dc, (digitRun_app _ _ Dr E). reflexivity.
Qed.

Lemma X4_StringToInt_first_run_witness :
  StringToInt ("Total of " ++ "48" ++ " credit points (6 units)") = 48%Z.
Proof.
  apply (X4_StringToInt_first_run "Total of " "48" " credit points (6 units)");
    [reflexivity | reflexivity | discriminate | reflexivity].
Defined.

(** ** HTML tags *)

Lemma hasClose_app b c : hasClose (b ++ String ">" c) = true.
Proof.
  induction b as [| x rest IH]; simpl; [reflexivity |].
  rewrite IH. apply orb_true_r.
Qed.

Lemma tagFree_no_tag a b c : tagFree (a ++ String "<" (b ++ String ">" c)) = false.
Proof.
  induction a as [| x rest IH]; simpl.
  - rewrite hasClose_app. reflexivity.
  - rewrite IH. apply andb_false_r.
Qed.

Lemma hasClose_stripTags s inTag :
  hasClose s = false -> hasClose (stripTags s inTag) = false.
Proof.
  revert inTag. induction s as [| c rest IH]; intros inTag H; simpl; [reflexivity |].
  simpl in H. apply orb_false_elim in H as [Hc Hr].
  destruct inTag; [apply IH, Hr |].
  rewrite Hr, andb_false_r. simpl. rewrite Hc. apply IH, Hr.
Qed.

Lemma stripTags_tagFree s inTag : tagFree (stripTags s inTag) = true.
Proof.
  revert inTag. induction s as [| c rest IH]; intros inTag; simpl; [reflexivity |].
  destruct inTag; [apply IH |].
  destruct ((c =? "<")%char) eqn:Lt; simpl.
  - destruct (hasClose rest) eqn:Cl; [apply IH |].
    simpl. rewrite Lt, (hasClose_stripTags _ _ Cl), IH. reflexivity.
  - rewrite Lt, IH. reflexivity.
Qed.

(** X5.  The result of [RemoveHTMLTags] contains no tag: nowhere in it is a
    ["<"] followed, however far, by a [">"]. *)
Theorem X5_no_tag_left :
  forall s a b c,
    RemoveHTMLTags s <> (a ++ String "<" (b ++ String ">" c))%string.
Proof.
  intros s a b c E.
  pose proof (stripTags_tagFree (replaceBr s 0) false) as T.
  unfold RemoveHTMLTags in E. rewrite E, tagFree_no_tag in T. discriminate.
Qed.

Lemma stripTags_fixed s : tagFree s = true -> stripTags s false = s.
Proof.
  induction s as [| c rest IH]; simpl; [reflexivity |].
  intros H. apply andb_prop in H as [Hc Hr].
  rewrite IH by exact Hr.
  destruct ((c =? "<")%char); [| reflexivity].
  destruct (hasClose rest); [discriminate | reflexivity].
Qed.

Lemma brTail_hasClose s n m : brTail s n = Some m -> hasClose s = true.
Proof.
  revert n. induction s as [| c rest IH]; intros n; simpl; [discriminate |].
  destruct (isSpace c).
  - intros H. rewrite (IH _ H). apply orb_true_r.
  - destruct ((c =? "/")%char).
    + destruct rest as [| d rest']; [discriminate |].
      destruct ((d =? ">")%char) eqn:G.
      * intros _. simpl. rewrite G. simpl. apply orb_true_r.
      * intros H. exfalso.
        destruct d as [[] [] [] [] [] [] [] []]; try discriminate H; discriminate G.
    + destruct ((c =? ">")%char); [reflexivity | discriminate].
Qed.

Lemma matchBr_tag c rest n :
  matchBr (String c rest) = Some n -> (c =? "<")%char = true /\ hasClose rest = true.
Proof.
  unfold matchBr.
  destruct ((c =? "<")%char) eqn:Lt.
  - apply Ascii.eqb_eq in Lt. subst c.
    destruct rest as [| b rest]; [discriminate |].
    destruct rest as [| r rest];
      [destruct b as [[] [] [] [] [] [] [] []]; discriminate |].
    intros H. split; [reflexivity |].
    assert (brTail rest 3 = Some n) as T.
    { destruct b as [[] [] [] [] [] [] [] []]; try discriminate H;
        destruct r as [[] [] [] [] [] [] [] []]; try discriminate H; exact H. }
    simpl. rewrite (brTail_hasClose _ _ _ T). rewrite !orb_true_r. reflexivity.
  - intros H. exfalso.
    destruct c as [[] [] [] [] [] [] [] []]; try discriminate H; discriminate Lt.
Qed.

Lemma replaceBr_fixed s : tagFree s = true -> replaceBr s 0 = s.
Proof.
  induction s as [| c rest IH]; [reflexivity |].
  intros H. pose proof H as H'. simpl in H'. apply andb_prop in H' as [Hc Hr].
  cbn [replaceBr].
  destruct (matchBr (String c rest)) as [n |] eqn:M.
  - destruct (matchBr_tag _ _ _ M) as [Lt Cl]. rewrite Lt, Cl in Hc. discriminate.
  - rewrite IH by exact Hr. reflexivity.
Qed.

(** X6.  A text in which no ["<"] is followed by a [">"] (in particular a
    text without ["<"]) is returned unchanged by [RemoveHTMLTags]. *)
Theorem X6_plain_text_unchanged :
  forall s, tagFree s = true -> RemoveHTMLTags s = s.
Proof.
  intros s H. unfold RemoveHTMLTags.
  rewrite (replaceBr_fixed _ H). apply stripTags_fixed, H.
Qed.

Lemma X6_plain_text_unchanged_witness :
  RemoveHTMLTags "marks < 50 fail" = "marks < 50 fail".
Proof.
  apply (X6_plain_text_unchanged "marks < 50 fail"). reflexivity.
Defined.

Lemma replaceBr_length s skip : (String.length (replaceBr s skip) <= String.length s)%nat.
Proof.
  revert skip. induction s as [| c rest IH]; intros skip; [simpl; lia |].
  cbn [replaceBr]. destruct skip as [| k].
  - destruct (matchBr (String c rest)) as [n |]; simpl.
    + specialize (IH (n - 1)%nat). lia.
    + specialize (IH 0%nat). lia.
  - specialize (IH k). simpl. lia.
Qed.

Lemma stripTags_length s inTag : (String.length (stripTags s inTag) <= String.length s)%nat.
Proof.
  revert inTag. induction s as [| c rest IH]; intros inTag; simpl; [lia |].
  destruct inTag.
  - specialize (IH (negb (c =? ">")%char)). lia.
  - destruct ((c =? "<")%char && hasClose rest); simpl.
    + specialize (IH true). lia.
    + specialize (IH false). lia.
Qed.

(** X7.  [RemoveHTMLTags] is idempotent, cleaning a cleaned text changes
    nothing, and it never lengthens its argument. *)
Theorem X7_remove_tags_idempotent :
  forall s,
    RemoveHTMLTags (RemoveHTMLTags s) = RemoveHTMLTags s
    /\ (String.length (RemoveHTMLTags s) <= String.length s)%nat.
Proof.
  intros s. split.
  - unfold RemoveHTMLTags at 1.
    pose proof (stripTags_tagFree (replaceBr s 0) false) as T.
    fold (RemoveHTMLTags s) in T.
    rewrite (replaceBr_fixed _ T). apply stripTags_fixed, T.
  - unfold RemoveHTMLTags.
    pose proof (stripTags_length (replaceBr s 0) false).
    pose proof (replaceBr_length s 0). lia.
Qed.

(** * Further properties of the path navigator *)

Lemma joinPathLoop_dotted keys i path :
  joinPathLoop keys (S i) path
  = (path ++ fold_right (fun key tail => String "." (key ++ tail)) "" keys)%string.
Proof.
  revert i path. induction keys as [| key rest IH]; intros i path; simpl.
  - symmetry. apply string_app_nil_r.
  - rewrite IH, !string_app_assoc. reflexivity.
Qed.

Lemma joinPath_dotted key rest :
  joinPath (key :: rest)
  = (key ++ fold_right (fun key tail => String "." (key ++ tail)) "" rest)%string.
Proof. unfold joinPath. simpl. apply joinPathLoop_dotted. Qed.

(** ** Runes *)

Lemma byteIn_not_dot lo hi c :
  (128 <= lo)%nat -> byteIn lo hi c = true -> (c =? ".")%char = false.
Proof.
  unfold byteIn. intros L H. apply andb_prop in H as [H _]. apply Nat.leb_le in H.
  destruct (Ascii.eqb_spec c ".") as [E | _]; [| reflexivity].
  subst c. change (nat_of_ascii ".") with 46%nat in H. lia.
Qed.

(** The bytes of a rune after its first are not dots. *)
Lemma runeWidth_dotFree c rest more :
  runeWidth (String c rest) = S more -> dotFreePrefix rest more = true.
Proof.
  unfold runeWidth.
  destruct (byteIn 0 127 c); [intros [= <-]; reflexivity |].
  destruct (byteIn 194 223 c).
  { destruct rest as [| c1 r]; [discriminate |].
    destruct (byteIn 128 191 c1) eqn:B1; [| discriminate].
    intros [= <-]. simpl. rewrite (byteIn_not_dot _ _ _ (le_n _) B1). reflexivity. }
  destruct (byteIn 224 239 c).
  { destruct rest as [| c1 [| c2 r]]; try discriminate.
    match goal with
    | |- (if ?b then _ else _) = _ -> _ => destruct b eqn:B; [| discriminate]
    end.
    apply andb_prop in B as [B1 B2]. intros [= <-]. simpl.
    rewrite (byteIn_not_dot _ _ _ (le_n _) B2).
    assert (128 <= (if (nat_of_ascii c =? 224)%nat then 160 else 128))%nat as L
        by (destruct (nat_of_ascii c =? 224)%nat; lia).
    rewrite (byteIn_not_dot _ _ c1 L B1).
    reflexivity. }
  destruct (byteIn 240 244 c); [| discriminate].
  destruct rest as [| c1 [| c2 [| c3 r]]]; try discriminate.
  match goal with
  | |- (if ?b then _ else _) = _ -> _ => destruct b eqn:B; [| discriminate]
  end.
  apply andb_prop in B as [B B3]. apply andb_prop in B as [B1 B2].
  intros [= <-]. simpl.
  rewrite (byteIn_not_dot _ _ _ (le_n _) B2), (byteIn_not_dot _ _ _ (le_n _) B3).
  assert (128 <= (if (nat_of_ascii c =? 240)%nat then 144 else 128))%nat as L
      by (destruct (nat_of_ascii c =? 240)%nat; lia).
  rewrite (byteIn_not_dot _ _ c1 L B1).
  reflexivity.
Qed.

(** A rune is decoded from its own bytes, whatever follows them. *)
Lemma runeWidth_app s t more :
  runeWidth s = S more -> runeWidth (s ++ t) = S more.
Proof.
  destruct s as [| c s]; [discriminate |].
  change (String c s ++ t)%string with (String c (s ++ t)%string).
  unfold runeWidth.
  destruct (byteIn 0 127 c); [auto |].
  destruct (byteIn 194 223 c).
  { destruct s as [| c1 s]; [discriminate | simpl; auto]. }
  destruct (byteIn 224 239 c).
  { destruct s as [| c1 [| c2 s]]; try discriminate. simpl. auto. }
  destruct (byteIn 240 244 c); [| discriminate].
  destruct s as [| c1 [| c2 [| c3 s]]]; try discriminate. simpl. auto.
Qed.

(** ** Splitting a joined path *)

Lemma splitFieldPathLoop_key key : forall rest pending keys current,
  validRunes key pending = true -> hasDot key = false ->
  splitFieldPathLoop (key ++ rest) pending keys current
  = splitFieldPathLoop rest 0 keys (current ++ key).
Proof.
  induction key as [| c key' IH]; intros rest pending keys current V D.
  - simpl in V. apply Nat.eqb_eq in V. subst pending.
    simpl. rewrite string_app_nil_r. reflexivity.
  - simpl in D. apply orb_false_elim in D as [Dc Dk].
    change (String c key' ++ rest)%string with (String c (key' ++ rest)%string).
    destruct pending as [| more]; cbn [validRunes] in V; cbn [splitFieldPathLoop].
    + destruct (runeWidth (String c key')) as [| more] eqn:W; [discriminate |].
      pose proof (runeWidth_app (String c key') rest more W) as W'.
      change (String c key' ++ rest)%string with (String c (key' ++ rest)%string) in W'.
      rewrite W', Dc, (IH _ _ _ _ V Dk), string_app_assoc. reflexivity.
    + rewrite (IH _ _ _ _ V Dk), string_app_assoc. reflexivity.
Qed.

Lemma pathKey_parts key :
  pathKey key = true -> (key =? "")%string = false /\ hasDot key = false.
Proof.
  unfold pathKey. intros H. apply andb_prop in H as [N D].
  split; [apply negb_true_iff, N | apply negb_true_iff, D].
Qed.

Lemma splitFieldPathLoop_dotted rest : forall key acc,
  pathKey key = true -> validUTF8 key = true ->
  forallb pathKey rest = true -> forallb validUTF8 rest = true ->
  splitFieldPathLoop
    (key ++ fold_right (fun key tail => String "." (key ++ tail)) "" rest) 0 acc ""
  = acc ++ key :: rest.
Proof.
  induction rest as [| next rest' IH]; intros key acc K V R VR;
    destruct (pathKey_parts _ K) as [N D];
    rewrite (splitFieldPathLoop_key _ _ _ _ _ V D); simpl.
  - rewrite N. reflexivity.
  - simpl in R, VR. apply andb_prop in R as [K' R']. apply andb_prop in VR as [V' VR'].
    rewrite N. simpl. rewrite (IH next (acc ++ [key]) K' V' R' VR'), <- app_assoc.
    reflexivity.
Qed.

(** X8.  Splitting a joined path gives back its keys, when every key is
    valid UTF-8, not empty and without a dot.  (A byte that encodes no rune
    would come back as U+FFFD.) *)
Theorem X8_split_join :
  forall keys,
    forallb pathKey keys = true -> forallb validUTF8 keys = true ->
    splitFieldPath (joinPath keys) = keys.
Proof.
  intros [| key rest] H V; [reflexivity |].
  simpl in H, V. apply andb_prop in H as [K R]. apply andb_prop in V as [V VR].
  rewrite joinPath_dotted. unfold splitFieldPath.
  apply (splitFieldPathLoop_dotted rest key [] K V R VR).
Qed.

Lemma X8_split_join_witness :
  splitFieldPath (joinPath ["props"; "pageProps"; "pageContent"])
  = ["props"; "pageProps"; "pageContent"].
Proof.
  apply (X8_split_join ["props"; "pageProps"; "pageContent"]); reflexivity.
Defined.

(** ** The keys of any path *)

Lemma hasDot_app a b : hasDot (a ++ b) = hasDot a || hasDot b.
Proof.
  induction a as [| c rest IH]; simpl; [reflexivity |].
  rewrite IH. apply orb_assoc.
Qed.

Lemma splitFieldPathLoop_keys path : forall pending keys current,
  forallb pathKey keys = true -> hasDot current = false ->
  dotFreePrefix path pending = true ->
  forallb pathKey (splitFieldPathLoop path pending keys current) = true.
Proof.
  induction path as [| byte rest IH]; intros pending keys current K C P;
    cbn [splitFieldPathLoop].
  - destruct ((current =? "")%string) eqn:E; simpl; [exact K |].
    rewrite forallb_app, K. simpl. unfold pathKey. rewrite E, C. reflexivity.
  - destruct pending as [| more].
    + destruct (runeWidth (String byte rest)) as [| more] eqn:W.
      * apply IH; [exact K | | reflexivity].
        rewrite hasDot_app, C. reflexivity.
      * pose proof (runeWidth_dotFree _ _ _ W) as F.
        destruct ((byte =? ".")%char) eqn:Dot.
        -- destruct ((current =? "")%string) eqn:E; simpl.
           ++ apply IH; [exact K | exact C | reflexivity].
           ++ apply IH; [| reflexivity | reflexivity].
              rewrite forallb_app, K. simpl. unfold pathKey. rewrite E, C. reflexivity.
        -- apply IH; [exact K | | exact F].
           rewrite hasDot_app, C. simpl. rewrite Dot. reflexivity.
    + cbn [dotFreePrefix] in P. apply andb_prop in P as [Pb Pr].
      apply negb_true_iff in Pb.
      apply IH; [exact K | | exact Pr].
      rewrite hasDot_app, C. simpl. rewrite Pb. reflexivity.
Qed.

(** X9.  Every key [splitFieldPath] returns is non-empty and without a
    dot, whatever the path: leading, trailing and doubled dots give no
    empty key. *)
Theorem X9_split_keys :
  forall path, forallb pathKey (splitFieldPath path) = true.
Proof.
  intros path. apply splitFieldPathLoop_keys; reflexivity.
Qed.






Lemma findInterfaceLoop_missing keys : forall data key,
  mapIndex key data = None -> findInterfaceLoop data (key :: keys) = None.
Proof. intros data key H. simpl. rewrite H. reflexivity. Qed.

(** X11.  When the first key of a path is not a key of the document,
    [findInterface] fails and the typed getters return their zero values:
    an empty map and an empty list of maps.  The same holds for a path
    without any key. *)
Theorem X11_missing_key :
  forall data path,
    match splitFieldPath path with
    | [] => True
    | key :: _ => mapIndex key data = None
    end ->
    findInterface data path = None
    /\ GetTypedValue_map data path = []
    /\ GetTypedValue_maps data path = [].
Proof.
  intros data path H.
  assert (findInterface data path = None) as F.
  { unfold findInterface. destruct (splitFieldPath path) as [| key rest];
      [reflexivity | simpl; rewrite H; reflexivity]. }
  unfold GetTypedValue_map, GetTypedValue_maps. rewrite F. repeat split.
Qed.

Lemma X11_missing_key_witness :
  findInterface [("props", JNull)] "page.title" = None
  /\ GetTypedValue_map [("props", JNull)] "page.title" = []
  /\ GetTypedValue_maps [("props", JNull)] "page.title" = [].
Proof.
  apply (X11_missing_key [("props", JNull)] "page.title"). reflexivity.
Defined.

(** * Further properties of the requisite evaluator *)

(** ** Results without an error *)

Lemma list_all_Forall {A : Type} (P : A -> Prop) (l : list A) :
  list_all A P l -> Forall P l.
Proof. induction 1; constructor; assumption. Qed.

Lemma checked_evaluates met messages : evaluates (Checked met messages).
Proof. exists met, messages. reflexivity. Qed.

Lemma error_not_evaluates err : ~ evaluates (CheckError err).
Proof. intros [met [messages E]]. discriminate. Qed.

Lemma finish_evaluates dflt unmet : evaluates (finish dflt unmet).
Proof. unfold finish. destruct (0 <? length unmet)%nat; apply checked_evaluates. Qed.

(** The results of a list of containers have no error, or a first one. *)
Lemma first_error (rec : CompressedContainer -> CheckResult)
      (subs : list CompressedContainer) :
  Forall (fun sub => evaluates (rec sub)) subs
  \/ exists before sub after err,
       subs = before ++ sub :: after
       /\ Forall (fun s => evaluates (rec s)) before
       /\ rec sub = CheckError err.
Proof.
  induction subs as [| sub rest IH].
  - left. constructor.
  - destruct (rec sub) as [met messages | err] eqn:E.
    + assert (evaluates (rec sub)) as V by (rewrite E; apply checked_evaluates).
      destruct IH as [F | (before & bad & after & err & -> & F & B)].
      * left. constructor; assumption.
      * right. exists (sub :: before), bad, after, err.
        split; [reflexivity |]. split; [constructor; assumption | exact B].
    + right. exists [], sub, rest, err.
      split; [reflexivity |]. split; [constructor | exact E].
Qed.

Lemma flag_contributed (met : bool) (messages unmet : list string) :
  (if negb met then unmet ++ messages else unmet)
  = unmet ++ contributed (Checked met messages).
Proof. destruct met; simpl; [rewrite app_nil_r |]; reflexivity. Qed.

(** ** Several containers at once *)

Lemma checkContainerLoop_ok (rec : CompressedContainer -> CheckResult)
      (containers : list CompressedContainer) :
  Forall (fun c => evaluates (rec c)) containers ->
  forall unmet,
    checkContainerLoop rec containers unmet
    = finish true (unmet ++ flat_map (fun c => contributed (rec c)) containers).
Proof.
  induction 1 as [| c rest [met [messages E]] _ IH]; intros unmet;
    cbn [checkContainerLoop flat_map].
  - rewrite app_nil_r. reflexivity.
  - rewrite E, flag_contributed, IH, <- app_assoc. reflexivity.
Qed.

Lemma checkContainerLoop_error (rec : CompressedContainer -> CheckResult)
      (before after : list CompressedContainer) (c : CompressedContainer) (err : string) :
  Forall (fun s => evaluates (rec s)) before ->
  rec c = CheckError err ->
  forall unmet,
    checkContainerLoop rec (before ++ c :: after) unmet
    = CheckError ("error checking container logic: " ++ err)%string.
Proof.
  induction 1 as [| s rest [met [messages E]] _ IH]; intros B unmet; simpl.
  - rewrite B. reflexivity.
  - rewrite E. apply IH, B.
Qed.

Lemma checkContainer_finish (completedUnits : list Unit) (isProhibition : bool)
      (containers : list CompressedContainer) :
  Forall (fun c => evaluates (checkContainerLogic completedUnits isProhibition c))
         containers ->
  checkContainer completedUnits containers isProhibition
  = finish true (nestedMessages completedUnits isProhibition containers).
Proof.
  intros F. unfold checkContainer, checkContainerBody.
  destruct containers as [| c rest]; [reflexivity |].
  change (length (c :: rest) =? 0)%nat with false. cbv iota.
  rewrite (checkContainerLoop_ok _ _ F).
  pose proof (contributed_nested completedUnits isProhibition (c :: rest)) as N.
  cbv zeta in N. rewrite N. reflexivity.
Qed.

Lemma finish_true_nil (unmet : list string) :
  finish true unmet = Checked true [] <-> unmet = [].
Proof.
  destruct (finish_cases true unmet) as [[N ->] | [N ->]].
  - split; [intros _; exact N | reflexivity].
  - split; [discriminate | intros H; contradiction].
Qed.

(** X12.  When no container of a list gives an error, [checkContainer]
    returns the messages of the containers, each evaluated on its own, in
    order; it is satisfied exactly when every container is. *)
Theorem X12_containers_together :
  forall (completedUnits : list Unit) (isProhibition : bool)
         (containers : list CompressedContainer),
    Forall (fun c => evaluates (checkContainerLogic completedUnits isProhibition c))
           containers ->
    checkContainer completedUnits containers isProhibition
    = finish true (nestedMessages completedUnits isProhibition containers)
    /\ (checkContainer completedUnits containers isProhibition = Checked true []
        <-> forall c, In c containers -> satisfiedBy completedUnits isProhibition c).
Proof.
  intros completedUnits isProhibition containers F.
  pose proof (checkContainer_finish _ _ _ F) as E.
  split; [exact E |].
  rewrite E, finish_true_nil.
  pose proof (nestedMessages_nil completedUnits isProhibition containers) as N.
  cbv zeta in N. apply N, F.
Qed.

Lemma X12_containers_together_witness :
  checkContainer [done "FIT1045"]
    [containerOf "AND" ["FIT1045"; "FIT1008"] []; containerOf "OR" ["FIT2004"] []] false
  = Checked false ["Requires: FIT1008"; "Requires one of: FIT2004"].
Proof.
  apply (X12_containers_together [done "FIT1045"] false
           [containerOf "AND" ["FIT1045"; "FIT1008"] []; containerOf "OR" ["FIT2004"] []]).
  repeat constructor; do 2 eexists; reflexivity.
Defined.

Lemma unknown_relationship (completedUnits : list Unit) (isProhibition : bool)
      (c : CompressedContainer) :
  Relationship c <> "AND" -> Relationship c <> "OR" ->
  checkContainerLogic completedUnits isProhibition c
  = CheckError ("unknown relationship type: " ++ Relationship c)%string.
Proof.
  intros A O. rewrite checkContainerLogic_unfold. unfold checkContainerLogicBody.
  destruct (String.eqb_spec (Relationship c) "AND") as [E | _]; [contradiction |].
  destruct (String.eqb_spec (Relationship c) "OR") as [E | _]; [contradiction |].
  reflexivity.
Qed.

Lemma checkContainer_error (completedUnits : list Unit) (isProhibition : bool)
      (before after : list CompressedContainer) (c : CompressedContainer) (err : string) :
  Forall (fun s => evaluates (checkContainerLogic completedUnits isProhibition s)) before ->
  checkContainerLogic completedUnits isProhibition c = CheckError err ->
  checkContainer completedUnits (before ++ c :: after) isProhibition
  = CheckError ("error checking container logic: " ++ err)%string.
Proof.
  intros F B. unfold checkContainer, checkContainerBody.
  assert ((length (before ++ c :: after) =? 0)%nat = false) as ->.
  { rewrite length_app. simpl. apply Nat.eqb_neq. lia. }
  apply checkContainerLoop_error; assumption.
Qed.

(** X13.  The first container of a list that gives an error decides the
    result of [checkContainer]: the error is returned, wrapped, whatever
    comes after it and whatever messages the containers before it gave.  A
    relationship other than ["AND"] and ["OR"] is such an error. *)
Theorem X13_first_error_returned :
  forall (completedUnits : list Unit) (isProhibition : bool)
         (before after : list CompressedContainer) (c : CompressedContainer),
    Forall (fun s => evaluates (checkContainerLogic completedUnits isProhibition s))
           before ->
    (forall err,
        checkContainerLogic completedUnits isProhibition c = CheckError err ->
        checkContainer completedUnits (before ++ c :: after) isProhibition
        = CheckError ("error checking container logic: " ++ err)%string)
    /\ (Relationship c <> "AND" -> Relationship c <> "OR" ->
        checkContainer completedUnits (before ++ c :: after) isProhibition
        = CheckError ("error checking container logic: unknown relationship type: "
                      ++ Relationship c)%string).
Proof.
  intros completedUnits isProhibition before after c F. split.
  - intros err B. apply checkContainer_error; assumption.
  - intros A O.
    apply (checkContainer_error _ _ _ _ _ _ F (unknown_relationship _ _ _ A O)).
Qed.

Lemma X13_first_error_returned_witness :
  checkContainer [] [containerOf "OR" ["FIT2004"] []; containerOf "NOT" [] [];
                     containerOf "AND" [] []] false
  = CheckError "error checking container logic: unknown relationship type: NOT".
Proof.
  apply (X13_first_error_returned [] false [containerOf "OR" ["FIT2004"] []]
           [containerOf "AND" [] []] (containerOf "NOT" [] []));
    [repeat constructor; do 2 eexists; reflexivity | discriminate | discriminate].
Defined.

(** ** Several requisites at once *)

Lemma requisiteResult_consistent (completedUnits : list Unit)
      (requisite : CompressedRequisite) (r : CheckResult) :
  requisiteResult completedUnits requisite = Some r -> consistent r.
Proof.
  unfold requisiteResult, checkContainer.
  destruct (RequisiteType requisite =? "Prerequisite")%string.
  - intros H. injection H as <-. apply checkContainerBody_consistent.
  - destruct (RequisiteType requisite =? "Prohibition")%string; [| discriminate].
    intros H. injection H as <-. apply checkContainerBody_consistent.
Qed.

Lemma checkRequisitesLoop_step (completedUnits : list Unit)
      (requisite : CompressedRequisite) (rest : list CompressedRequisite)
      (unmet : list string) :
  checkRequisitesLoop completedUnits (requisite :: rest) unmet
  = match requisiteResult completedUnits requisite with
    | None => checkRequisitesLoop completedUnits rest unmet
    | Some (CheckError err) =>
        CheckError ((if (RequisiteType requisite =? "Prerequisite")%string
                     then "error checking prerequisite container: "
                     else "error checking prohibition container: ") ++ err)%string
    | Some (Checked met messages) =>
        checkRequisitesLoop completedUnits rest
          (if negb met then unmet ++ messages else unmet)
    end.
Proof.
  unfold requisiteResult. cbn [checkRequisitesLoop].
  destruct (RequisiteType requisite =? "Prerequisite")%string.
  - destruct (checkContainer completedUnits (ReqContainers requisite) false); reflexivity.
  - destruct (RequisiteType requisite =? "Prohibition")%string; [| reflexivity].
    destruct (checkContainer completedUnits (ReqContainers requisite) true); reflexivity.
Qed.

Lemma checkRequisitesLoop_ok (completedUnits : list Unit)
      (requisites : list CompressedRequisite) :
  Forall (requisiteEvaluates completedUnits) requisites ->
  forall unmet,
    checkRequisitesLoop completedUnits requisites unmet
    = finish true (unmet ++ flat_map (requisiteMessages completedUnits) requisites).
Proof.
  induction 1 as [| requisite rest V _ IH]; intros unmet.
  - simpl. rewrite app_nil_r. reflexivity.
  - rewrite checkRequisitesLoop_step. cbn [flat_map].
    unfold requisiteMessages at 1. unfold requisiteEvaluates in V.
    pose proof (requisiteResult_consistent completedUnits requisite) as K.
    destruct (requisiteResult completedUnits requisite) as [[met messages | err] |].
    + rewrite flag_contributed, IH, <- app_assoc.
      rewrite (contributed_messages _ (K _ eq_refl)). reflexivity.
    + destruct (error_not_evaluates _ V).
    + apply IH.
Qed.

Lemma checkRequisitesLoop_error (completedUnits : list Unit)
      (before after : list CompressedRequisite) (requisite : CompressedRequisite)
      (err : string) :
  Forall (requisiteEvaluates completedUnits) before ->
  requisiteResult completedUnits requisite = Some (CheckError err) ->
  forall unmet,
    checkRequisitesLoop completedUnits (before ++ requisite :: after) unmet
    = CheckError ((if (RequisiteType requisite =? "Prerequisite")%string
                   then "error checking prerequisite container: "
                   else "error checking prohibition container: ") ++ err)%string.
Proof.
  induction 1 as [| r rest V _ IH]; intros B unmet.
  - cbn [app]. rewrite checkRequisitesLoop_step, B. reflexivity.
  - cbn [app]. rewrite checkRequisitesLoop_step. unfold requisiteEvaluates in V.
    destruct (requisiteResult completedUnits r) as [[met messages | e] |].
    + apply IH, B.
    + destruct (error_not_evaluates _ V).
    + apply IH, B.
Qed.

Lemma requisiteMessages_nil (completedUnits : list Unit)
      (requisite : CompressedRequisite) :
  requisiteEvaluates completedUnits requisite ->
  (requisiteMessages completedUnits requisite = []
   <-> requisiteSatisfied completedUnits requisite).
Proof.
  unfold requisiteEvaluates, requisiteMessages, requisiteSatisfied.
  pose proof (requisiteResult_consistent completedUnits requisite) as K.
  destruct (requisiteResult completedUnits requisite) as [r |]; [| tauto].
  intros [met [messages ->]]. specialize (K _ eq_refl). cbn [resultMessages].
  destruct (consistent_cases _ met messages K eq_refl) as [[-> ->] | [-> N]].
  - tauto.
  - split; [contradiction | discriminate].
Qed.

(** X14.  When no requisite gives an error, [CheckRequisites] returns the
    messages of the requisites in order, a requisite of another type than
    prerequisite and prohibition giving none; all requisites are met
    exactly when each one is. *)
Theorem X14_requisites_together :
  forall (completedUnits : list Unit) (requisites : list CompressedRequisite),
    Forall (requisiteEvaluates completedUnits) requisites ->
    CheckRequisites completedUnits requisites
    = finish true (flat_map (requisiteMessages completedUnits) requisites)
    /\ (CheckRequisites completedUnits requisites = Checked true []
        <-> Forall (requisiteSatisfied completedUnits) requisites).
Proof.
  intros completedUnits requisites F.
  assert (CheckRequisites completedUnits requisites
          = finish true (flat_map (requisiteMessages completedUnits) requisites)) as E.
  { unfold CheckRequisites. destruct requisites as [| r rest]; [reflexivity |].
    change (length (r :: rest) =? 0)%nat with false. cbv iota.
    apply (checkRequisitesLoop_ok _ _ F []). }
  split; [exact E |]. rewrite E, finish_true_nil. clear E.
  induction F as [| r rest V _ IH]; simpl.
  - split; [constructor | reflexivity].
  - split.
    + intros H. apply app_eq_nil in H as [H1 H2]. constructor.
      * apply (requisiteMessages_nil _ _ V), H1.
      * apply IH, H2.
    + intros H. inversion H as [| ? ? S1 S2]; subst.
      rewrite (proj2 (requisiteMessages_nil _ _ V) S1). apply IH, S2.
Qed.

Lemma X14_requisites_together_witness :
  CheckRequisites [done "FIT1045"; done "FIT1008"]
    [prerequisite [containerOf "AND" ["FIT1045"; "FIT2004"] []];
     prohibition [containerOf "OR" ["FIT1008"] []]]
  = Checked false ["Requires: FIT2004"; "Prohibited by one of: FIT1008"].
Proof.
  apply (X14_requisites_together [done "FIT1045"; done "FIT1008"]
           [prerequisite [containerOf "AND" ["FIT1045"; "FIT2004"] []];
            prohibition [containerOf "OR" ["FIT1008"] []]]).
  repeat constructor; do 2 eexists; reflexivity.
Defined.

Lemma checkRequisitesLoop_known (completedUnits : list Unit)
      (requisites : list CompressedRequisite) :
  forall unmet,
    checkRequisitesLoop completedUnits requisites unmet
    = checkRequisitesLoop completedUnits (filter knownType requisites) unmet.
Proof.
  induction requisites as [| r rest IH]; intros unmet; [reflexivity |].
  cbn [filter]. unfold knownType at 1.
  destruct (RequisiteType r =? "Prerequisite")%string eqn:P.
  - cbn [orb checkRequisitesLoop]. rewrite P.
    destruct (checkContainer completedUnits (ReqContainers r) false); [apply IH | reflexivity].
  - destruct (RequisiteType r =? "Prohibition")%string eqn:Q.
    + cbn [orb checkRequisitesLoop]. rewrite P, Q.
      destruct (checkContainer completedUnits (ReqContainers r) true);
        [apply IH | reflexivity].
    + cbn [orb checkRequisitesLoop]. rewrite P, Q. apply IH.
Qed.

(** X15.  Requisites whose type is neither ["Prerequisite"] nor
    ["Prohibition"] (a corequisite, say) play no part in the result of
    [CheckRequisites], whatever their containers hold. *)
Theorem X15_other_types_ignored :
  forall (completedUnits : list Unit) (requisites : list CompressedRequisite),
    CheckRequisites completedUnits requisites
    = CheckRequisites completedUnits (filter knownType requisites).
Proof.
  intros completedUnits requisites. unfold CheckRequisites.
  destruct requisites as [| r rest]; [reflexivity |].
  change (length (r :: rest) =? 0)%nat with false. cbv iota.
  rewrite checkRequisitesLoop_known.
  destruct (filter knownType (r :: rest)); reflexivity.
Qed.

(** X16.  The first requisite that gives an error decides the result of
    [CheckRequisites]: the error is returned with a heading that names the
    kind of the requisite, and the messages gathered so far are dropped. *)
Theorem X16_requisite_error_returned :
  forall (completedUnits : list Unit) (before after : list CompressedRequisite)
         (requisite : CompressedRequisite) (err : string),
    Forall (requisiteEvaluates completedUnits) before ->
    requisiteResult completedUnits requisite = Some (CheckError err) ->
    CheckRequisites completedUnits (before ++ requisite :: after)
    = CheckError ((if (RequisiteType requisite =? "Prerequisite")%string
                   then "error checking prerequisite container: "
                   else "error checking prohibition container: ") ++ err)%string.
Proof.
  intros completedUnits before after requisite err F B. unfold CheckRequisites.
  assert ((length (before ++ requisite :: after) =? 0)%nat = false) as ->.
  { rewrite length_app. simpl. apply Nat.eqb_neq. lia. }
  apply checkRequisitesLoop_error; assumption.
Qed.

Lemma X16_requisite_error_returned_witness :
  CheckRequisites []
    [prerequisite [containerOf "AND" ["FIT1045"] []];
     prohibition [containerOf "XOR" ["FIT1008"] []];
     prerequisite []]
  = CheckError
      "error checking prohibition container: error checking container logic: unknown relationship type: XOR".
Proof.
  apply (X16_requisite_error_returned []
           [prerequisite [containerOf "AND" ["FIT1045"] []]] [prerequisite []]
           (prohibition [containerOf "XOR" ["FIT1008"] []])
           "error checking container logic: unknown relationship type: XOR");
    [repeat constructor; do 2 eexists; reflexivity | reflexivity].
Defined.

(** ** OR containers, both modes in full *)

Section OrInFull.
Variable completedUnits : list Unit.
Variable isProhibition : bool.
Let rec := checkContainerLogic completedUnits isProhibition.

(** A nested container evaluated through [checkContainer] on a one-element
    slice returns what it returns on its own. *)
Lemma single_result (sub : CompressedContainer) :
  evaluates (rec sub) ->
  checkContainerBody rec [sub] = Checked (isMet (rec sub)) (resultMessages (rec sub)).
Proof.
  intros [met [messages E]]. rewrite checkContainerBody_single, E.
  pose proof (checkContainerLogic_consistent completedUnits isProhibition sub) as K.
  destruct (consistent_cases _ met messages K E) as [[-> ->] | [-> N]].
  - reflexivity.
  - destruct messages; [contradiction | reflexivity].
Qed.

Lemma single_evaluates (sub : CompressedContainer) (met : bool) (messages : list string) :
  checkContainerBody rec [sub] = Checked met messages -> evaluates (rec sub).
Proof.
  intros H. destruct (rec sub) as [m ms | err] eqn:E; [apply checked_evaluates |].
  rewrite (single_error rec sub err E) in H. discriminate.
Qed.

Lemma orProhibitSubLoop_ok (subs : list CompressedContainer) :
  Forall (fun sub => evaluates (rec sub)) subs ->
  forall mentionedUnits,
    orProhibitSubLoop rec subs mentionedUnits
    = Continue (mentionedUnits
                ++ subContainerMarks completedUnits isProhibition subs).
Proof.
  unfold subContainerMarks. fold rec.
  induction 1 as [| sub rest V _ IH]; intros mentionedUnits;
    cbn [orProhibitSubLoop flat_map].
  - rewrite app_nil_r. reflexivity.
  - rewrite (single_result sub V), IH.
    destruct (isMet (rec sub)); [rewrite <- app_assoc |]; reflexivity.
Qed.

Lemma orProhibitSubLoop_error (before after : list CompressedContainer)
      (sub : CompressedContainer) (err : string) :
  Forall (fun s => evaluates (rec s)) before ->
  rec sub = CheckError err ->
  forall mentionedUnits,
    exists text,
      orProhibitSubLoop rec (before ++ sub :: after) mentionedUnits
      = Return (CheckError text).
Proof.
  induction 1 as [| s rest V _ IH]; intros B mentionedUnits;
    cbn [app orProhibitSubLoop].
  - rewrite (single_error rec sub err B). eexists. reflexivity.
  - rewrite (single_result s V). apply IH, B.
Qed.

Lemma orRequireSubLoop_found (subs : list CompressedContainer) (messages : list string) :
  orRequireSubLoop rec subs = Return (Checked true messages) ->
  exists before sub after,
    subs = before ++ sub :: after
    /\ Forall (fun s => evaluates (rec s)) before
    /\ satisfiedBy completedUnits isProhibition sub.
Proof.
  induction subs as [| s rest IH]; cbn [orRequireSubLoop]; [discriminate |].
  destruct (checkContainerBody rec [s]) as [met ms | err] eqn:E; [| discriminate].
  destruct met.
  - intros _. exists [], s, rest.
    split; [reflexivity |]. split; [constructor |].
    apply (single_true_satisfied completedUnits isProhibition s ms E).
  - intros H. destruct (IH H) as (before & sub & after & -> & F & S).
    exists (s :: before), sub, after.
    split; [reflexivity |]. split; [| exact S].
    constructor; [apply (single_evaluates s false ms E) | exact F].
Qed.

Lemma orRequireSubLoop_total (subs : list CompressedContainer) :
  Forall (fun s => evaluates (rec s)) subs ->
  orRequireSubLoop rec subs = Continue tt
  \/ orRequireSubLoop rec subs = Return (Checked true []).
Proof.
  induction 1 as [| s rest V _ IH]; cbn [orRequireSubLoop]; [left; reflexivity |].
  rewrite (single_result s V). destruct (isMet (rec s)); [right; reflexivity | exact IH].
Qed.

Lemma orTail_evaluates (container : CompressedContainer) (mentionedUnits : list string) :
  evaluates (orTail rec isProhibition container mentionedUnits).
Proof. unfold orTail. apply finish_evaluates. Qed.

End OrInFull.

Lemma or_prohibition_result (completedUnits : list Unit) (container : CompressedContainer) :
  Relationship container = "OR" ->
  Forall (fun sub => evaluates (checkContainerLogic completedUnits true sub))
         (Containers container) ->
  checkContainerLogic completedUnits true container
  = finish true
      (oneMessage "Prohibited by one of: " " or "
                  (completedCodes completedUnits (Units container)
                   ++ subContainerMarks completedUnits true (Containers container))
       ++ nestedMessages completedUnits true (Containers container)).
Proof.
  intros R F. rewrite (checkContainerLogic_or _ _ _ R). unfold checkOrLogicBody.
  destruct ((length (Units container) =? 0) && (length (Containers container) =? 0))%nat
    eqn:Empty.
  - apply andb_true_iff in Empty. destruct Empty as [EU EC].
    apply Nat.eqb_eq, length_zero_iff_nil in EU.
    apply Nat.eqb_eq, length_zero_iff_nil in EC.
    rewrite EU, EC. reflexivity.
  - cbn [negb]. cbv iota.
    rewrite (orProhibitSubLoop_ok completedUnits true _ F), mentioned_true.
    unfold orTail. cbn [negb]. cbv iota.
    rewrite orCollectLoop_flat.
    pose proof (collected_nested completedUnits true (Containers container) F) as N.
    cbv zeta in N. rewrite N.
    rewrite (message_if_any "Prohibited by one of: " " or " _ []). reflexivity.
Qed.

Lemma or_prohibition_satisfied (completedUnits : list Unit)
      (container : CompressedContainer) :
  Relationship container = "OR" ->
  (satisfiedBy completedUnits true container
   <-> Containers container = []
       /\ forall unit, In unit (Units container) -> ~ completedIn completedUnits unit).
Proof.
  intros R. unfold satisfiedBy.
  destruct (first_error (checkContainerLogic completedUnits true) (Containers container))
    as [F | (before & bad & after & err & D & F & B)].
  - rewrite (or_prohibition_result _ _ R F), finish_true_nil.
    rewrite <- completedCodes_nil. split.
    + intros H. apply app_eq_nil in H as [H1 H2].
      apply oneMessage_nil in H1. apply app_eq_nil in H1 as [H1 H3].
      split; [| exact H1].
      destruct (Containers container) as [| sub rest]; [reflexivity | exfalso].
      inversion F as [| ? ? V _]; subst.
      unfold subContainerMarks in H3. cbn [flat_map] in H3.
      unfold nestedMessages in H2. cbn [flat_map] in H2.
      destruct V as [met [messages E]]. rewrite E in H2, H3.
      cbn [isMet resultMessages] in H2, H3.
      pose proof (checkContainerLogic_consistent completedUnits true sub) as K.
      destruct (consistent_cases _ met messages K E) as [[-> ->] | [-> N]].
      * discriminate H3.
      * apply app_eq_nil in H2 as [H2 _]. contradiction.
    + intros [-> H]. rewrite H. reflexivity.
  - split.
    + intros H. exfalso. rewrite (checkContainerLogic_or _ _ _ R) in H.
      unfold checkOrLogicBody in H.
      rewrite not_both_empty in H
        by (right; rewrite D; destruct before; discriminate).
      cbn [negb] in H. cbv iota in H. rewrite D in H.
      destruct (orProhibitSubLoop_error completedUnits true before after bad err F B
                  (mentioned completedUnits true (Units container))) as [text T].
      rewrite T in H. discriminate.
    + intros [N _]. rewrite N in D. destruct before; discriminate.
Qed.

(** X17.  An OR container in prohibition mode is not violated exactly when
    it has no nested container and none of its units is completed.  When
    its nested containers give no error, its messages are one
    ["Prohibited by one of: "] line that lists the completed units and the
    word ["sub-container"] for each nested container that is not violated,
    followed by the messages of the nested containers. *)
Theorem X17_or_prohibition :
  forall (completedUnits : list Unit) (container : CompressedContainer),
    Relationship container = "OR" ->
    (satisfiedBy completedUnits true container
     <-> Containers container = []
         /\ forall unit, In unit (Units container) -> ~ completedIn completedUnits unit)
    /\ (Forall (fun sub => evaluates (checkContainerLogic completedUnits true sub))
               (Containers container) ->
        checkContainerLogic completedUnits true container
        = finish true
            (oneMessage "Prohibited by one of: " " or "
                        (completedCodes completedUnits (Units container)
                         ++ subContainerMarks completedUnits true (Containers container))
             ++ nestedMessages completedUnits true (Containers container))).
Proof.
  intros completedUnits container R. split.
  - apply or_prohibition_satisfied, R.
  - apply or_prohibition_result, R.
Qed.

Lemma X17_or_prohibition_witness :
  checkContainerLogic [done "FIT1008"] true
    (containerOf "OR" ["FIT1008"; "FIT2085"]
       [containerOf "AND" ["FIT1045"] []; containerOf "AND" ["FIT1008"] []])
  = Checked false ["Prohibited by one of: FIT1008 or sub-container";
                   "Prohibited by: FIT1008"].
Proof.
  apply (X17_or_prohibition [done "FIT1008"]
           (containerOf "OR" ["FIT1008"; "FIT2085"]
              [containerOf "AND" ["FIT1045"] []; containerOf "AND" ["FIT1008"] []]));
    [reflexivity | repeat constructor; do 2 eexists; reflexivity].
Defined.

Lemma or_prerequisite_satisfied (completedUnits : list Unit)
      (container : CompressedContainer) :
  Relationship container = "OR" ->
  (satisfiedBy completedUnits false container
   <-> (Units container = [] /\ Containers container = [])
       \/ (exists unit, In unit (Units container) /\ completedIn completedUnits unit)
       \/ (exists before sub after,
              Containers container = before ++ sub :: after
              /\ Forall (fun s => evaluates (checkContainerLogic completedUnits false s))
                        before
              /\ satisfiedBy completedUnits false sub)).
Proof.
  intros R. unfold satisfiedBy at 1.
  rewrite (checkContainerLogic_or _ _ _ R). unfold checkOrLogicBody.
  destruct ((length (Units container) =? 0) && (length (Containers container) =? 0))%nat
    eqn:Empty.
  - apply andb_true_iff in Empty. destruct Empty as [EU EC].
    apply Nat.eqb_eq, length_zero_iff_nil in EU.
    apply Nat.eqb_eq, length_zero_iff_nil in EC.
    split; [intros _; left; split; assumption | reflexivity].
  - cbn [negb]. cbv iota.
    assert (~ (Units container = [] /\ Containers container = [])) as NE.
    { intros [EU EC]. rewrite EU, EC in Empty. discriminate. }
    destruct (existsb (fun unit => isUnitCompleted unit completedUnits) (Units container))
      eqn:X.
    + split; [intros _ | reflexivity]. right. left.
      apply existsb_exists in X as [unit [I C]]. exists unit.
      split; [exact I | apply isUnitCompleted_In, C].
    + pose proof (proj1 (existsb_completed_false _ _) X) as NC.
      destruct (orRequireSubLoop (checkContainerLogic completedUnits false)
                                 (Containers container)) as [[] | r] eqn:L.
      * split.
        -- unfold orTail. intros H. exfalso.
           destruct (finish_cases false
                       (orCollectLoop (checkContainerLogic completedUnits false)
                          (Containers container)
                          (if negb false
                           then if (0 <? length (mentioned completedUnits false
                                                           (Units container)))%nat
                                then [] ++ [render "Requires one of: " " or "
                                              (mentioned completedUnits false
                                                         (Units container))]
                                else []
                           else if (0 <? length (mentioned completedUnits false
                                                           (Units container)))%nat
                                then [] ++ [render "Prohibited by one of: " " or "
                                              (mentioned completedUnits false
                                                         (Units container))]
                                else [])))
             as [[_ E] | [_ E]]; rewrite E in H; discriminate.
        -- intros [E | [[unit [I C]] | (before & sub & after & D & F & S)]].
           ++ contradiction.
           ++ destruct (NC unit I C).
           ++ exfalso. rewrite D in L.
              rewrite (orRequireSubLoop_hit completedUnits false before after sub F S) in L.
              discriminate.
      * split.
        -- intros ->. right. right.
           apply (orRequireSubLoop_found completedUnits false _ _ L).
        -- intros [E | [[unit [I C]] | (before & sub & after & D & F & S)]].
           ++ contradiction.
           ++ destruct (NC unit I C).
           ++ rewrite D in L.
              rewrite (orRequireSubLoop_hit completedUnits false before after sub F S) in L.
              injection L as <-. reflexivity.
Qed.

(** X18.  An OR container in prerequisite mode is satisfied exactly when it
    is empty, or one of its units is completed, or one of its nested
    containers is satisfied and those before it gave no error. *)
Theorem X18_or_prerequisite_exactly :
  forall (completedUnits : list Unit) (container : CompressedContainer),
    Relationship container = "OR" ->
    (satisfiedBy completedUnits false container
     <-> (Units container = [] /\ Containers container = [])
         \/ (exists unit, In unit (Units container) /\ completedIn completedUnits unit)
         \/ (exists before sub after,
                Containers container = before ++ sub :: after
                /\ Forall (fun s => evaluates (checkContainerLogic completedUnits false s))
                          before
                /\ satisfiedBy completedUnits false sub)).
Proof.
  intros completedUnits container R. apply or_prerequisite_satisfied, R.
Qed.

Lemma X18_or_prerequisite_exactly_witness :
  satisfiedBy [done "FIT1045"] false
    (containerOf "OR" ["FIT1006"]
       [containerOf "AND" ["FIT1008"] []; containerOf "AND" ["FIT1045"] []]).
Proof.
  apply (X18_or_prerequisite_exactly [done "FIT1045"]
           (containerOf "OR" ["FIT1006"]
              [containerOf "AND" ["FIT1008"] []; containerOf "AND" ["FIT1045"] []])
           eq_refl).
  right. right.
  exists [containerOf "AND" ["FIT1008"] []], (containerOf "AND" ["FIT1045"] []), [].
  split; [reflexivity |].
  split; [repeat constructor; do 2 eexists; reflexivity | reflexivity].
Defined.

Lemma or_prerequisite_evaluates (completedUnits : list Unit)
      (container : CompressedContainer) :
  Relationship container = "OR" ->
  (evaluates (checkContainerLogic completedUnits false container)
   <-> satisfiedBy completedUnits false container
       \/ Forall (fun s => evaluates (checkContainerLogic completedUnits false s))
                 (Containers container)).
Proof.
  intros R. split.
  - intros V. unfold satisfiedBy.
    rewrite (checkContainerLogic_or _ _ _ R) in *. unfold checkOrLogicBody in *.
    destruct ((length (Units container) =? 0) && (length (Containers container) =? 0))%nat;
      [left; reflexivity |].
    cbn [negb] in *. cbv iota in *.
    destruct (existsb (fun unit => isUnitCompleted unit completedUnits) (Units container));
      [left; reflexivity |].
    destruct (orRequireSubLoop (checkContainerLogic completedUnits false)
                               (Containers container)) as [[] | r] eqn:L.
    + right. apply orRequireSubLoop_continue in L.
      apply Forall_forall. intros s I.
      destruct (proj1 (Forall_forall _ _) L s I) as [messages [E _]].
      apply (single_evaluates completedUnits false s false messages E).
    + destruct (orRequireSubLoop_return completedUnits false _ _ L) as [[err ->] | [-> _]].
      * destruct (error_not_evaluates _ V).
      * left. reflexivity.
  - intros [S | F]; [rewrite S; apply checked_evaluates |].
    rewrite (checkContainerLogic_or _ _ _ R). unfold checkOrLogicBody.
    destruct ((length (Units container) =? 0) && (length (Containers container) =? 0))%nat;
      [apply checked_evaluates |].
    cbn [negb]. cbv iota.
    destruct (existsb (fun unit => isUnitCompleted unit completedUnits) (Units container));
      [apply checked_evaluates |].
    destruct (orRequireSubLoop_total completedUnits false _ F) as [-> | ->].
    + apply orTail_evaluates.
    + apply checked_evaluates.
Qed.

Lemma or_prohibition_evaluates (completedUnits : list Unit)
      (container : CompressedContainer) :
  Relationship container = "OR" ->
  evaluates (checkContainerLogic completedUnits true container) ->
  Forall (fun s => evaluates (checkContainerLogic completedUnits true s))
         (Containers container).
Proof.
  intros R V.
  destruct (first_error (checkContainerLogic completedUnits true) (Containers container))
    as [F | (before & bad & after & err & D & F & B)]; [exact F | exfalso].
  rewrite (checkContainerLogic_or _ _ _ R) in V. unfold checkOrLogicBody in V.
  rewrite not_both_empty in V
    by (right; rewrite D; destruct before; discriminate).
  cbn [negb] in V. cbv iota in V. rewrite D in V.
  destruct (orProhibitSubLoop_error completedUnits true before after bad err F B
              (mentioned completedUnits true (Units container))) as [text T].
  rewrite T in V. destruct (error_not_evaluates _ V).
Qed.

(** ** Containers of a list, without assumption *)

Lemma checkContainer_satisfied (completedUnits : list Unit) (isProhibition : bool)
      (containers : list CompressedContainer) :
  checkContainer completedUnits containers isProhibition = Checked true []
  <-> forall c, In c containers -> satisfiedBy completedUnits isProhibition c.
Proof.
  pose proof (nestedMessages_nil completedUnits isProhibition containers) as N.
  cbv zeta in N.
  destruct (first_error (checkContainerLogic completedUnits isProhibition) containers)
    as [F | (before & bad & after & err & D & F & B)].
  - rewrite (checkContainer_finish _ _ _ F), finish_true_nil. apply N, F.
  - split.
    + intros H. rewrite D, (checkContainer_error _ _ _ _ _ _ F B) in H. discriminate.
    + intros H. specialize (H bad). unfold satisfiedBy in H. rewrite B in H.
      assert (In bad containers) as I by (rewrite D; apply in_elt).
      specialize (H I). discriminate.
Qed.

(** ** More completed units *)

Lemma completedWithin_completedIn (completedUnits moreCompleted : list Unit)
      (unit : CompressedUnit) :
  completedWithin completedUnits moreCompleted ->
  completedIn completedUnits unit -> completedIn moreCompleted unit.
Proof. intros W C. apply W, C. Qed.

Lemma prerequisite_monotone (completedUnits moreCompleted : list Unit)
      (container : CompressedContainer) :
  completedWithin completedUnits moreCompleted ->
  (evaluates (checkContainerLogic completedUnits false container) ->
   evaluates (checkContainerLogic moreCompleted false container))
  /\ (satisfiedBy completedUnits false container ->
      satisfiedBy moreCompleted false container).
Proof.
  intros W.
  induction container as [relationship units containers IH]
    using CompressedContainer_ind.
  apply list_all_Forall in IH.
  pose proof (proj1 (Forall_forall _ _) IH) as Sub. clear IH.
  set (container := {| Relationship := relationship; Units := units;
                       Containers := containers |}).
  destruct (String.eqb_spec relationship "AND") as [A | NA];
    [| destruct (String.eqb_spec relationship "OR") as [O | NO]].
  - assert (Relationship container = "AND") as R by exact A.
    split.
    + intros V.
      pose proof (checkAnd_evaluates completedUnits false container R V) as F.
      pose proof (checkAnd_result moreCompleted false container R) as E.
      cbv zeta in E. rewrite E; [apply finish_evaluates |].
      apply Forall_forall. intros s I.
      apply (Sub s I), (proj1 (Forall_forall _ _) F s I).
    + intros S.
      apply (checkAnd_satisfied completedUnits false container R) in S.
      cbv iota in S. destruct S as [U N].
      apply (checkAnd_satisfied moreCompleted false container R). cbv iota.
      split.
      * apply uncompletedCodes_nil. intros unit I.
        apply (completedWithin_completedIn _ _ _ W).
        apply (proj1 (uncompletedCodes_nil _ _) U unit I).
      * intros s I. apply (Sub s I), N, I.
  - assert (Relationship container = "OR") as R by exact O.
    assert (satisfiedBy completedUnits false container ->
            satisfiedBy moreCompleted false container) as Sat.
    { intros S. apply (or_prerequisite_satisfied _ _ R) in S.
      apply (or_prerequisite_satisfied _ _ R).
      destruct S as [E | [[unit [I C]] | (before & s & after & D & F & S)]].
      - left. exact E.
      - right. left. exists unit.
        split; [exact I | apply (completedWithin_completedIn _ _ _ W), C].
      - right. right. exists before, s, after.
        split; [exact D |].
        assert (forall x, In x (before ++ s :: after) -> In x containers) as I.
        { intros x Hx. change containers with (Containers container).
          rewrite D. exact Hx. }
        split.
        + apply Forall_forall. intros x Hx.
          apply (Sub x (I x (in_or_app _ _ _ (or_introl Hx)))).
          apply (proj1 (Forall_forall _ _) F x Hx).
        + apply (Sub s (I s (in_elt _ _ _))), S. }
    split; [| exact Sat].
    intros V. apply (or_prerequisite_evaluates _ _ R) in V.
    apply (or_prerequisite_evaluates _ _ R).
    destruct V as [S | F]; [left; apply Sat, S | right].
    apply Forall_forall. intros s I.
    apply (Sub s I), (proj1 (Forall_forall _ _) F s I).
  - assert (checkContainerLogic completedUnits false container
            = CheckError ("unknown relationship type: " ++ relationship)%string) as E
        by (apply unknown_relationship; assumption).
    unfold satisfiedBy. rewrite E. split.
    + intros V. destruct (error_not_evaluates _ V).
    + discriminate.
Qed.

(** X19.  In prerequisite mode completing more units never hurts: a
    container that gave no error still gives none, a satisfied container
    stays satisfied, and so does a list of containers. *)
Theorem X19_prerequisite_monotone :
  forall (completedUnits moreCompleted : list Unit),
    completedWithin completedUnits moreCompleted ->
    (forall container,
        evaluates (checkContainerLogic completedUnits false container) ->
        evaluates (checkContainerLogic moreCompleted false container))
    /\ (forall container,
           satisfiedBy completedUnits false container ->
           satisfiedBy moreCompleted false container)
    /\ (forall containers,
           checkContainer completedUnits containers false = Checked true [] ->
           checkContainer moreCompleted containers false = Checked true []).
Proof.
  intros completedUnits moreCompleted W.
  split; [intros container; apply (prerequisite_monotone _ _ container W) |].
  split; [intros container; apply (prerequisite_monotone _ _ container W) |].
  intros containers H. apply checkContainer_satisfied. intros c I.
  apply (prerequisite_monotone _ _ c W).
  apply (proj1 (checkContainer_satisfied _ _ _) H c I).
Qed.

Lemma X19_prerequisite_monotone_witness :
  checkContainer [done "FIT1045"; done "FIT2004"]
    [containerOf "OR" ["FIT1045"; "FIT1053"] [containerOf "NOT" [] []]] false
  = Checked true [].
Proof.
  apply (X19_prerequisite_monotone [done "FIT1045"] [done "FIT1045"; done "FIT2004"]).
  - intros code H. simpl in *. tauto.
  - reflexivity.
Defined.

Lemma prohibition_antitone (completedUnits moreCompleted : list Unit)
      (container : CompressedContainer) :
  completedWithin completedUnits moreCompleted ->
  satisfiedBy moreCompleted true container ->
  satisfiedBy completedUnits true container.
Proof.
  intros W.
  induction container as [relationship units containers IH]
    using CompressedContainer_ind.
  apply list_all_Forall in IH.
  pose proof (proj1 (Forall_forall _ _) IH) as Sub. clear IH.
  set (container := {| Relationship := relationship; Units := units;
                       Containers := containers |}).
  destruct (String.eqb_spec relationship "AND") as [A | NA];
    [| destruct (String.eqb_spec relationship "OR") as [O | NO]].
  - assert (Relationship container = "AND") as R by exact A.
    intros S. apply (checkAnd_satisfied moreCompleted true container R) in S.
    cbv iota in S. destruct S as [U N].
    apply (checkAnd_satisfied completedUnits true container R). cbv iota.
    split.
    + apply completedCodes_nil. intros unit I C.
      apply (proj1 (completedCodes_nil _ _) U unit I).
      apply (completedWithin_completedIn _ _ _ W), C.
    + intros s I. apply (Sub s I), N, I.
  - assert (Relationship container = "OR") as R by exact O.
    intros S. apply (or_prohibition_satisfied _ _ R) in S. destruct S as [E N].
    apply (or_prohibition_satisfied _ _ R). split; [exact E |].
    intros unit I C. apply (N unit I), (completedWithin_completedIn _ _ _ W), C.
  - unfold satisfiedBy.
    rewrite (unknown_relationship moreCompleted true container NA NO). discriminate.
Qed.

(** X20.  In prohibition mode completing fewer units never hurts: a
    container, or a list of containers, that is not violated by a set of
    completed units is not violated by any part of that set. *)
Theorem X20_prohibition_antitone :
  forall (completedUnits moreCompleted : list Unit),
    completedWithin completedUnits moreCompleted ->
    (forall container,
        satisfiedBy moreCompleted true container ->
        satisfiedBy completedUnits true container)
    /\ (forall containers,
           checkContainer moreCompleted containers true = Checked true [] ->
           checkContainer completedUnits containers true = Checked true []).
Proof.
  intros completedUnits moreCompleted W.
  split; [intros container; apply (prohibition_antitone _ _ container W) |].
  intros containers H. apply checkContainer_satisfied. intros c I.
  apply (prohibition_antitone _ _ c W).
  apply (proj1 (checkContainer_satisfied _ _ _) H c I).
Qed.

Lemma X20_prohibition_antitone_witness :
  checkContainer [done "FIT1045"]
    [containerOf "AND" ["FIT1008"] [containerOf "OR" ["FIT2085"] []]] true
  = Checked true [].
Proof.
  apply (X20_prohibition_antitone [done "FIT1045"] [done "FIT1045"; done "FIT2004"]).
  - intros code H. simpl in *. tauto.
  - reflexivity.
Defined.

(** ** Well-formed trees *)

Lemma wellFormed_parts (container : CompressedContainer) :
  wellFormed container = true
  <-> (Relationship container = "AND" \/ Relationship container = "OR")
      /\ Forall (fun s => wellFormed s = true) (Containers container).
Proof.
  destruct container as [relationship units containers]. cbn [wellFormed Relationship Containers].
  rewrite andb_true_iff, orb_true_iff, !String.eqb_eq, forallb_forall, Forall_forall.
  reflexivity.
Qed.

Lemma wellFormed_evaluates (completedUnits : list Unit) (isProhibition : bool)
      (container : CompressedContainer) :
  wellFormed container = true ->
  evaluates (checkContainerLogic completedUnits isProhibition container).
Proof.
  induction container as [relationship units containers IH]
    using CompressedContainer_ind.
  apply list_all_Forall in IH.
  pose proof (proj1 (Forall_forall _ _) IH) as Sub. clear IH.
  set (container := {| Relationship := relationship; Units := units;
                       Containers := containers |}).
  intros H. apply wellFormed_parts in H as [R W].
  assert (Forall (fun s => evaluates (checkContainerLogic completedUnits isProhibition s))
                 (Containers container)) as F.
  { apply Forall_forall. intros s I.
    apply (Sub s I), (proj1 (Forall_forall _ _) W s I). }
  destruct R as [R | R].
  - pose proof (checkAnd_result completedUnits isProhibition container R F) as E.
    cbv zeta in E. rewrite E. apply finish_evaluates.
  - destruct isProhibition.
    + rewrite (or_prohibition_result _ _ R F). apply finish_evaluates.
    + apply (or_prerequisite_evaluates _ _ R). right. exact F.
Qed.

Lemma prohibition_wellFormed (completedUnits : list Unit)
      (container : CompressedContainer) :
  evaluates (checkContainerLogic completedUnits true container) ->
  wellFormed container = true.
Proof.
  induction container as [relationship units containers IH]
    using CompressedContainer_ind.
  apply list_all_Forall in IH.
  pose proof (proj1 (Forall_forall _ _) IH) as Sub. clear IH.
  set (container := {| Relationship := relationship; Units := units;
                       Containers := containers |}).
  intros V. apply wellFormed_parts.
  assert (Relationship container = "AND" \/ Relationship container = "OR") as R.
  { destruct (String.eqb_spec relationship "AND") as [A | NA]; [left; exact A |].
    destruct (String.eqb_spec relationship "OR") as [O | NO]; [right; exact O |].
    rewrite (unknown_relationship completedUnits true container NA NO) in V.
    destruct (error_not_evaluates _ V). }
  split; [exact R |].
  assert (Forall (fun s => evaluates (checkContainerLogic completedUnits true s))
                 (Containers container)) as F.
  { destruct R as [R | R].
    - apply (checkAnd_evaluates completedUnits true container R V).
    - apply (or_prohibition_evaluates _ _ R V). }
  apply Forall_forall. intros s I.
  apply (Sub s I), (proj1 (Forall_forall _ _) F s I).
Qed.

Lemma wellFormed_requisite (completedUnits : list Unit)
      (requisite : CompressedRequisite) :
  forallb wellFormed (ReqContainers requisite) = true ->
  requisiteEvaluates completedUnits requisite.
Proof.
  intros H. unfold requisiteEvaluates, requisiteResult.
  assert (forall isProhibition,
             evaluates (checkContainer completedUnits (ReqContainers requisite)
                                       isProhibition)) as V.
  { intros isProhibition. rewrite checkContainer_finish; [apply finish_evaluates |].
    apply Forall_forall. intros c I. apply wellFormed_evaluates.
    apply (proj1 (forallb_forall _ _) H c I). }
  destruct (RequisiteType requisite =? "Prerequisite")%string; [apply V |].
  destruct (RequisiteType requisite =? "Prohibition")%string; [apply V | exact I].
Qed.

(** X21.  Evaluation gives an error only for a relationship that is
    neither ["AND"] nor ["OR"]: when every relationship of every tree is one
    of the two, [CheckRequisites] returns without an error, for any
    completed units. *)
Theorem X21_well_formed_no_error :
  forall (completedUnits : list Unit) (requisites : list CompressedRequisite),
    forallb (fun requisite => forallb wellFormed (ReqContainers requisite)) requisites
    = true ->
    evaluates (CheckRequisites completedUnits requisites)
    /\ forall requisite container isProhibition,
         In requisite requisites -> In container (ReqContainers requisite) ->
         evaluates (checkContainerLogic completedUnits isProhibition container).
Proof.
  intros completedUnits requisites H.
  pose proof (proj1 (forallb_forall _ _) H) as W. split.
  - assert (Forall (requisiteEvaluates completedUnits) requisites) as F.
    { apply Forall_forall. intros r I. apply wellFormed_requisite, W, I. }
    unfold CheckRequisites. destruct requisites as [| r rest]; [apply checked_evaluates |].
    change (length (r :: rest) =? 0)%nat with false. cbv iota.
    rewrite (checkRequisitesLoop_ok _ _ F). apply finish_evaluates.
  - intros requisite container isProhibition I J.
    apply wellFormed_evaluates.
    apply (proj1 (forallb_forall _ _) (W requisite I) container J).
Qed.

Lemma X21_well_formed_no_error_witness :
  evaluates (CheckRequisites [done "FIT1045"]
               [prerequisite [containerOf "OR" ["FIT1045"]
                                [containerOf "AND" ["FIT1008"] []]];
                prohibition [containerOf "AND" ["FIT2004"] []]]).
Proof.
  apply (X21_well_formed_no_error [done "FIT1045"]
           [prerequisite [containerOf "OR" ["FIT1045"]
                            [containerOf "AND" ["FIT1008"] []]];
            prohibition [containerOf "AND" ["FIT2004"] []]]).
  reflexivity.
Defined.

(** X22.  In prohibition mode every container of a tree is visited: a tree
    evaluates without an error exactly when all its relationships are
    ["AND"] or ["OR"], whatever the completed units. *)
Theorem X22_prohibition_visits_all :
  forall (completedUnits : list Unit) (container : CompressedContainer),
    evaluates (checkContainerLogic completedUnits true container)
    <-> wellFormed container = true.
Proof.
  intros completedUnits container. split.
  - apply prohibition_wellFormed.
  - apply wellFormed_evaluates.
Qed.

(** ** What the evaluator reads *)

Section Congruence.
Variables completedUnits completedUnits' : list Unit.
Variables rec rec' : CompressedContainer -> CheckResult.
Hypothesis sameCompleted :
  forall u u', UnitCode u = UnitCode u' ->
               isUnitCompleted u completedUnits = isUnitCompleted u' completedUnits'.

Lemma mentioned_cong (want : bool) (units units' : list CompressedUnit) :
  Forall2 (fun u u' => UnitCode u = UnitCode u') units units' ->
  mentioned completedUnits want units = mentioned completedUnits' want units'.
Proof.
  unfold mentioned. induction 1 as [| u u' us us' E _ IH]; [reflexivity |].
  cbn [filter]. rewrite (sameCompleted u u' E).
  destruct (Bool.eqb (isUnitCompleted u' completedUnits') want); cbn [map];
    rewrite ?E, IH; reflexivity.
Qed.

Lemma existsb_cong (units units' : list CompressedUnit) :
  Forall2 (fun u u' => UnitCode u = UnitCode u') units units' ->
  existsb (fun unit => isUnitCompleted unit completedUnits) units
  = existsb (fun unit => isUnitCompleted unit completedUnits') units'.
Proof.
  induction 1 as [| u u' us us' E _ IH]; [reflexivity |].
  cbn [existsb]. rewrite (sameCompleted u u' E), IH. reflexivity.
Qed.

Lemma single_cong (s s' : CompressedContainer) :
  rec s = rec' s' -> checkContainerBody rec [s] = checkContainerBody rec' [s'].
Proof. intros E. rewrite !checkContainerBody_single, E. reflexivity. Qed.

Lemma checkContainerLoop_cong (containers containers' : list CompressedContainer) :
  Forall2 (fun s s' => rec s = rec' s') containers containers' ->
  forall unmet,
    checkContainerLoop rec containers unmet = checkContainerLoop rec' containers' unmet.
Proof.
  induction 1 as [| s s' ss ss' E _ IH]; intros unmet; [reflexivity |].
  cbn [checkContainerLoop]. rewrite E.
  destruct (rec' s'); [apply IH | reflexivity].
Qed.

Lemma andSubLoop_cong (subs subs' : list CompressedContainer) :
  Forall2 (fun s s' => rec s = rec' s') subs subs' ->
  forall unmet, andSubLoop rec subs unmet = andSubLoop rec' subs' unmet.
Proof.
  induction 1 as [| s s' ss ss' E _ IH]; intros unmet; [reflexivity |].
  cbn [andSubLoop]. rewrite (single_cong s s' E).
  destruct (checkContainerBody rec' [s']); [apply IH | reflexivity].
Qed.

Lemma orRequireSubLoop_cong (subs subs' : list CompressedContainer) :
  Forall2 (fun s s' => rec s = rec' s') subs subs' ->
  orRequireSubLoop rec subs = orRequireSubLoop rec' subs'.
Proof.
  induction 1 as [| s s' ss ss' E _ IH]; [reflexivity |].
  cbn [orRequireSubLoop]. rewrite (single_cong s s' E).
  destruct (checkContainerBody rec' [s']) as [[] ? | ?]; [reflexivity | exact IH | reflexivity].
Qed.

Lemma orProhibitSubLoop_cong (subs subs' : list CompressedContainer) :
  Forall2 (fun s s' => rec s = rec' s') subs subs' ->
  forall mentionedUnits,
    orProhibitSubLoop rec subs mentionedUnits
    = orProhibitSubLoop rec' subs' mentionedUnits.
Proof.
  induction 1 as [| s s' ss ss' E _ IH]; intros mentionedUnits; [reflexivity |].
  cbn [orProhibitSubLoop]. rewrite (single_cong s s' E).
  destruct (checkContainerBody rec' [s']); [apply IH | reflexivity].
Qed.

Lemma orCollectLoop_cong (subs subs' : list CompressedContainer) :
  Forall2 (fun s s' => rec s = rec' s') subs subs' ->
  forall unmet, orCollectLoop rec subs unmet = orCollectLoop rec' subs' unmet.
Proof.
  induction 1 as [| s s' ss ss' E _ IH]; intros unmet; [reflexivity |].
  cbn [orCollectLoop]. rewrite (single_cong s s' E). apply IH.
Qed.

Lemma orTail_cong (isProhibition : bool) (c c' : CompressedContainer)
      (mentionedUnits : list string) :
  Forall2 (fun s s' => rec s = rec' s') (Containers c) (Containers c') ->
  orTail rec isProhibition c mentionedUnits = orTail rec' isProhibition c' mentionedUnits.
Proof.
  intros C. unfold orTail. rewrite (orCollectLoop_cong _ _ C). reflexivity.
Qed.

Lemma checkContainerLogicBody_cong (isProhibition : bool) (c c' : CompressedContainer) :
  Relationship c = Relationship c' ->
  Forall2 (fun u u' => UnitCode u = UnitCode u') (Units c) (Units c') ->
  Forall2 (fun s s' => rec s = rec' s') (Containers c) (Containers c') ->
  checkContainerLogicBody completedUnits rec isProhibition c
  = checkContainerLogicBody completedUnits' rec' isProhibition c'.
Proof.
  intros R U C. unfold checkContainerLogicBody. rewrite R.
  destruct (Relationship c' =? "AND")%string.
  - unfold checkAndLogicBody.
    rewrite (Forall2_length U), (Forall2_length C).
    rewrite !(mentioned_cong _ _ _ U), (andSubLoop_cong _ _ C). reflexivity.
  - destruct (Relationship c' =? "OR")%string; [| reflexivity].
    unfold checkOrLogicBody.
    rewrite (Forall2_length U), (Forall2_length C).
    rewrite !(mentioned_cong _ _ _ U), (existsb_cong _ _ U).
    rewrite (orRequireSubLoop_cong _ _ C), (orProhibitSubLoop_cong _ _ C).
    destruct ((length (Units c') =? 0) && (length (Containers c') =? 0))%nat;
      [reflexivity |].
    destruct (negb isProhibition).
    + destruct (existsb (fun unit => isUnitCompleted unit completedUnits') (Units c'));
        [reflexivity |].
      destruct (orRequireSubLoop rec' (Containers c')); [apply orTail_cong, C | reflexivity].
    + destruct (orProhibitSubLoop rec' (Containers c')
                                  (mentioned completedUnits' true (Units c')));
        [apply orTail_cong, C | reflexivity].
Qed.

End Congruence.

Lemma Forall_diagonal {A : Type} (R : A -> A -> Prop) (l : list A) :
  Forall (fun x => R x x) l -> Forall2 R l l.
Proof. induction 1; constructor; assumption. Qed.

Lemma Forall_map_left {A : Type} (R : A -> A -> Prop) (f : A -> A) (l : list A) :
  Forall (fun x => R (f x) x) l -> Forall2 R (map f l) l.
Proof. induction 1; constructor; assumption. Qed.

Lemma same_set_same_completed (completedUnits completedUnits' : list Unit) :
  (forall code, In code (map Code completedUnits) <-> In code (map Code completedUnits')) ->
  forall u u', UnitCode u = UnitCode u' ->
               isUnitCompleted u completedUnits = isUnitCompleted u' completedUnits'.
Proof.
  intros H u u' E. apply Bool.eq_true_iff_eq.
  rewrite !isUnitCompleted_In. unfold completedIn. rewrite E. apply H.
Qed.

Lemma same_set_same_result (completedUnits completedUnits' : list Unit)
      (isProhibition : bool) (container : CompressedContainer) :
  (forall code, In code (map Code completedUnits) <-> In code (map Code completedUnits')) ->
  checkContainerLogic completedUnits isProhibition container
  = checkContainerLogic completedUnits' isProhibition container.
Proof.
  intros H.
  induction container as [relationship units containers IH]
    using CompressedContainer_ind.
  apply list_all_Forall in IH.
  rewrite (checkContainerLogic_unfold completedUnits),
          (checkContainerLogic_unfold completedUnits').
  apply checkContainerLogicBody_cong.
  - apply same_set_same_completed, H.
  - reflexivity.
  - apply Forall_diagonal, Forall_forall. reflexivity.
  - apply Forall_diagonal, IH.
Qed.

Lemma same_set_same_requisites (completedUnits completedUnits' : list Unit)
      (requisites : list CompressedRequisite) :
  (forall code, In code (map Code completedUnits) <-> In code (map Code completedUnits')) ->
  forall unmet,
    checkRequisitesLoop completedUnits requisites unmet
    = checkRequisitesLoop completedUnits' requisites unmet.
Proof.
  intros H.
  assert (forall containers isProhibition,
             checkContainer completedUnits containers isProhibition
             = checkContainer completedUnits' containers isProhibition) as E.
  { intros containers isProhibition. unfold checkContainer, checkContainerBody.
    destruct (length containers =? 0)%nat; [reflexivity |].
    apply checkContainerLoop_cong, Forall_diagonal, Forall_forall.
    intros c _. apply same_set_same_result, H. }
  induction requisites as [| r rest IH]; intros unmet; [reflexivity |].
  cbn [checkRequisitesLoop]. rewrite !E.
  destruct (RequisiteType r =? "Prerequisite")%string.
  - destruct (checkContainer completedUnits' (ReqContainers r) false);
      [apply IH | reflexivity].
  - destruct (RequisiteType r =? "Prohibition")%string; [| apply IH].
    destruct (checkContainer completedUnits' (ReqContainers r) true);
      [apply IH | reflexivity].
Qed.

(** X23.  The completed units count as a set of codes: two lists with the
    same codes, in any order, with or without repetitions and whatever
    their names, credit points, descriptions and URLs, give the same
    result. *)
Theorem X23_completed_as_set :
  forall (completedUnits completedUnits' : list Unit),
    (forall code,
        In code (map Code completedUnits) <-> In code (map Code completedUnits')) ->
    (forall requisites,
        CheckRequisites completedUnits requisites
        = CheckRequisites completedUnits' requisites)
    /\ (forall isProhibition container,
           checkContainerLogic completedUnits isProhibition container
           = checkContainerLogic completedUnits' isProhibition container).
Proof.
  intros completedUnits completedUnits' H. split.
  - intros requisites. unfold CheckRequisites.
    destruct (length requisites =? 0)%nat; [reflexivity |].
    apply same_set_same_requisites, H.
  - intros isProhibition container. apply same_set_same_result, H.
Qed.

Lemma X23_completed_as_set_witness :
  CheckRequisites
    [done "FIT1045"; mkUnit "FIT1008" "Introduction to computer science" 6 "" "";
     done "FIT1045"]
    [prerequisite [containerOf "AND" ["FIT1045"; "FIT1008"; "FIT2004"] []]]
  = CheckRequisites [done "FIT1008"; done "FIT1045"]
      [prerequisite [containerOf "AND" ["FIT1045"; "FIT1008"; "FIT2004"] []]].
Proof.
  apply (X23_completed_as_set
           [done "FIT1045"; mkUnit "FIT1008" "Introduction to computer science" 6 "" "";
            done "FIT1045"]
           [done "FIT1008"; done "FIT1045"]).
  intros code. simpl. tauto.
Defined.

Lemma same_code_same_completed (completedUnits : list Unit) :
  forall u u', UnitCode u = UnitCode u' ->
               isUnitCompleted u completedUnits = isUnitCompleted u' completedUnits.
Proof.
  intros u u' E. induction completedUnits as [| completed rest IH]; [reflexivity |].
  simpl. rewrite E, IH. reflexivity.
Qed.

Lemma withUnitNumbers_result (completedUnits : list Unit) (isProhibition : bool)
      (number : string -> string) (container : CompressedContainer) :
  checkContainerLogic completedUnits isProhibition (withUnitNumbers number container)
  = checkContainerLogic completedUnits isProhibition container.
Proof.
  induction container as [relationship units containers IH]
    using CompressedContainer_ind.
  apply list_all_Forall in IH.
  rewrite !checkContainerLogic_unfold.
  apply checkContainerLogicBody_cong.
  - apply same_code_same_completed.
  - reflexivity.
  - cbn [withUnitNumbers Units].
    apply (Forall_map_left (fun u u' => UnitCode u = UnitCode u')), Forall_forall.
    reflexivity.
  - cbn [withUnitNumbers Containers].
    apply (Forall_map_left
             (fun s s' => checkContainerLogic completedUnits isProhibition s
                          = checkContainerLogic completedUnits isProhibition s')).
    exact IH.
Qed.

(** X24.  The evaluator never reads [UnitNumber]: the same forest with any
    other unit numbers gives the same result. *)
Theorem X24_unit_numbers_unread :
  forall (completedUnits : list Unit) (isProhibition : bool)
         (number : string -> string) (containers : list CompressedContainer),
    checkContainer completedUnits (map (withUnitNumbers number) containers) isProhibition
    = checkContainer completedUnits containers isProhibition.
Proof.
  intros completedUnits isProhibition number containers.
  unfold checkContainer, checkContainerBody. rewrite length_map.
  destruct (length containers =? 0)%nat; [reflexivity |].
  apply checkContainerLoop_cong.
  apply (Forall_map_left
           (fun s s' => checkContainerLogic completedUnits isProhibition s
                        = checkContainerLogic completedUnits isProhibition s')).
  apply Forall_forall. intros c _. apply withUnitNumbers_result.
Qed.

(** ** The headings of the messages *)

Lemma prefix_app (heading rest : string) : String.prefix heading (heading ++ rest) = true.
Proof.
  induction heading as [| c heading' IH]; simpl; [destruct rest; reflexivity |].
  destruct (Ascii.ascii_dec c c) as [_ | N]; [exact IH | contradiction].
Qed.

Lemma render_heading (heading sep : string) (codes : list string) :
  String.prefix heading (render heading sep codes) = true.
Proof. rewrite render_concat. apply prefix_app. Qed.

Lemma finish_messages (dflt : bool) (unmet : list string) (P : string -> Prop) :
  Forall P unmet -> Forall P (resultMessages (finish dflt unmet)).
Proof.
  intros H. destruct (finish_cases dflt unmet) as [[_ ->] | [_ ->]];
    [constructor | exact H].
Qed.

Section Headings.
Variable completedUnits : list Unit.
Variable rec : CompressedContainer -> CheckResult.

Lemma single_headed (sub : CompressedContainer) :
  Forall (fun m => knownHeading m = true) (resultMessages (rec sub)) ->
  Forall (fun m => knownHeading m = true) (resultMessages (checkContainerBody rec [sub])).
Proof.
  intros H. rewrite checkContainerBody_single.
  destruct (rec sub) as [met messages | err]; [| constructor].
  apply finish_messages. destruct met; [constructor | exact H].
Qed.

Lemma checkContainerLoop_headed (containers : list CompressedContainer) :
  Forall (fun c => Forall (fun m => knownHeading m = true) (resultMessages (rec c)))
         containers ->
  forall unmet,
    Forall (fun m => knownHeading m = true) unmet ->
    Forall (fun m => knownHeading m = true)
           (resultMessages (checkContainerLoop rec containers unmet)).
Proof.
  induction 1 as [| c rest H _ IH]; intros unmet U; cbn [checkContainerLoop].
  - apply finish_messages, U.
  - destruct (rec c) as [met messages | err]; [| constructor].
    apply IH. destruct met; [exact U |].
    apply Forall_app. split; [exact U | exact H].
Qed.

Lemma andSubLoop_headed (subs : list CompressedContainer) :
  Forall (fun s => Forall (fun m => knownHeading m = true) (resultMessages (rec s)))
         subs ->
  forall unmet,
    Forall (fun m => knownHeading m = true) unmet ->
    match andSubLoop rec subs unmet with
    | Continue result => Forall (fun m => knownHeading m = true) result
    | Return r => Forall (fun m => knownHeading m = true) (resultMessages r)
    end.
Proof.
  induction 1 as [| s rest H _ IH]; intros unmet U; cbn [andSubLoop]; [exact U |].
  pose proof (single_headed s H) as K.
  destruct (checkContainerBody rec [s]) as [met messages | err]; [| constructor].
  apply IH. destruct met; [exact U |].
  apply Forall_app. split; [exact U | exact K].
Qed.

Lemma orRequireSubLoop_silent (subs : list CompressedContainer) :
  match orRequireSubLoop rec subs with
  | Continue _ => True
  | Return r => resultMessages r = []
  end.
Proof.
  induction subs as [| s rest IH]; cbn [orRequireSubLoop]; [exact I |].
  destruct (checkContainerBody rec [s]) as [[] messages | err];
    [reflexivity | exact IH | reflexivity].
Qed.

Lemma orProhibitSubLoop_silent (subs : list CompressedContainer) :
  forall mentionedUnits,
    match orProhibitSubLoop rec subs mentionedUnits with
    | Continue _ => True
    | Return r => resultMessages r = []
    end.
Proof.
  induction subs as [| s rest IH]; intros mentionedUnits; cbn [orProhibitSubLoop];
    [exact I |].
  destruct (checkContainerBody rec [s]) as [met messages | err]; [apply IH | reflexivity].
Qed.

Lemma orCollectLoop_headed (subs : list CompressedContainer) :
  Forall (fun s => Forall (fun m => knownHeading m = true) (resultMessages (rec s)))
         subs ->
  forall unmet,
    Forall (fun m => knownHeading m = true) unmet ->
    Forall (fun m => knownHeading m = true) (orCollectLoop rec subs unmet).
Proof.
  induction 1 as [| s rest H _ IH]; intros unmet U; cbn [orCollectLoop]; [exact U |].
  apply IH. apply Forall_app. split; [exact U |].
  pose proof (single_headed s H) as K.
  destruct (checkContainerBody rec [s]); [exact K | constructor].
Qed.

Lemma orTail_headed (isProhibition : bool) (container : CompressedContainer)
      (mentionedUnits : list string) :
  Forall (fun s => Forall (fun m => knownHeading m = true) (resultMessages (rec s)))
         (Containers container) ->
  Forall (fun m => knownHeading m = true)
         (resultMessages (orTail rec isProhibition container mentionedUnits)).
Proof.
  intros H. unfold orTail. apply finish_messages, (orCollectLoop_headed _ H).
  destruct (negb isProhibition); destruct (0 <? length mentionedUnits)%nat;
    try constructor; try constructor; unfold knownHeading;
    rewrite render_heading; rewrite ?orb_true_r; reflexivity.
Qed.

Lemma checkContainerLogicBody_headed (isProhibition : bool)
      (container : CompressedContainer) :
  Forall (fun s => Forall (fun m => knownHeading m = true) (resultMessages (rec s)))
         (Containers container) ->
  Forall (fun m => knownHeading m = true)
         (resultMessages
            (checkContainerLogicBody completedUnits rec isProhibition container)).
Proof.
  intros H. unfold checkContainerLogicBody.
  destruct (Relationship container =? "AND")%string.
  - unfold checkAndLogicBody.
    destruct ((length (Units container) =? 0) && (length (Containers container) =? 0))%nat;
      [constructor |].
    pose proof (andSubLoop_headed _ H [] (Forall_nil _)) as A.
    destruct (negb isProhibition);
      (destruct (andSubLoop rec (Containers container) []) as [unmet | r]; [| exact A]);
      apply finish_messages;
      match goal with
      | |- context [(0 <? length ?l)%nat] => destruct (0 <? length l)%nat
      end; try exact A;
      (apply Forall_app; split; [exact A |]); constructor; try constructor;
      unfold knownHeading; rewrite render_heading; rewrite ?orb_true_r; reflexivity.
  - destruct (Relationship container =? "OR")%string; [| constructor].
    unfold checkOrLogicBody.
    destruct ((length (Units container) =? 0) && (length (Containers container) =? 0))%nat;
      [constructor |].
    destruct (negb isProhibition).
    + destruct (existsb (fun unit => isUnitCompleted unit completedUnits)
                        (Units container)); [constructor |].
      pose proof (orRequireSubLoop_silent (Containers container)) as S.
      destruct (orRequireSubLoop rec (Containers container)) as [[] | r].
      * apply orTail_headed, H.
      * rewrite S. constructor.
    + pose proof (orProhibitSubLoop_silent (Containers container)
                    (mentioned completedUnits true (Units container))) as S.
      destruct (orProhibitSubLoop rec (Containers container)
                                  (mentioned completedUnits true (Units container)))
        as [mentionedUnits | r].
      * apply orTail_headed, H.
      * rewrite S. constructor.
Qed.

End Headings.

Lemma checkContainerLogic_headed (completedUnits : list Unit) (isProhibition : bool)
      (container : CompressedContainer) :
  Forall (fun m => knownHeading m = true)
         (resultMessages (checkContainerLogic completedUnits isProhibition container)).
Proof.
  induction container as [relationship units containers IH]
    using CompressedContainer_ind.
  apply list_all_Forall in IH.
  rewrite checkContainerLogic_unfold.
  apply checkContainerLogicBody_headed. exact IH.
Qed.

Lemma checkContainer_headed (completedUnits : list Unit) (isProhibition : bool)
      (containers : list CompressedContainer) :
  Forall (fun m => knownHeading m = true)
         (resultMessages (checkContainer completedUnits containers isProhibition)).
Proof.
  unfold checkContainer, checkContainerBody.
  destruct (length containers =? 0)%nat; [constructor |].
  apply checkContainerLoop_headed; [| constructor].
  apply Forall_forall. intros c _. apply checkContainerLogic_headed.
Qed.

Lemma checkRequisitesLoop_headed (completedUnits : list Unit)
      (requisites : list CompressedRequisite) :
  forall unmet,
    Forall (fun m => knownHeading m = true) unmet ->
    Forall (fun m => knownHeading m = true)
           (resultMessages (checkRequisitesLoop completedUnits requisites unmet)).
Proof.
  induction requisites as [| r rest IH]; intros unmet U; cbn [checkRequisitesLoop].
  - apply finish_messages, U.
  - destruct (RequisiteType r =? "Prerequisite")%string;
      [| destruct (RequisiteType r =? "Prohibition")%string; [| apply IH, U]].
    + pose proof (checkContainer_headed completedUnits false (ReqContainers r)) as K.
      destruct (checkContainer completedUnits (ReqContainers r) false)
        as [met messages | err]; [| constructor].
      apply IH. destruct met; [exact U | apply Forall_app; split; assumption].
    + pose proof (checkContainer_headed completedUnits true (ReqContainers r)) as K.
      destruct (checkContainer completedUnits (ReqContainers r) true)
        as [met messages | err]; [| constructor].
      apply IH. destruct met; [exact U | apply Forall_app; split; assumption].
Qed.

(** X25.  Every message [CheckRequisites] returns, and every message of a
    container evaluated on its own, starts with ["Requires: "],
    ["Requires one of: "], ["Prohibited by: "] or ["Prohibited by one of: "]. *)
Theorem X25_message_headings :
  forall (completedUnits : list Unit),
    (forall requisites,
        Forall (fun m => knownHeading m = true)
               (resultMessages (CheckRequisites completedUnits requisites)))
    /\ (forall isProhibition container,
           Forall (fun m => knownHeading m = true)
                  (resultMessages
                     (checkContainerLogic completedUnits isProhibition container))).
Proof.
  intros completedUnits. split.
  - intros requisites. unfold CheckRequisites.
    destruct (length requisites =? 0)%nat; [constructor |].
    apply checkRequisitesLoop_headed. constructor.
  - intros isProhibition container. apply checkContainerLogic_headed.
Qed.

(** * Properties of the compression of requisites *)

Lemma compressUnitsLoop_map (relationships : list Units.Relationship.t) :
  forall units,
    compressUnitsLoop relationships units
    = units ++ map (fun rel =>
                      {| UnitCode := Units.Relationship.AcademicItemCode rel;
                         UnitNumber :=
                           ExtractUnitNumber (Units.Relationship.AcademicItemCode rel) |})
                   relationships.
Proof.
  induction relationships as [| rel rest IH]; intros units; cbn [compressUnitsLoop map].
  - rewrite app_nil_r. reflexivity.
  - rewrite IH, <- app_assoc. reflexivity.
Qed.

Lemma compressChildrenLoop_map (rec : Units.Container.t -> CompressedContainer)
      (children : list Units.Container.t) :
  forall containers,
    compressChildrenLoop rec children containers = containers ++ map rec children.
Proof.
  induction children as [| child rest IH]; intros containers;
    cbn [compressChildrenLoop map].
  - rewrite app_nil_r. reflexivity.
  - rewrite IH, <- app_assoc. reflexivity.
Qed.

Lemma compressContainersLoop_map (containers : list Units.Container.t) :
  forall compressed,
    compressContainersLoop containers compressed
    = compressed ++ map compressContainer containers.
Proof.
  induction containers as [| container rest IH]; intros compressed;
    cbn [compressContainersLoop map].
  - rewrite app_nil_r. reflexivity.
  - rewrite IH, <- app_assoc. reflexivity.
Qed.

Lemma compressRequisitesLoop_map (requisites : list Units.Requisite.t) :
  forall compressed,
    compressRequisitesLoop requisites compressed
    = compressed
      ++ map (fun req =>
                {| RequisiteType :=
                     Units.RequisiteType.Label (Units.Requisite.RequisiteType req);
                   ReqContainers :=
                     map compressContainer (Units.Requisite.Containers req) |})
             requisites.
Proof.
  induction requisites as [| req rest IH]; intros compressed;
    cbn [compressRequisitesLoop map].
  - rewrite app_nil_r. reflexivity.
  - rewrite IH, <- app_assoc, compressContainersLoop_map. reflexivity.
Qed.

Lemma compressContainer_fields (container : Units.Container.t) :
  Relationship (compressContainer container)
  = Units.Connector.Label (Units.Container.ParentConnector container)
  /\ Units (compressContainer container)
     = map (fun rel =>
              {| UnitCode := Units.Relationship.AcademicItemCode rel;
                 UnitNumber :=
                   ExtractUnitNumber (Units.Relationship.AcademicItemCode rel) |})
           (Units.Container.Relationships container)
  /\ Containers (compressContainer container)
     = map compressContainer (Units.Container.Containers container).
Proof.
  destruct container. cbn [compressContainer compressContainerBody Relationship Units
                           Containers Units.Container.ParentConnector
                           Units.Container.Relationships Units.Container.Containers].
  rewrite compressUnitsLoop_map, compressChildrenLoop_map. repeat split.
Qed.

Lemma compressed_unit_numbers (container : Units.Container.t) :
  forall unit,
    In unit (allUnits (compressContainer container)) ->
    UnitNumber unit = ExtractUnitNumber (UnitCode unit).
Proof.
  induction container as [clid containers IH connector table parent relationships title]
    using Units.Container.t_ind.
  apply list_all_Forall in IH.
  set (container := Units.Container.mk clid containers connector table parent
                                       relationships title).
  destruct (compressContainer_fields container) as (_ & U & C).
  intros unit I.
  assert (allUnits (compressContainer container)
          = Units (compressContainer container)
            ++ flat_map allUnits (Containers (compressContainer container))) as E
      by (destruct (compressContainer container); reflexivity).
  rewrite E, U, C in I. apply in_app_or in I as [I | I].
  - apply in_map_iff in I as [rel [<- _]]. reflexivity.
  - apply in_flat_map in I as [sub [J I]].
    apply in_map_iff in J as [child [<- J]].
    apply (proj1 (Forall_forall _ _) IH child J unit I).
Qed.

(** X26.  Compression keeps the shape of a requisite tree: one compressed
    container per nested container and one unit per relationship, in order,
    with the code of the relationship.  Every unit of the compressed tree,
    at any depth, carries as unit number the digits of its code. *)
Theorem X26_compression_shape :
  forall (container : Units.Container.t),
    Containers (compressContainer container)
    = map compressContainer (Units.Container.Containers container)
    /\ map UnitCode (Units (compressContainer container))
       = map Units.Relationship.AcademicItemCode
             (Units.Container.Relationships container)
    /\ forall unit,
         In unit (allUnits (compressContainer container)) ->
         UnitNumber unit = ExtractUnitNumber (UnitCode unit)
         /\ allDigits (UnitNumber unit) = true.
Proof.
  intros container. destruct (compressContainer_fields container) as (_ & U & C).
  split; [exact C |]. split.
  - rewrite U, map_map. reflexivity.
  - intros unit I. rewrite (compressed_unit_numbers container unit I).
    split; [reflexivity |].
    rewrite ExtractUnitNumber_digitsOf. apply digitsOf_allDigits.
Qed.

Lemma forallb_map_Forall {A B : Type} (f : B -> bool) (g : A -> B) (h : A -> bool)
      (l : list A) :
  Forall (fun x => f (g x) = h x) l -> forallb f (map g l) = forallb h l.
Proof.
  induction 1 as [| x rest E _ IH]; [reflexivity |].
  cbn [map forallb]. rewrite E, IH. reflexivity.
Qed.

Lemma wellFormed_compressContainer (container : Units.Container.t) :
  wellFormed (compressContainer container) = labelled container.
Proof.
  induction container as [clid containers IH connector table parent relationships title]
    using Units.Container.t_ind.
  apply list_all_Forall in IH.
  set (container := Units.Container.mk clid containers connector table parent
                                       relationships title).
  destruct (compressContainer_fields container) as (R & _ & C).
  assert (wellFormed (compressContainer container)
          = ((Relationship (compressContainer container) =? "AND")%string
             || (Relationship (compressContainer container) =? "OR")%string)
            && forallb wellFormed (Containers (compressContainer container))) as E
      by (destruct (compressContainer container); reflexivity).
  rewrite E, R, C.
  rewrite (forallb_map_Forall wellFormed compressContainer labelled
             (Units.Container.Containers container) IH).
  reflexivity.
Qed.

Lemma wellFormed_CheckRequisites (completedUnits : list Unit)
      (requisites : list CompressedRequisite) :
  Forall (fun requisite => forallb wellFormed (ReqContainers requisite) = true)
         requisites ->
  evaluates (CheckRequisites completedUnits requisites).
Proof.
  intros W.
  assert (Forall (requisiteEvaluates completedUnits) requisites) as F.
  { apply Forall_forall. intros r I.
    apply wellFormed_requisite, (proj1 (Forall_forall _ _) W r I). }
  unfold CheckRequisites. destruct requisites as [| r rest]; [apply checked_evaluates |].
  change (length (r :: rest) =? 0)%nat with false. cbv iota.
  rewrite (checkRequisitesLoop_ok _ _ F). apply finish_evaluates.
Qed.

(** X27.  Compression followed by evaluation.  For every decoded list,
    [compressRequisites] returns one compressed requisite per decoded
    requisite, in order, with its type label and the compression of its
    containers.  When every parent connector label of the decoded trees is
    ["AND"] or ["OR"], [CheckRequisites] on the compressed requisites
    returns without an error. *)
Theorem X27_compress_then_check :
  forall (requisites : list Units.Requisite.t),
    exists compressed,
      compressRequisites (inl requisites) = inl compressed
      /\ map RequisiteType compressed
         = map (fun req => Units.RequisiteType.Label (Units.Requisite.RequisiteType req))
               requisites
      /\ map ReqContainers compressed
         = map (fun req => map compressContainer (Units.Requisite.Containers req))
               requisites
      /\ forall (completedUnits : list Unit),
           forallb (fun req => forallb labelled (Units.Requisite.Containers req))
                   requisites = true ->
           evaluates (CheckRequisites completedUnits compressed).
Proof.
  intros requisites.
  unfold compressRequisites. rewrite compressRequisitesLoop_map. cbn [app].
  eexists. split; [reflexivity |].
  split; [rewrite map_map; reflexivity |].
  split; [rewrite map_map; reflexivity |].
  intros completedUnits H.
  apply wellFormed_CheckRequisites. apply Forall_forall. intros r I.
  apply in_map_iff in I as [req [<- I]]. cbn [ReqContainers].
  rewrite (forallb_map_Forall wellFormed compressContainer labelled).
  - apply (proj1 (forallb_forall _ _) H req I).
  - apply Forall_forall. intros c _. apply wellFormed_compressContainer.
Qed.

Lemma X27_compress_then_check_witness :
  exists compressed,
    compressRequisites
      (inl [Units.Requisite.mk "FIT2004" "1" "true" (Units.ClID.mk "" "" "")
              [Units.Container.mk "" [] (Units.Connector.mk "AND" "AND") ""
                 (Units.ParentRecord.mk "" "" "" "")
                 [Units.Relationship.mk "" JNull (Units.AcademicItem.mk "" "" "" "")
                    "FIT1008" "6" "" (Units.AcademicItemType.mk "" "") "" "" "" "1"
                    (Units.ParentRecord.mk "" "" "" "")]
                 ""]
              "" "" "1" "" (Units.RequisiteType.mk "Prerequisite" "prerequisite") ""])
    = inl compressed
    /\ map RequisiteType compressed = ["Prerequisite"]
    /\ evaluates (CheckRequisites [done "FIT1008"] compressed).
Proof.
  destruct (X27_compress_then_check
              [Units.Requisite.mk "FIT2004" "1" "true" (Units.ClID.mk "" "" "")
                 [Units.Container.mk "" [] (Units.Connector.mk "AND" "AND") ""
                    (Units.ParentRecord.mk "" "" "" "")
                    [Units.Relationship.mk "" JNull (Units.AcademicItem.mk "" "" "" "")
                       "FIT1008" "6" "" (Units.AcademicItemType.mk "" "") "" "" "" "1"
                       (Units.ParentRecord.mk "" "" "" "")]
                    ""]
                 "" "" "1" "" (Units.RequisiteType.mk "Prerequisite" "prerequisite") ""])
    as (compressed & E & T & _ & V).
  exists compressed. split; [exact E |]. split; [exact T |].
  apply V. reflexivity.
Defined.

(** * Further properties of the curriculum parser *)

(** ** Parts hold one kind of children *)

Lemma Forall2_right {A B : Type} (R : A -> B -> Prop) (P : B -> Prop)
      (l : list A) (l' : list B) :
  (forall a b, R a b -> P b) -> Forall2 R l l' -> Forall P l'.
Proof. intros H. induction 1; constructor; eauto. Qed.

Lemma ParseCurriculum_error (data : JMap) (curriculum : Curriculum.t) (err : string) :
  ParseCurriculum data = Ok (curriculum, Some err) ->
  Curriculum.Parts curriculum = [].
Proof.
  unfold ParseCurriculum. cbv zeta.
  destruct (mapGet "credit_points"
              (GetTypedValue_map data "props.pageProps.pageContent.curriculumStructure"));
    try (intros H; injection H as <- _; reflexivity).
  destruct (mapGet "container"
              (GetTypedValue_map data "props.pageProps.pageContent.curriculumStructure"));
    try (intros H; injection H as <- _; reflexivity).
  destruct (parsePartsLoop (StringToInt s) items []); cbn [bind]; discriminate.
Qed.

(** X28.  A part returned by [ParseCurriculum] never holds both containers
    and academic items: the items of a part are read only when it has no
    container.  Without an error there is one part per raw part that is a
    map; with an error there is none. *)
Theorem X28_parts_one_kind :
  forall (data : JMap) (curriculum : Curriculum.t) (err : option string),
    ParseCurriculum data = Ok (curriculum, err) ->
    Forall (fun part => Part.Containers part = [] \/ Part.AcademicItems part = [])
           (Curriculum.Parts curriculum)
    /\ (err = None ->
        length (Curriculum.Parts curriculum) = length (partEntries data))
    /\ (err <> None -> Curriculum.Parts curriculum = []).
Proof.
  intros data curriculum [err |] H.
  - rewrite (ParseCurriculum_error _ _ _ H).
    split; [constructor |]. split; [discriminate | reflexivity].
  - pose proof (ParseCurriculum_parts _ _ H) as F. split.
    + apply (Forall2_right _ _ _ _
               (fun partMap part P => proj2 (proj2 (parsePart_fields _ partMap part P))) F).
    + split; [intros _; symmetry; apply (Forall2_length F) | congruence].
Qed.

Lemma X28_parts_one_kind_witness :
  exists curriculum,
    ParseCurriculum
      (curriculumOf "48"
         [rawPart "Part A" "24" [("relationship", JArray [rawItem "FIT1045" "6"])]])
    = Ok (curriculum, None)
    /\ Forall (fun part => Part.Containers part = [] \/ Part.AcademicItems part = [])
              (Curriculum.Parts curriculum).
Proof.
  eexists. split; [reflexivity |].
  apply (X28_parts_one_kind
           (curriculumOf "48"
              [rawPart "Part A" "24" [("relationship", JArray [rawItem "FIT1045" "6"])]])
           _ None eq_refl).
Defined.

(** ** Panics *)

Lemma parseContainer_panics (rec : JSON -> Outcome (list Container.t * string))
      (containerMap : JMap) :
  connectorMissing containerMap ->
  exists reason, parseContainer rec containerMap = Panic reason.
Proof.
  intros H. unfold parseContainer. cbv zeta.
  destruct (mapGet "parent_connector" containerMap) as [| | | | | conn] eqn:E;
    cbn [mustMap bind]; try (eexists; reflexivity).
  destruct (H conn E).
Qed.

Lemma parseContainersLoop_panics (rec : JSON -> Outcome (list Container.t * string))
      (containerSlice : list JSON) (containerMap : JMap) :
  In (JObject containerMap) containerSlice ->
  connectorMissing containerMap ->
  forall containers parentConnector,
    exists reason,
      parseContainersLoop rec containerSlice containers parentConnector = Panic reason.
Proof.
  intros I H. induction containerSlice as [| first rest IH]; [destruct I |].
  intros containers parentConnector. cbn [parseContainersLoop].
  destruct I as [-> | I].
  - destruct (parseContainer_panics rec containerMap H) as [reason ->].
    cbn [bind]. eexists. reflexivity.
  - destruct first; try apply (IH I).
    destruct (parseContainer rec fields) as [[container connector] | reason];
      cbn [bind]; [apply (IH I) | eexists; reflexivity].
Qed.

Lemma parsePart_panics (total : Z) (partMap : JMap) :
  orderMissing partMap
  \/ (exists containerSlice containerMap,
         mapIndex "container" partMap = Some (JArray containerSlice)
         /\ In (JObject containerMap) containerSlice
         /\ connectorMissing containerMap) ->
  exists reason, parsePart total partMap = Panic reason.
Proof.
  intros H. unfold parsePart. cbv zeta.
  destruct (mapGet "order" partMap) as [| | | order | |] eqn:E;
    cbn [mustString bind]; try (eexists; reflexivity).
  destruct H as [H | (containerSlice & containerMap & C & I & M)];
    [destruct (H order E) |].
  rewrite C, parseContainers_unfold. cbn [parseContainersBody].
  destruct (parseContainersLoop_panics parseContainers containerSlice containerMap I M
              [] "") as [reason ->].
  cbn [bind]. eexists. reflexivity.
Qed.

Lemma parsePartsLoop_panics (total : Z) (partsData : list JSON) (partMap : JMap) :
  In (JObject partMap) partsData ->
  (exists reason, parsePart total partMap = Panic reason) ->
  forall Parts, exists reason, parsePartsLoop total partsData Parts = Panic reason.
Proof.
  intros I [reason P]. induction partsData as [| first rest IH]; [destruct I |].
  intros Parts. cbn [parsePartsLoop].
  destruct I as [-> | I].
  - rewrite P. cbn [bind]. eexists. reflexivity.
  - destruct first; try apply (IH I).
    destruct (parsePart total fields) as [part | r];
      cbn [bind]; [apply (IH I) | eexists; reflexivity].
Qed.

(** X29.  [ParseCurriculum] does not return but panics when one of the raw
    parts has no string under ["order"], or holds, in the array under
    ["container"], a container without a map under ["parent_connector"]:
    both are read by type assertions without the [ok] result. *)
Theorem X29_parser_panics :
  forall (data : JMap) (total : string) (partsData : list JSON) (partMap : JMap),
    let structure :=
      GetTypedValue_map data "props.pageProps.pageContent.curriculumStructure" in
    mapGet "credit_points" structure = JString total ->
    mapGet "container" structure = JArray partsData ->
    In (JObject partMap) partsData ->
    orderMissing partMap
    \/ (exists containerSlice containerMap,
           mapIndex "container" partMap = Some (JArray containerSlice)
           /\ In (JObject containerMap) containerSlice
           /\ connectorMissing containerMap) ->
    exists reason, ParseCurriculum data = Panic reason.
Proof.
  intros data total partsData partMap structure T P I H.
  unfold ParseCurriculum. cbv zeta. fold structure. rewrite T, P.
  destruct (parsePartsLoop_panics (StringToInt total) partsData partMap I
              (parsePart_panics _ _ H) []) as [reason ->].
  cbn [bind]. eexists. reflexivity.
Qed.

Lemma X29_parser_panics_witness :
  exists reason,
    ParseCurriculum
      (curriculumOf "48"
         [rawPart "Part A" "24" [];
          JObject [("title", JString "Part B"); ("order", JNumber "2")]])
    = Panic reason.
Proof.
  apply (X29_parser_panics
           (curriculumOf "48"
              [rawPart "Part A" "24" [];
               JObject [("title", JString "Part B"); ("order", JNumber "2")]])
           "48"
           [rawPart "Part A" "24" [];
            JObject [("title", JString "Part B"); ("order", JNumber "2")]]
           [("title", JString "Part B"); ("order", JNumber "2")]);
    [reflexivity | reflexivity | right; left; reflexivity |].
  left. intros order. discriminate.
Defined.

(** * Properties of the course scraper *)

Lemma awardTitlesLoop_flat (arrExtract : list JMap) :
  forall awardTitles,
    Courses.awardTitlesLoop arrExtract awardTitles
    = awardTitles ++ flat_map awardTitle arrExtract.
Proof.
  induction arrExtract as [| item rest IH]; intros awardTitles;
    cbn [Courses.awardTitlesLoop flat_map].
  - rewrite app_nil_r. reflexivity.
  - unfold awardTitle at 1.
    destruct (mapGet "award_title" item); rewrite IH; try reflexivity.
    rewrite <- app_assoc. reflexivity.
Qed.

Lemma fullTimeDurationsLoop_flat (arrExtract : list JMap) :
  forall durations,
    Courses.fullTimeDurationsLoop arrExtract durations
    = durations ++ flat_map fullTimeDuration arrExtract.
Proof.
  induction arrExtract as [| item rest IH]; intros durations;
    cbn [Courses.fullTimeDurationsLoop flat_map].
  - rewrite app_nil_r. reflexivity.
  - unfold fullTimeDuration at 1.
    destruct (mapGet "type" item); try (rewrite IH; reflexivity).
    destruct (mapGet "value" fields); try (rewrite IH; reflexivity).
    destruct (s =? "Full time")%string; try (rewrite IH; reflexivity).
    destruct (mapGet "duration_display" item); rewrite IH; try reflexivity.
    rewrite <- app_assoc. reflexivity.
Qed.

Lemma flat_map_at_most_one {A B : Type} (f : A -> list B) (l : list A) :
  (forall x, (length (f x) <= 1)%nat) -> (length (flat_map f l) <= length l)%nat.
Proof.
  intros H. induction l as [| x rest IH]; simpl; [lia |].
  rewrite length_app. specialize (H x). lia.
Qed.

(** X30.  [extractAwardTitles] and [extractFullTimeDurations] return, in
    the order of the array, the ["award_title"] of every entry that has one
    as a string, and the ["duration_display"] of every entry of type
    ["Full time"] that has one as a string; other entries give nothing, so
    neither result is longer than its array, and a missing or empty array
    gives an empty result. *)
Theorem X30_course_lists :
  forall (data : JMap),
    let titles := GetTypedValue_maps data "props.pageProps.pageContent.award_titles" in
    let durations :=
      GetTypedValue_maps data "props.pageProps.pageContent.full_time_duration" in
    Courses.extractAwardTitles data = flat_map awardTitle titles
    /\ Courses.extractFullTimeDurations data = flat_map fullTimeDuration durations
    /\ (length (Courses.extractAwardTitles data) <= length titles)%nat
    /\ (length (Courses.extractFullTimeDurations data) <= length durations)%nat.
Proof.
  intros data titles durations.
  assert (Courses.extractAwardTitles data = flat_map awardTitle titles) as T.
  { unfold Courses.extractAwardTitles. cbv zeta. fold titles.
    destruct titles as [| item rest]; [reflexivity |].
    change (length (item :: rest) =? 0)%nat with false. cbv iota.
    apply (awardTitlesLoop_flat (item :: rest) []). }
  assert (Courses.extractFullTimeDurations data = flat_map fullTimeDuration durations)
    as D.
  { unfold Courses.extractFullTimeDurations. cbv zeta. fold durations.
    destruct durations as [| item rest]; [reflexivity |].
    change (length (item :: rest) =? 0)%nat with false. cbv iota.
    apply (fullTimeDurationsLoop_flat (item :: rest) []). }
  split; [exact T |]. split; [exact D |]. rewrite T, D. split.
  - apply flat_map_at_most_one. intros item. unfold awardTitle.
    destruct (mapGet "award_title" item); simpl; lia.
  - apply flat_map_at_most_one. intros item. unfold fullTimeDuration.
    destruct (mapGet "type" item); simpl; try lia.
    destruct (mapGet "value" fields); simpl; try lia.
    destruct (s =? "Full time")%string; simpl; try lia.
    destruct (mapGet "duration_display" item); simpl; lia.
Qed.
